(** * Rooster-Systeem: registration and approval workflow of the accounts app

    A shallow embedding of [backend/accounts] (models.py, serializers.py,
    views.py, admin.py) and the properties of its registration workflow.

    Conventions of the embedding.
    - Python [str] is [string]; the characters are read as ASCII.  Case
      mapping, whitespace and digit classes are those of Python on the
      ASCII range; a character above 127 is left alone by [lower] and
      [upper] and is neither a space nor a digit.
    - The database is a record of tables, each a list of rows in insertion
      order.  A QuerySet is the list of rows that pass the filter, and a
      lookup [field=value] is an exact match, character for character.
      The unique columns and the nullable ones are those of models.py.
    - Code that can raise returns a [result]; a view returns its [Response]
      together with the database it leaves behind, so a transaction that
      rolls back returns the database it was given.
    - [uuid.uuid4()], [timezone.now()] are inputs of the view that calls them.
    - Sending mail never changes the database and every send is wrapped in
      a handler that swallows its failure, so the mail helpers are left out. *)

From Stdlib Require Import String Ascii List Bool Arith Lia.
From Stdlib Require Import DecimalString DecimalNat.
From Stdlib Require Import Permutation Sorted.
Import ListNotations.
Local Open Scope list_scope.
Local Open Scope string_scope.

(* ================================================================== *)
(** ** Python text primitives *)

Module Py.

Definition code (c : ascii) : nat := nat_of_ascii c.

(** [c.isspace()], also the class [\s] of [re], on the ASCII range:
    tab, LF, VT, FF, CR, the four separators 28..31 and the space. *)
Definition between (lo hi : nat) (c : ascii) : bool :=
  Nat.leb lo (code c) && Nat.leb (code c) hi.

Definition isspace (c : ascii) : bool :=
  between 9 13 c || between 28 32 c.

(** The class [\d] of [re] on the ASCII range. *)
Definition isdigit (c : ascii) : bool := between 48 57 c.

Definition isupper (c : ascii) : bool := between 65 90 c.

Definition islower (c : ascii) : bool := between 97 122 c.

Definition lower_char (c : ascii) : ascii :=
  if isupper c then ascii_of_nat (code c + 32) else c.

Definition upper_char (c : ascii) : ascii :=
  if islower c then ascii_of_nat (code c - 32) else c.

Fixpoint map_str (f : ascii -> ascii) (s : string) : string :=
  match s with
  | EmptyString => EmptyString
  | String c r => String (f c) (map_str f r)
  end.

Fixpoint filter_str (keep : ascii -> bool) (s : string) : string :=
  match s with
  | EmptyString => EmptyString
  | String c r =>
      if keep c then String c (filter_str keep r) else filter_str keep r
  end.

Fixpoint all_str (p : ascii -> bool) (s : string) : bool :=
  match s with
  | EmptyString => true
  | String c r => p c && all_str p r
  end.

(** [s.isascii()]: every character is below 128. *)
Definition isascii (s : string) : bool :=
  all_str (fun c => Nat.ltb (code c) 128) s.

(** [s.lower()] and [s.upper()] as they are on ASCII text, where they map
    A..Z and a..z onto each other and nothing else.  Python maps the cased
    letters outside ASCII as well; these two leave them as they are, so
    what is stated of the characters of a lower-cased or upper-cased name
    is stated of names for which [isascii] holds. *)
Definition lower (s : string) : string := map_str lower_char s.
Definition upper (s : string) : string := map_str upper_char s.

(** [s.startswith(p)]. *)
Fixpoint startswith (p s : string) : bool :=
  match p, s with
  | EmptyString, _ => true
  | String _ _, EmptyString => false
  | String a p', String b s' => Ascii.eqb a b && startswith p' s'
  end.

(** [s[n:]] and [s[:n]]. *)
Fixpoint drop (n : nat) (s : string) : string :=
  match n, s with
  | 0, _ => s
  | S _, EmptyString => EmptyString
  | S k, String _ r => drop k r
  end.

Fixpoint take (n : nat) (s : string) : string :=
  match n, s with
  | 0, _ => EmptyString
  | S _, EmptyString => EmptyString
  | S k, String c r => String c (take k r)
  end.

(** [bool(s)]: a string is falsy exactly when it is empty. *)
Definition truthy (s : string) : bool :=
  match s with EmptyString => false | _ => true end.

(** [s.split()] with no argument: the maximal runs of non-space
    characters.  [cur] is the word being read, in reverse. *)
Fixpoint rev_str (acc s : string) : string :=
  match s with
  | EmptyString => acc
  | String c r => rev_str (String c acc) r
  end.

Definition flush (cur : string) (words : list string) : list string :=
  match cur with
  | EmptyString => words
  | _ => rev_str EmptyString cur :: words
  end.

Fixpoint split_go (s cur : string) : list string :=
  match s with
  | EmptyString => flush cur []
  | String c r =>
      if isspace c then flush cur (split_go r EmptyString)
      else split_go r (String c cur)
  end.

Definition split (s : string) : list string := split_go s EmptyString.

(** ["".join(ws)]. *)
Definition join (ws : list string) : string :=
  fold_right String.append EmptyString ws.

(** [f"{n}"] for a non-negative integer. *)
Definition str (n : nat) : string :=
  NilEmpty.string_of_uint (Nat.to_uint n).

Fixpoint zeros (k : nat) : string :=
  match k with 0 => EmptyString | S j => String "0" (zeros j) end.

(** [f"{n:0{w}d}"]: decimal, padded with zeros on the left to width [w],
    and longer than [w] when the number needs it. *)
Definition zfill (w : nat) (n : nat) : string :=
  zeros (w - String.length (str n)) ++ str n.

End Py.

(* ================================================================== *)
(** ** Exceptions and responses *)

Inductive exn : Type :=
| ValidationError (field : string)
| IntegrityError (constraint : string)
| DoesNotExist
| MultipleObjectsReturned
| KeyError (key : string)
| Http404
| OutOfFuel.   (* the loop bound of the model; never raised, see [probe] *)

Inductive result (A : Type) : Type :=
| Ok (a : A)
| Raise (e : exn).
Arguments Ok {A} a.
Arguments Raise {A} e.

Definition bind {A B} (m : result A) (k : A -> result B) : result B :=
  match m with
  | Ok a => k a
  | Raise e => Raise e
  end.

Notation "x <- m ;; k" := (bind m (fun x => k))
  (at level 61, m at next level, right associativity).

Definition is_ok {A} (m : result A) : bool :=
  match m with Ok _ => true | Raise _ => false end.

(** What a view hands back: the HTTP status and, where a claim reads it,
    the payload. *)
Inductive Response : Type :=
| R200
| R200_verified (applicant_name : string)
| R200_rejected
| R200_approved (new_user_id : option nat) (employee_number : option string)
| R201 (registration_id : option nat)
| R400 (errors : list string)
| R403
| R404
| R500.

(* ================================================================== *)
(** ** models.py: the tables *)

Module Company.
Record t : Type := Build {
  id : nat;                 (* primary key; a UUID in the source *)
  name : string;
  company_code : string;    (* unique *)
  is_active : bool
}.
End Company.

Module User.
Record t : Type := Build {
  id : option nat;                   (* primary key; [None] until saved *)
  username : string;                 (* unique (AbstractUser) *)
  password : string;                 (* what was handed to set_password *)
  email : string;
  first_name : string;
  last_name : string;
  phone : string;
  company : nat;                     (* foreign key to Company *)
  role : string;
  function : string;
  employee_number : option string;   (* unique; [None] is NULL *)
  hire_date : option nat;
  is_approved : bool;
  approved_by : option nat;          (* foreign key to User, nullable *)
  approved_at : option nat;
  email_verified : bool;
  is_active : bool
}.

Definition with_id (i : option nat) (u : t) : t :=
  Build i (username u) (password u) (email u) (first_name u) (last_name u)
    (phone u) (company u) (role u) (function u) (employee_number u)
    (hire_date u) (is_approved u) (approved_by u) (approved_at u)
    (email_verified u) (is_active u).

Definition with_employee_number (n : option string) (u : t) : t :=
  Build (id u) (username u) (password u) (email u) (first_name u)
    (last_name u) (phone u) (company u) (role u) (function u) n
    (hire_date u) (is_approved u) (approved_by u) (approved_at u)
    (email_verified u) (is_active u).
End User.

Module RegistrationRequest.
Record t : Type := Build {
  id : option nat;                   (* primary key; [None] until saved *)
  email : string;
  first_name : string;
  last_name : string;
  phone : string;
  function : string;
  company : nat;                     (* foreign key to Company *)
  company_code_entered : string;
  status : string;
  created_at : nat;
  reviewed_by : option nat;          (* foreign key to User, nullable *)
  reviewed_at : option nat;
  rejection_reason : string;
  verification_token : string;       (* unique *)
  email_verified : bool
  (* Meta: unique_together = ["email", "company"] *)
}.

Definition with_id (i : option nat) (r : t) : t :=
  Build i (email r) (first_name r) (last_name r) (phone r) (function r)
    (company r) (company_code_entered r) (status r) (created_at r)
    (reviewed_by r) (reviewed_at r) (rejection_reason r)
    (verification_token r) (email_verified r).

Definition with_email_verified (b : bool) (r : t) : t :=
  Build (id r) (email r) (first_name r) (last_name r) (phone r) (function r)
    (company r) (company_code_entered r) (status r) (created_at r)
    (reviewed_by r) (reviewed_at r) (rejection_reason r)
    (verification_token r) b.

Definition with_review (st : string) (by_ : option nat) (at_ : option nat)
    (r : t) : t :=
  Build (id r) (email r) (first_name r) (last_name r) (phone r) (function r)
    (company r) (company_code_entered r) st (created_at r)
    by_ at_ (rejection_reason r) (verification_token r) (email_verified r).

Definition with_rejection_reason (why : string) (r : t) : t :=
  Build (id r) (email r) (first_name r) (last_name r) (phone r) (function r)
    (company r) (company_code_entered r) (status r) (created_at r)
    (reviewed_by r) (reviewed_at r) why (verification_token r)
    (email_verified r).
End RegistrationRequest.

(** The database: the three tables and the two primary-key sequences. *)
Record DB : Type := mkDB {
  companies : list Company.t;
  users : list User.t;
  requests : list RegistrationRequest.t;
  next_user_id : nat;
  next_request_id : nat
}.

(** The day of a [timezone.now()] that counts seconds. *)
Definition date (now : nat) : nat := now / (24 * 3600).
Arguments date : simpl never.

(* ================================================================== *)
(** ** The ORM calls the source makes *)

Module Orm.

Definition opt_eqb (a b : option string) : bool :=
  match a, b with
  | Some x, Some y => String.eqb x y
  | None, None => true
  | _, _ => false
  end.

Definition id_eqb (a b : option nat) : bool :=
  match a, b with
  | Some x, Some y => Nat.eqb x y
  | None, None => true
  | _, _ => false
  end.

(** [Model.objects.get(...)] over the rows that pass the filter. *)
Definition get {A} (p : A -> bool) (rows : list A) : result A :=
  match filter p rows with
  | [] => Raise DoesNotExist
  | [x] => Ok x
  | _ :: _ :: _ => Raise MultipleObjectsReturned
  end.

(** [get_object_or_404]: DoesNotExist becomes Http404. *)
Definition get_object_or_404 {A} (p : A -> bool) (rows : list A) : result A :=
  match get p rows with
  | Raise DoesNotExist => Raise Http404
  | r => r
  end.

(** The unique columns of the user table, [username] and
    [employee_number], and the NOT NULL of [employee_number], checked
    against the other rows. *)
Definition check_user (others : list User.t) (u : User.t) : result unit :=
  if existsb (fun x => String.eqb (User.username x) (User.username u)) others
  then Raise (IntegrityError "username")
  else match User.employee_number u with
  | None => Raise (IntegrityError "employee_number")
  | Some n =>
    if existsb (fun x => opt_eqb (User.employee_number x) (Some n)) others
    then Raise (IntegrityError "employee_number")
    else Ok tt
  end.

(** [super().save()] of a user: INSERT with the next id when the
    instance has no primary key, UPDATE of its row otherwise (and INSERT
    under its own key when no row has it). *)
Definition save_user (db : DB) (u : User.t) : result (DB * User.t) :=
  match User.id u with
  | None =>
      _ <- check_user (users db) u ;;
      let u' := User.with_id (Some (next_user_id db)) u in
      Ok (mkDB (companies db) (users db ++ [u'])%list (requests db)
               (S (next_user_id db)) (next_request_id db), u')
  | Some i =>
      let mine x := id_eqb (User.id x) (Some i) in
      _ <- check_user (filter (fun x => negb (mine x)) (users db)) u ;;
      let rows :=
        if existsb mine (users db)
        then map (fun x => if mine x then u else x) (users db)
        else (users db ++ [u])%list in
      Ok (mkDB (companies db) rows (requests db)
               (next_user_id db) (next_request_id db), u)
  end.

(** Two request rows that may not both be stored: the same
    [verification_token], or the same [(email, company)]. *)
Definition same_pair (a b : RegistrationRequest.t) : bool :=
  String.eqb (RegistrationRequest.email a) (RegistrationRequest.email b)
  && Nat.eqb (RegistrationRequest.company a) (RegistrationRequest.company b).

Definition same_token (a b : RegistrationRequest.t) : bool :=
  String.eqb (RegistrationRequest.verification_token a)
             (RegistrationRequest.verification_token b).

Definition check_request (others : list RegistrationRequest.t)
    (r : RegistrationRequest.t) : result unit :=
  if existsb (same_token r) others
  then Raise (IntegrityError "verification_token")
  else if existsb (same_pair r) others
  then Raise (IntegrityError "email, company")
  else Ok tt.

Definition has_id (i : option nat) (x : RegistrationRequest.t) : bool :=
  id_eqb (RegistrationRequest.id x) i.

Definition replace_row (r x : RegistrationRequest.t) : RegistrationRequest.t :=
  if has_id (RegistrationRequest.id r) x then r else x.

(** [instance.save()] of a request, and [objects.create(...)], which is
    [save] of an instance without a primary key. *)
Definition save_request (db : DB) (r : RegistrationRequest.t)
    : result (DB * RegistrationRequest.t) :=
  match RegistrationRequest.id r with
  | None =>
      _ <- check_request (requests db) r ;;
      let r' := RegistrationRequest.with_id (Some (next_request_id db)) r in
      Ok (mkDB (companies db) (users db) (requests db ++ [r'])%list
               (next_user_id db) (S (next_request_id db)), r')
  | Some i =>
      _ <- check_request (filter (fun x => negb (has_id (Some i) x)) (requests db)) r ;;
      let rows :=
        if existsb (has_id (Some i)) (requests db)
        then map (replace_row r) (requests db)
        else (requests db ++ [r])%list in
      Ok (mkDB (companies db) (users db) rows
               (next_user_id db) (next_request_id db), r)
  end.

(** [obj.save()] of a company: [company_code] is unique; an instance that
    is being added is inserted under its own primary key, which no row may
    have, and otherwise its row is updated (inserted when there is none). *)
Definition save_company (db : DB) (c : Company.t) (adding : bool) : result DB :=
  let mine x := Nat.eqb (Company.id x) (Company.id c) in
  if existsb (fun x => String.eqb (Company.company_code x) (Company.company_code c))
             (filter (fun x => negb (mine x)) (companies db))
  then Raise (IntegrityError "company_code")
  else if adding && existsb mine (companies db)
  then Raise (IntegrityError "id")
  else
    let rows :=
      if existsb mine (companies db)
      then map (fun x => if mine x then c else x) (companies db)
      else (companies db ++ [c])%list in
    Ok (mkDB rows (users db) (requests db)
             (next_user_id db) (next_request_id db)).

End Orm.

(* ================================================================== *)
(** ** What the source takes from Django and the REST framework

    [to_internal_value name raw] is the work of the generated serializer
    field [name] before [validate_<name>] runs (required, blank, length,
    choice and e-mail syntax checks, trimming); [django_validate_password] is
    [django.contrib.auth.password_validation.validate_password] under the
    project's settings; [normalize_email] is what [create_user] does to the
    address before it builds the row.  None is code of the accounts app. *)

Class Framework : Type := {
  to_internal_value : string -> string -> result string;
  django_validate_password : string -> result unit;
  normalize_email : string -> string
}.

(** The shape shared by the two name generators of the source:
<<
    name = base; counter = 1
    while taken(name):
        name = render(counter); counter += 1
>>
    [probe] is the loop from the state [(name, counter)]. *)
Fixpoint probe (taken : string -> bool) (render : nat -> string)
    (fuel : nat) (name : string) (counter : nat) : option string :=
  match fuel with
  | 0 => None
  | S fuel' =>
      if taken name
      then probe taken render fuel' (render counter) (S counter)
      else Some name
  end.

(* ================================================================== *)
(** ** models.py: properties and [User.save] *)

Module Models.

Definition In_strs (x : string) (l : list string) : bool :=
  existsb (String.eqb x) l.

(** [User.is_manager_or_above] *)
Definition is_manager_or_above (u : User.t) : bool :=
  In_strs (User.role u) ["manager"; "owner"].

(** [User.can_approve_users] *)
Definition can_approve_users (u : User.t) : bool :=
  In_strs (User.role u) ["manager"; "owner"] && User.is_approved u.

(** [not self.employee_number] *)
Definition unset (n : option string) : bool :=
  match n with
  | None => true
  | Some s => negb (Py.truthy s)
  end.

Definition isnull (n : option string) : bool :=
  match n with None => true | Some _ => false end.

(** [User.objects.filter(company=c, employee_number__isnull=False).count()] *)
Definition numbered_in (c : nat) (db : DB) : nat :=
  List.length
    (filter (fun x => Nat.eqb (User.company x) c
                      && negb (isnull (User.employee_number x)))
            (users db)).

(** The body of [User.save] before [super().save()]. *)
Definition assign_employee_number (db : DB) (u : User.t) : result User.t :=
  if unset (User.employee_number u) then
    let last_number := numbered_in (User.company u) db in
    c <- Orm.get (fun c => Nat.eqb (Company.id c) (User.company u))
                 (companies db) ;;
    Ok (User.with_employee_number
          (Some (Company.company_code c ++ "-" ++ Py.zfill 4 (last_number + 1)))
          u)
  else Ok u.

(** [User.save] *)
Definition save (db : DB) (u : User.t) : result (DB * User.t) :=
  u' <- assign_employee_number db u ;;
  Orm.save_user db u'.

End Models.

(* ================================================================== *)
(** ** serializers.py *)

Module Serializers.

(** The body of POST /register/, and, after validation, [attrs]. *)
Record registration : Type := Registration {
  email : string;
  first_name : string;
  last_name : string;
  phone : string;
  function : string;
  company_code : string;
  password : string;
  password_confirm : string
}.

(** The outcome of [serializer.is_valid()]: the validated data, the
    fields in error, or an exception that is not a ValidationError. *)
Inductive validation (A : Type) : Type :=
| Valid (attrs : A)
| Invalid (errors : list string)
| Crashed (e : exn).
Arguments Valid {A} attrs.
Arguments Invalid {A} errors.
Arguments Crashed {A} e.

(** [RegistrationRequestSerializer.validate_email] *)
Definition validate_email (db : DB) (value : string) : result string :=
  if existsb (fun u => String.eqb (User.email u) (Py.lower value)) (users db)
  then Raise (ValidationError "email")
  else Ok (Py.lower value).

(** [re.sub(r"[\s-]", "", value)] *)
Definition cleaned (value : string) : string :=
  Py.filter_str (fun c => negb (Py.isspace c || Ascii.eqb c "-")) value.

(** [$]: the end of the string, or just before a newline that ends it. *)
Definition at_end (s : string) : bool :=
  match s with
  | EmptyString => true
  | String c EmptyString => Ascii.eqb c "010"
  | _ => false
  end.

(** [6\d{8}$] *)
Definition six_and_8_digits (s : string) : bool :=
  match s with
  | String c r =>
      Ascii.eqb c "6" && Py.all_str Py.isdigit (Py.take 8 r)
      && Nat.eqb (String.length (Py.take 8 r)) 8 && at_end (Py.drop 8 r)
  | EmptyString => false
  end.

(** [re.match(r"^(\+31|0031|0)6\d{8}$", s)]: the alternatives of the
    group are tried in turn, each followed by the rest of the pattern. *)
Definition phone_re (s : string) : bool :=
  existsb (fun p => Py.startswith p s
                    && six_and_8_digits (Py.drop (String.length p) s))
          ["+31"; "0031"; "0"].

(** [RegistrationRequestSerializer.validate_phone] *)
Definition validate_phone (value : string) : result string :=
  let cleaned_phone := cleaned value in
  if negb (phone_re cleaned_phone) then Raise (ValidationError "phone")
  else if Py.startswith "06" cleaned_phone
  then Ok ("+31" ++ Py.drop 1 cleaned_phone)
  else if Py.startswith "0031" cleaned_phone
  then Ok ("+" ++ Py.drop 2 cleaned_phone)
  else if Py.startswith "+31" cleaned_phone
  then Ok cleaned_phone
  else Ok value.

(** [re.search(cls, value)] for a one-character class. *)
Fixpoint search (cls : ascii -> bool) (s : string) : bool :=
  match s with
  | EmptyString => false
  | String c r => cls c || search cls r
  end.

(** [RegistrationRequestSerializer.validate_company_code] *)
Definition validate_company_code (db : DB) (value : string) : result string :=
  match Orm.get (fun c => String.eqb (Company.company_code c) (Py.upper value)
                          && Company.is_active c)
                (companies db) with
  | Ok _ => Ok (Py.upper value)
  | Raise DoesNotExist => Raise (ValidationError "company_code")
  | Raise e => Raise e
  end.

(** The pending requests of [(email, company)]. *)
Definition pending_for (e : string) (c : nat) (r : RegistrationRequest.t) : bool :=
  String.eqb (RegistrationRequest.email r) e
  && Nat.eqb (RegistrationRequest.company r) c
  && String.eqb (RegistrationRequest.status r) "pending".

(** [RegistrationRequestSerializer.validate] *)
Definition validate (db : DB) (attrs : registration) : result registration :=
  if negb (String.eqb (password attrs) (password_confirm attrs))
  then Raise (ValidationError "password_confirm")
  else
    company <- Orm.get (fun c => String.eqb (Company.company_code c)
                                            (company_code attrs))
                       (companies db) ;;
    let existing_request :=
      existsb (pending_for (email attrs) (Company.id company)) (requests db) in
    if existing_request then Raise (ValidationError "non_field_errors")
    else Ok attrs.

(** [RegistrationRequestSerializer.create]; [token] is [str(uuid.uuid4())]
    and [now] the [auto_now_add] of [created_at].  The password is set as
    an attribute of the returned instance only and reaches no table. *)
Definition create (db : DB) (validated_data : registration)
    (token : string) (now : nat) : result (DB * RegistrationRequest.t) :=
  company <- Orm.get (fun c => String.eqb (Company.company_code c)
                                          (company_code validated_data))
                     (companies db) ;;
  Orm.save_request db
    (RegistrationRequest.Build None
       (email validated_data) (first_name validated_data)
       (last_name validated_data) (phone validated_data)
       (function validated_data)
       (Company.id company) (company_code validated_data)
       "pending" now None None "" token false).

Section WithFramework.
Context {fw : Framework}.

(** [RegistrationRequestSerializer.validate_password] *)
Definition validate_password (value : string) : result string :=
  _ <- django_validate_password value ;;
  if Nat.ltb (String.length value) 8 then Raise (ValidationError "password")
  else if negb (search Py.isupper value) then Raise (ValidationError "password")
  else if negb (search Py.islower value) then Raise (ValidationError "password")
  else if negb (search Py.isdigit value) then Raise (ValidationError "password")
  else Ok value.

(** One declared field: the generated field, then [validate_<name>]. *)
Definition run_field (name raw : string)
    (validate_name : string -> result string) : result string :=
  v <- to_internal_value name raw ;;
  validate_name v.

Definition value_of (r : result string) : string :=
  match r with Ok v => v | Raise _ => "" end.

(** The exception of a field that is not a ValidationError, if any. *)
Fixpoint crash_of (rs : list (string * result string)) : option exn :=
  match rs with
  | [] => None
  | (_, Raise (ValidationError _)) :: t => crash_of t
  | (_, Raise e) :: _ => Some e
  | (_, Ok _) :: t => crash_of t
  end.

(** [serializer.is_valid()]: every declared field is run and the
    failing ones are collected; [validate] runs only when none fails. *)
Definition is_valid (db : DB) (data : registration) : validation registration :=
  let e := run_field "email" (email data) (validate_email db) in
  let f := run_field "first_name" (first_name data) Ok in
  let l := run_field "last_name" (last_name data) Ok in
  let p := run_field "phone" (phone data) validate_phone in
  let fn := run_field "function" (function data) Ok in
  let c := run_field "company_code" (company_code data) (validate_company_code db) in
  let pw := run_field "password" (password data) validate_password in
  let pc := run_field "password_confirm" (password_confirm data) Ok in
  let fields := [("email", e); ("first_name", f); ("last_name", l);
                 ("phone", p); ("function", fn); ("company_code", c);
                 ("password", pw); ("password_confirm", pc)] in
  match crash_of fields with
  | Some ex => Crashed ex
  | None =>
    match map fst (filter (fun x => negb (is_ok (snd x))) fields) with
    | _ :: _ as errors => Invalid errors
    | [] =>
      match validate db (Registration (value_of e) (value_of f) (value_of l)
                           (value_of p) (value_of fn) (value_of c)
                           (value_of pw) (value_of pc)) with
      | Ok attrs => Valid attrs
      | Raise (ValidationError name) => Invalid [name]
      | Raise ex => Crashed ex
      end
    end
  end.
End WithFramework.

(** The body of POST /approve-registration/<id>/ as the generated fields
    of [RegistrationApprovalSerializer] hand it on: neither key is
    required. *)
Record approval : Type := Approval {
  status : option string;
  rejection_reason : option string
}.

(** [RegistrationApprovalSerializer.validate_status] *)
Definition validate_status (value : string) : result string :=
  if negb (Models.In_strs value ["approved"; "rejected"])
  then Raise (ValidationError "status")
  else Ok value.

(** [RegistrationApprovalSerializer.validate] *)
Definition validate_approval (attrs : approval) : result approval :=
  if Orm.opt_eqb (status attrs) (Some "rejected")
     && negb (match rejection_reason attrs with
              | Some s => Py.truthy s
              | None => false
              end)
  then Raise (ValidationError "rejection_reason")
  else Ok attrs.

(** [is_valid] of the approval serializer: the choice field of [status]
    (the three STATUS_CHOICES), [validate_status], then [validate]. *)
Definition approval_is_valid (data : approval) : validation approval :=
  let st :=
    match status data with
    | None => Ok None
    | Some s =>
        if Models.In_strs s ["pending"; "approved"; "rejected"]
        then match validate_status s with
             | Ok v => Ok (Some v)
             | Raise e => Raise e
             end
        else Raise (ValidationError "status")
    end in
  match st with
  | Raise _ => Invalid ["status"]
  | Ok s =>
      match validate_approval (Approval s (rejection_reason data)) with
      | Ok attrs => Valid attrs
      | Raise (ValidationError name) => Invalid [name]
      | Raise ex => Crashed ex
      end
  end.

Section Lookup.
Context {fw : Framework}.

(** [CompanyLookupSerializer.validate_company_code] *)
Definition lookup_validate_company_code (db : DB) (value : string)
    : result string :=
  match Orm.get (fun c => String.eqb (Company.company_code c) (Py.upper value)
                          && Company.is_active c)
                (companies db) with
  | Ok _ => Ok (Py.upper value)
  | Raise DoesNotExist => Raise (ValidationError "company_code")
  | Raise e => Raise e
  end.

(** [is_valid] of [CompanyLookupSerializer]: its one field is the
    [company_code] field of the registration with [min_length=4] added. *)
Definition lookup_is_valid (db : DB) (company_code : string) : validation string :=
  match (v <- to_internal_value "company_code" company_code ;;
         if Nat.ltb (String.length v) 4
         then Raise (ValidationError "company_code")
         else lookup_validate_company_code db v) with
  | Ok v => Valid v
  | Raise (ValidationError name) => Invalid [name]
  | Raise ex => Crashed ex
  end.

End Lookup.

End Serializers.

(* ================================================================== *)
(** ** models.py: the validator of [User.phone] *)

Module Validators.

(** [\d{9,15}$]: between 9 and 15 digits, the longest run first, up to
    the end. *)
Definition digits_then_end (n : nat) (s : string) : bool :=
  Py.all_str Py.isdigit (Py.take n s)
  && Nat.eqb (String.length (Py.take n s)) n
  && Serializers.at_end (Py.drop n s).

Definition digits_9_15 (s : string) : bool :=
  existsb (fun n => digits_then_end n s) [15; 14; 13; 12; 11; 10; 9].

(** [RegexValidator(regex=r"^\+?1?\d{9,15}$")], which searches its
    pattern in the value; the two optional characters are tried present
    before absent. *)
Definition phone (value : string) : bool :=
  existsb (fun p => Py.startswith p value
                    && digits_9_15 (Py.drop (String.length p) value))
          ["+1"; "+"; "1"; ""].

End Validators.

(* ================================================================== *)
(** ** views.py *)

Module Views.
Import Serializers.

Section WithFramework.
Context {fw : Framework}.

(** [RegistrationRequestView.post]; an exception inside the atomic
    block rolls the insert back and answers 500. *)
Definition register (db : DB) (data : registration) (token : string)
    (now : nat) : Response * DB :=
  match is_valid db data with
  | Valid attrs =>
      match create db attrs token now with
      | Ok (db', registration_request) =>
          (R201 (RegistrationRequest.id registration_request), db')
      | Raise _ => (R500, db)
      end
  | Invalid errors => (R400 errors, db)
  | Crashed _ => (R500, db)
  end.

(** The rows of [RegistrationRequest.objects.get(verification_token=token,
  status="pending")]. *)
Definition pending_token (token : string) (r : RegistrationRequest.t) : bool :=
  String.eqb (RegistrationRequest.verification_token r) token
  && String.eqb (RegistrationRequest.status r) "pending".

(** [verify_email]; the [company_name] of the payload is left out. *)
Definition verify_email (db : DB) (token : string) : Response * DB :=
  match Orm.get (pending_token token) (requests db) with
  | Ok registration_request =>
    match Orm.save_request db
            (RegistrationRequest.with_email_verified true registration_request) with
    | Ok (db', r) =>
        (R200_verified (RegistrationRequest.first_name r ++ " "
                        ++ RegistrationRequest.last_name r), db')
    | Raise _ => (R500, db)
    end
  | Raise DoesNotExist => (R404, db)
  | Raise _ => (R500, db)
  end.

(** [order_by("-created_at")]; rows of one [created_at] come in no
    promised order. *)
Fixpoint insert_desc (r : RegistrationRequest.t)
  (l : list RegistrationRequest.t) : list RegistrationRequest.t :=
  match l with
  | [] => [r]
  | x :: t =>
    if Nat.ltb (RegistrationRequest.created_at x) (RegistrationRequest.created_at r)
    then r :: l
    else x :: insert_desc r t
  end.

Definition newest_first (l : list RegistrationRequest.t)
  : list RegistrationRequest.t :=
  fold_right insert_desc [] l.

(** The filter shared by the listing and the decision:
  [company=user.company, status="pending", email_verified=True]. *)
Definition open_for (user : User.t) (r : RegistrationRequest.t) : bool :=
  Nat.eqb (RegistrationRequest.company r) (User.company user)
  && String.eqb (RegistrationRequest.status r) "pending"
  && Bool.eqb (RegistrationRequest.email_verified r) true.

(** [PendingRegistrationsView.get_queryset] *)
Definition get_queryset (db : DB) (user : User.t) : list RegistrationRequest.t :=
  if negb (Models.can_approve_users user) then []
  else newest_first (filter (open_for user) (requests db)).

(** [role_mapping.get(function, "employee")] *)
Definition role_mapping : list (string * string) :=
  [("server", "employee"); ("kitchen", "employee"); ("bartender", "employee");
   ("host", "employee"); ("cleaner", "employee"); ("delivery", "employee");
   ("manager", "manager")].

Fixpoint dict_get (d : list (string * string)) (k default : string) : string :=
  match d with
  | [] => default
  | (k', v) :: t => if String.eqb k' k then v else dict_get t k default
  end.

(** [User.objects.filter(username=username).exists()] *)
Definition username_exists (db : DB) (username : string) : bool :=
  existsb (fun u => String.eqb (User.username u) username) (users db).

(** The username loop of [_create_user_account], run for at most one
  round more than there are users. *)
Definition generate_username (db : DB) (base_username : string) : option string :=
  probe (username_exists db) (fun counter => base_username ++ Py.str counter)
      (S (List.length (users db))) base_username 1.

(** [ApproveRegistrationView._create_user_account].  The instance comes
    from [get_object_or_404], so it has no [_temp_password] attribute and
    [getattr] yields its default.  [now_approved] and [now_hired] are the
    two calls of [timezone.now()].  [create_user] builds the row, with the
    model's defaults for what it is not given, and calls [User.save]; its
    normalisation of the username leaves ASCII text alone. *)
Definition _create_user_account (db : DB)
  (registration_request : RegistrationRequest.t) (approver : User.t)
  (now_approved now_hired : nat) : result (DB * User.t) :=
  let role := dict_get role_mapping
              (RegistrationRequest.function registration_request) "employee" in
  let base_username :=
  Py.lower (RegistrationRequest.first_name registration_request) ++ "."
  ++ Py.lower (RegistrationRequest.last_name registration_request) in
  match generate_username db base_username with
  | None => Raise OutOfFuel
  | Some username =>
    let temp_password := "TempPassword123!" in
    Models.save db
      (User.Build None username temp_password
         (normalize_email (RegistrationRequest.email registration_request))
         (RegistrationRequest.first_name registration_request)
         (RegistrationRequest.last_name registration_request)
         (RegistrationRequest.phone registration_request)
         (RegistrationRequest.company registration_request)
         role
         (RegistrationRequest.function registration_request)
         (Some "")
         (Some (date now_hired))
         true (User.id approver) (Some now_approved) true true)
  end.

(** The three readings of the clock during one decision. *)
Record clock : Type := Clock {
  now_reviewed : nat;
  now_approved : nat;
  now_hired : nat
  }.

(** The atomic block of [ApproveRegistrationView.post]. *)
Definition decide (db : DB) (user : User.t)
  (registration_request : RegistrationRequest.t) (validated_data : approval)
  (t : clock) : result (Response * DB) :=
  request_status <- match status validated_data with
                  | Some s => Ok s
                  | None => Raise (KeyError "status")
                  end ;;
  let reviewed :=
  RegistrationRequest.with_review request_status (User.id user)
    (Some (now_reviewed t)) registration_request in
  if String.eqb request_status "rejected" then
  let rejection_reason :=
    match rejection_reason validated_data with Some s => s | None => "" end in
  saved <- Orm.save_request db
             (RegistrationRequest.with_rejection_reason rejection_reason reviewed) ;;
  Ok (R200_rejected, fst saved)
  else if String.eqb request_status "approved" then
  saved <- Orm.save_request db reviewed ;;
  made <- _create_user_account (fst saved) (snd saved) user
            (now_approved t) (now_hired t) ;;
  Ok (R200_approved (User.id (snd made)) (User.employee_number (snd made)),
      fst made)
  else Ok (R400 [], db).

(** [ApproveRegistrationView.post]; [registration_id] is the primary key
    named in the URL. *)
Definition approve_registration (db : DB) (user : User.t)
  (registration_id : nat) (data : approval) (t : clock) : Response * DB :=
  if negb (Models.can_approve_users user) then (R403, db)
  else
  match Orm.get_object_or_404
          (fun r => Orm.has_id (Some registration_id) r && open_for user r)
          (requests db) with
  | Raise Http404 => (R404, db)
  | Raise _ => (R500, db)
  | Ok registration_request =>
      match approval_is_valid data with
      | Valid validated_data =>
          match decide db user registration_request validated_data t with
          | Ok out => out
          | Raise _ => (R500, db)
          end
      | Invalid errors => (R400 errors, db)
      | Crashed _ => (R500, db)
      end
  end.

(** [CompanyLookupView.post]; of the payload, the company found. *)
Definition company_lookup (db : DB) (company_code : string)
    : Response * option Company.t :=
  match lookup_is_valid db company_code with
  | Valid company_code =>
      match Orm.get (fun c => String.eqb (Company.company_code c) company_code
                              && Company.is_active c)
                    (companies db) with
      | Ok company => (R200, Some company)
      | Raise DoesNotExist => (R404, None)
      | Raise _ => (R500, None)
      end
  | Invalid errors => (R400 errors, None)
  | Crashed _ => (R500, None)
  end.

(** The [managers] of [RegistrationRequestView._notify_managers], in table
    order, and the addresses the notification goes to. *)
Definition managers (db : DB) (registration_request : RegistrationRequest.t)
    : list User.t :=
  filter (fun u => Nat.eqb (User.company u)
                           (RegistrationRequest.company registration_request)
                   && Models.In_strs (User.role u) ["manager"; "owner"]
                   && User.is_active u && User.is_approved u)
         (users db).

Definition manager_emails (db : DB) (registration_request : RegistrationRequest.t)
    : list string :=
  map User.email (managers db registration_request).

End WithFramework.
End Views.

(* ================================================================== *)
(** ** admin.py *)

Module Admin.

(** [base_code] of [CompanyAdmin.save_model]:
    ["".join([c.upper() for c in obj.name.split()[:2]])[:4]] *)
Definition base_code (name : string) : string :=
  Py.take 4 (Py.join (map Py.upper (firstn 2 (Py.split name)))).

(** [Company.objects.filter(company_code=company_code).exists()] *)
Definition code_exists (db : DB) (company_code : string) : bool :=
  existsb (fun c => String.eqb (Company.company_code c) company_code)
          (companies db).

(** The code loop of [CompanyAdmin.save_model], run for at most one round
    more than there are companies. *)
Definition generate_code (db : DB) (name : string) : option string :=
  probe (code_exists db) (fun counter => base_code name ++ Py.zfill 2 counter)
        (S (List.length (companies db))) (base_code name) 1.

(** The [company_code] that [CompanyAdmin.save_model] leaves on [obj]
    before it hands the object to [super().save_model]. *)
Definition issue_code (db : DB) (obj : Company.t) : option Company.t :=
  if negb (Py.truthy (Company.company_code obj)) then
    match generate_code db (Company.name obj) with
    | Some company_code =>
        Some (Company.Build (Company.id obj) (Company.name obj) company_code
                (Company.is_active obj))
    | None => None
    end
  else Some obj.

(** [CompanyAdmin.save_model]: the code is issued when it is empty, then
    [super().save_model] saves the object; it is being added when [change]
    is false. *)
Definition company_save_model (db : DB) (obj : Company.t) (change : bool)
    : result DB :=
  match issue_code db obj with
  | Some obj' => Orm.save_company db obj' (negb change)
  | None => Raise OutOfFuel
  end.

(** Of the [HttpRequest] of an admin view: the user, and its
    [is_superuser], a column of [AbstractUser] that the user table above
    leaves out. *)
Record http_request : Type := Request {
  user : User.t;
  is_superuser : bool
}.

(** [RegistrationRequestAdmin.get_queryset]: every user has a company, so
    the last branch of the source is never taken; the rows come in the
    order of the model's [Meta]. *)
Definition requests_queryset (db : DB) (request : http_request)
    : list RegistrationRequest.t :=
  let qs := Views.newest_first (requests db) in
  if is_superuser request then qs
  else filter (fun r => Nat.eqb (RegistrationRequest.company r)
                                (User.company (user request))) qs.

(** The queryset an action is given: the rows of [get_queryset] whose
    primary key was ticked. *)
Definition ticked (selected : list nat) (r : RegistrationRequest.t) : bool :=
  match RegistrationRequest.id r with
  | Some i => existsb (Nat.eqb i) selected
  | None => false
  end.

Definition action_queryset (db : DB) (request : http_request)
    (selected : list nat) : list RegistrationRequest.t :=
  filter (ticked selected) (requests_queryset db request).

(** The loop of [approve_requests] over the rows it has read; [now k] is
    the clock at the [k]-th row.  A save that raises ends the action, and
    what was saved before stays. *)
Fixpoint approve_each (db : DB) (reviewer : option nat) (now : nat -> nat)
    (approved_count : nat) (rows : list RegistrationRequest.t)
    : DB * result nat :=
  match rows with
  | [] => (db, Ok approved_count)
  | registration_request :: rest =>
      match Orm.save_request db
              (RegistrationRequest.with_review "approved" reviewer
                 (Some (now approved_count)) registration_request) with
      | Ok (db', _) => approve_each db' reviewer now (S approved_count) rest
      | Raise e => (db, Raise e)
      end
  end.

(** [RegistrationRequestAdmin.approve_requests]: the database it leaves
    and the count it reports. *)
Definition approve_requests (db : DB) (request : http_request)
    (selected : list nat) (now : nat -> nat) : DB * result nat :=
  approve_each db (User.id (user request)) now 0
    (filter (fun r => String.eqb (RegistrationRequest.status r) "pending"
                      && Bool.eqb (RegistrationRequest.email_verified r) true)
            (action_queryset db request selected)).

(** [RegistrationRequestAdmin.reject_requests]: one UPDATE, whose WHERE
    clause is that of the queryset together with [status="pending"], and
    the number of rows it reports. *)
Definition rejects (request : http_request) (selected : list nat)
    (r : RegistrationRequest.t) : bool :=
  ticked selected r
  && (is_superuser request
      || Nat.eqb (RegistrationRequest.company r) (User.company (user request)))
  && String.eqb (RegistrationRequest.status r) "pending".

Definition reject_requests (db : DB) (request : http_request)
    (selected : list nat) (now : nat) : DB * nat :=
  let hit := rejects request selected in
  (mkDB (companies db) (users db)
        (map (fun r =>
                if hit r
                then RegistrationRequest.with_rejection_reason
                       "Afgewezen via bulk actie in admin"
                       (RegistrationRequest.with_review "rejected"
                          (User.id (user request)) (Some now) r)
                else r)
             (requests db))
        (next_user_id db) (next_request_id db),
   List.length (filter (fun x => String.eqb (RegistrationRequest.status x) "pending")
                       (action_queryset db request selected))).

(** [UserAdmin.save_model] *)
Definition user_save_model (db : DB) (request : http_request) (obj : User.t)
    (change : bool) (now : nat) : result (DB * User.t) :=
  let obj :=
    if negb change && Models.is_manager_or_above (user request)
    then User.Build (User.id obj) (User.username obj) (User.password obj)
           (User.email obj) (User.first_name obj) (User.last_name obj)
           (User.phone obj) (User.company obj) (User.role obj)
           (User.function obj) (User.employee_number obj) (User.hire_date obj)
           true (User.id (user request)) (Some now)
           (User.email_verified obj) (User.is_active obj)
    else obj in
  Models.save db obj.

End Admin.

(* ================================================================== *)
(** ** The specification's wording, where it is compared with the code *)

Module Spec.

(** "optional [+31]/[0031]/leading [0] prefix followed by [6] and 8
    digits": the pattern of the code with the prefix group made optional,
    [^(\+31|0031|0)?6\d{8}$]. *)
Definition phone_pattern (s : string) : bool :=
  existsb (fun p => Py.startswith p s
                    && Serializers.six_and_8_digits (Py.drop (String.length p) s))
          [""; "+31"; "0031"; "0"].

(** "uppercase initials of the first two words of the name, truncated to
    4 characters": the first letter of each of the two words. *)
Definition initials (name : string) : string :=
  Py.take 4 (Py.join (map (fun w => Py.upper (Py.take 1 w))
                          (firstn 2 (Py.split name)))).

(** "the count of existing accounts in the tenant with a non-null employee
    number": [numbered_accounts tenant accounts n] holds when exactly [n]
    of the [accounts], each counted as often as it stands in the list,
    are of the tenant and have an employee number that is not NULL. *)
Inductive numbered_accounts (tenant : nat) : list User.t -> nat -> Prop :=
| counted_none : numbered_accounts tenant [] 0
| counted_in (x : User.t) (accounts : list User.t) (n : nat) :
    User.company x = tenant -> User.employee_number x <> None ->
    numbered_accounts tenant accounts n ->
    numbered_accounts tenant (x :: accounts) (S n)
| counted_out (x : User.t) (accounts : list User.t) (n : nat) :
    User.company x <> tenant \/ User.employee_number x = None ->
    numbered_accounts tenant accounts n ->
    numbered_accounts tenant (x :: accounts) n.

End Spec.

(** A Dutch mobile number [s] in one of the three written forms the
    pattern of [validate_phone] has: the prefix [p], a 6, the 8 digits [d]. *)
Definition mobile_form (s p d : string) : Prop :=
  In p ["+31"; "0031"; "0"] /\ s = p ++ "6" ++ d
  /\ String.length d = 8 /\ Py.all_str Py.isdigit d = true.

(* ================================================================== *)
(** ** Notions the statements are written in *)

(** Reading a numeral back, leading zeros allowed. *)
Definition read_nat (s : string) : option nat :=
  option_map Nat.of_uint (NilEmpty.uint_of_string s).

(** The [j]-th name the loop [probe] looks at when it starts in
    [(name, counter)]. *)
Definition candidate (render : nat -> string) (name : string)
    (counter j : nat) : string :=
  match j with
  | 0 => name
  | S i => render (counter + i)
  end.

Definition pair_of (r : RegistrationRequest.t) : string * nat :=
  (RegistrationRequest.email r, RegistrationRequest.company r).

(** What the schema guarantees of the request table: primary keys issued
    by the sequence and pairwise different, [verification_token] unique,
    [(email, company)] unique together. *)
Record requests_consistent (db : DB) : Prop := {
  ids_distinct : NoDup (map RegistrationRequest.id (requests db));
  ids_issued : forall r, In r (requests db) ->
      exists i, RegistrationRequest.id r = Some i /\ i < next_request_id db;
  tokens_distinct :
      NoDup (map RegistrationRequest.verification_token (requests db));
  pairs_distinct : NoDup (map pair_of (requests db))
}.

(** A stored row [x] replaced by [r] with the same key columns. *)
Definition same_keys (r x : RegistrationRequest.t) : Prop :=
  RegistrationRequest.id r = RegistrationRequest.id x
  /\ RegistrationRequest.verification_token r
     = RegistrationRequest.verification_token x
  /\ pair_of r = pair_of x.

(** Every row of [db] is still a row of [db'], under the same primary key,
    token and [(email, company)]. *)
Definition rows_kept (db db' : DB) : Prop :=
  forall r, In r (requests db) ->
    exists r', In r' (requests db') /\ same_keys r' r.

Definition kept_consistent (db db' : DB) : Prop :=
  requests_consistent db' /\ rows_kept db db'.

Section Workflow.
Context {fw : Framework}.

(** The account [_create_user_account] builds from the request [rr] for
    the approver, under the generated [username] and the employee number
    [number], before it gets its primary key. *)
Definition account_of (rr : RegistrationRequest.t) (approver : User.t)
    (t : Views.clock) (username : string) (number : string) : User.t :=
  User.Build None username "TempPassword123!"
    (normalize_email (RegistrationRequest.email rr))
    (RegistrationRequest.first_name rr) (RegistrationRequest.last_name rr)
    (RegistrationRequest.phone rr) (RegistrationRequest.company rr)
    (if String.eqb (RegistrationRequest.function rr) "manager"
     then "manager" else "employee")
    (RegistrationRequest.function rr) (Some number)
    (Some (date (Views.now_hired t))) true (User.id approver)
    (Some (Views.now_approved t)) true true.

(** Every declared field of [data] passes, and yields the field of [attrs]. *)
Definition fields_pass (db : DB) (data attrs : Serializers.registration) : Prop :=
  Serializers.run_field "email" (Serializers.email data)
    (Serializers.validate_email db) = Ok (Serializers.email attrs)
  /\ Serializers.run_field "first_name" (Serializers.first_name data) Ok
     = Ok (Serializers.first_name attrs)
  /\ Serializers.run_field "last_name" (Serializers.last_name data) Ok
     = Ok (Serializers.last_name attrs)
  /\ Serializers.run_field "phone" (Serializers.phone data)
       Serializers.validate_phone = Ok (Serializers.phone attrs)
  /\ Serializers.run_field "function" (Serializers.function data) Ok
     = Ok (Serializers.function attrs)
  /\ Serializers.run_field "company_code" (Serializers.company_code data)
       (Serializers.validate_company_code db)
     = Ok (Serializers.company_code attrs)
  /\ Serializers.run_field "password" (Serializers.password data)
       Serializers.validate_password = Ok (Serializers.password attrs)
  /\ Serializers.run_field "password_confirm"
       (Serializers.password_confirm data) Ok
     = Ok (Serializers.password_confirm attrs).

(** One request served by the workflow. *)
Inductive step : DB -> DB -> Prop :=
| step_register (db : DB) (data : Serializers.registration) (token : string)
    (now : nat) :
    step db (snd (Views.register db data token now))
| step_verify (db : DB) (token : string) :
    step db (snd (Views.verify_email db token))
| step_decide (db : DB) (user : User.t) (registration_id : nat)
    (data : Serializers.approval) (t : Views.clock) :
    step db (snd (Views.approve_registration db user registration_id data t)).

Inductive steps : DB -> DB -> Prop :=
| steps_none (db : DB) : steps db db
| steps_more (db mid db' : DB) : steps db mid -> step mid db' -> steps db db'.

End Workflow.

(* ================================================================== *)
(** ** management/commands/setup_testdata.py, and one applicant *)

(** A framework that lets every field through unchanged. *)
Definition plain : Framework :=
  {| to_internal_value := fun _ raw => Ok raw;
     django_validate_password := fun _ => Ok tt;
     normalize_email := fun e => e |}.

Module TestData.

Definition company : Company.t :=
  Company.Build 1 "Jill Sushi Wok & Grill" "JILL01" true.

Definition empty : DB := mkDB [] [] [] 1 1.

Definition fresh : DB := mkDB [company] [] [] 1 1.

(** [User.objects.create_user(..., is_approved=True, email_verified=True)] *)
Definition create_user (db : DB) (username email_ password first last
    role function phone : string) : result (DB * User.t) :=
  Models.save db
    (User.Build None username password email_ first last phone
       (Company.id company) role function (Some "") None true None None
       true true).

(** [Command.handle] on a database that holds none of the three users. *)
Definition handle : result DB :=
  a <- create_user fresh "admin" "admin@jillsushi.nl" "admin123"
         "Admin" "User" "owner" "manager" "+31612345678" ;;
  m <- create_user (fst a) "manager.jill" "manager@jillsushi.nl" "manager123"
         "Jill" "Manager" "manager" "manager" "+31612345679" ;;
  e <- create_user (fst m) "test.werknemer" "werknemer@jillsushi.nl"
         "werknemer123" "Test" "Werknemer" "employee" "server" "+31612345680" ;;
  Ok (fst e).

Definition seeded : DB :=
  Eval vm_compute in match handle with Ok db => db | Raise _ => fresh end.

Definition manager : User.t :=
  Eval vm_compute in nth 1 (users seeded)
                       (User.Build None "" "" "" "" "" "" 0 "" "" None None
                          false None None false false).

(** A manager who was never approved. *)
Definition unapproved : User.t :=
  User.Build (Some 9) "new.manager" "x" "new@jillsushi.nl" "New" "Manager"
    "+31612345681" 1 "manager" "manager" (Some "JILL01-0009") None false
    None None true true.

Definition application : Serializers.registration :=
  Serializers.Registration "Sanne.Bakker@Example.nl" "Sanne" "Bakker"
    "06-12345678" "server" "jill01" "Welkom123" "Welkom123".

Definition times : Views.clock := Views.Clock 200 201 202.

(** The applicant submits, verifies, and is approved or rejected. *)
Definition submitted : DB :=
  Eval vm_compute in snd (Views.register (fw := plain) seeded application "tok-1" 100).

Definition verified : DB :=
  Eval vm_compute in snd (Views.verify_email submitted "tok-1").

Definition approved : DB :=
  Eval vm_compute in
    snd (Views.approve_registration (fw := plain) verified manager 1
           (Serializers.Approval (Some "approved") None) times).

Definition rejected : DB :=
  Eval vm_compute in
    snd (Views.approve_registration (fw := plain) verified manager 1
           (Serializers.Approval (Some "rejected") (Some "Geen plek")) times).

(** A second applicant with the same name, while the first is pending;
    both verify, and the manager approves one after the other. *)
Definition application2 : Serializers.registration :=
  Serializers.Registration "sanne@bakker.example" "Sanne" "Bakker"
    "+31 6 1234 5679" "manager" "JILL01" "Welkom123" "Welkom123".

Definition both_verified : DB :=
  Eval vm_compute in
    snd (Views.verify_email
           (snd (Views.register (fw := plain) verified application2 "tok-2" 150))
           "tok-2").

Definition first_approved : DB :=
  Eval vm_compute in
    snd (Views.approve_registration (fw := plain) both_verified manager 1
           (Serializers.Approval (Some "approved") None) times).

Definition second_approved : DB :=
  Eval vm_compute in
    snd (Views.approve_registration (fw := plain) first_approved manager 2
           (Serializers.Approval (Some "approved") None) times).

(** An account that the admin site stored with capitals in its address. *)
Definition capitals : DB :=
  Eval vm_compute in
    match create_user seeded "kees.jansen" "Kees.Jansen@jillsushi.nl" "x"
            "Kees" "Jansen" "employee" "kitchen" "+31612345682" with
    | Ok out => fst out
    | Raise _ => seeded
    end.

End TestData.

(* ================================================================== *)
(** ** management/commands/setup_testdata.py: the command *)

Module Command.

(** [Company.objects.get_or_create(company_code='JILL01', defaults=...)];
    [uuid] is the primary key a created company gets. *)
Definition get_or_create (db : DB) (uuid : nat) : result (DB * Company.t) :=
  match Orm.get (fun c => String.eqb (Company.company_code c) "JILL01")
                (companies db) with
  | Ok company => Ok (db, company)
  | Raise DoesNotExist =>
      let company := Company.Build uuid "Jill Sushi Wok & Grill" "JILL01" true in
      db' <- Orm.save_company db company true ;;
      Ok (db', company)
  | Raise e => Raise e
  end.

(** [if not User.objects.filter(username=...).exists(): create_user(...)],
    with [is_approved=True, email_verified=True]. *)
Definition create_unless_exists (db : DB) (company : Company.t)
    (username email_ password first last role function phone : string)
    : result DB :=
  if Views.username_exists db username then Ok db
  else
    made <- Models.save db
              (User.Build None username password email_ first last phone
                 (Company.id company) role function (Some "") None true None
                 None true true) ;;
    Ok (fst made).

(** [Command.handle] without [--reset].  An exception ends the command;
    what it had written stays in the database, which the result of the
    model does not show. *)
Definition handle (db : DB) (uuid : nat) : result DB :=
  found <- get_or_create db uuid ;;
  let company := snd found in
  db1 <- create_unless_exists (fst found) company "admin" "admin@jillsushi.nl"
           "admin123" "Admin" "User" "owner" "manager" "+31612345678" ;;
  db2 <- create_unless_exists db1 company "manager.jill" "manager@jillsushi.nl"
           "manager123" "Jill" "Manager" "manager" "manager" "+31612345679" ;;
  create_unless_exists db2 company "test.werknemer" "werknemer@jillsushi.nl"
    "werknemer123" "Test" "Werknemer" "employee" "server" "+31612345680".

End Command.

(* ================================================================== *)
(** ** Further notions *)

(** What the schema guarantees of the user table: primary keys issued by
    the sequence and pairwise different, [username] unique,
    [employee_number] unique and not NULL. *)
Record users_consistent (db : DB) : Prop := {
  user_ids_distinct : NoDup (map User.id (users db));
  user_ids_issued : forall u, In u (users db) ->
      exists i, User.id u = Some i /\ i < next_user_id db;
  usernames_distinct : NoDup (map User.username (users db));
  numbers_distinct : NoDup (map User.employee_number (users db));
  numbers_set : forall u, In u (users db) -> User.employee_number u <> None
}.

(** The employee number [User.save] would give a new account of the
    company [c], whose primary key is [cid]. *)
Definition next_number (db : DB) (cid : nat) (c : Company.t) : string :=
  Company.company_code c ++ "-" ++ Py.zfill 4 (Models.numbered_in cid db + 1).

(** What the schema guarantees of the company table. *)
Record companies_consistent (db : DB) : Prop := {
  company_ids_distinct : NoDup (map Company.id (companies db));
  company_codes_distinct : NoDup (map Company.company_code (companies db))
}.

(** [a] may stand before [b] in a list ordered by [-created_at]. *)
Definition not_older (a b : RegistrationRequest.t) : Prop :=
  RegistrationRequest.created_at b <= RegistrationRequest.created_at a.

(** The row a decision leaves: [rr] as reviewed by [user] at the reading
    [now_reviewed] of the clock, with the status and the reason given. *)
Definition decided_row (st reason : string) (user : User.t) (t : Views.clock)
    (rr : RegistrationRequest.t) : RegistrationRequest.t :=
  RegistrationRequest.with_rejection_reason reason
    (RegistrationRequest.with_review st (User.id user)
       (Some (Views.now_reviewed t)) rr).

(** Every row of [db] that is not pending is a row of [db'], unchanged. *)
Definition decided_kept (db db' : DB) : Prop :=
  forall r, In r (requests db) -> RegistrationRequest.status r <> "pending" ->
    In r (requests db').

(** The user table of [db'] is consistent and extends that of [db]. *)
Definition users_extended (db db' : DB) : Prop :=
  users_consistent db' /\ exists added, users db' = (users db ++ added)%list.

(** The rows [approve_requests] saves. *)
Definition bulk_approved (db : DB) (request : Admin.http_request)
    (selected : list nat) : list RegistrationRequest.t :=
  filter (fun r => String.eqb (RegistrationRequest.status r) "pending"
                   && Bool.eqb (RegistrationRequest.email_verified r) true)
         (Admin.action_queryset db request selected).

(** The row [reject_requests] writes in the place of [r]. *)
Definition bulk_rejected (request : Admin.http_request) (now : nat)
    (r : RegistrationRequest.t) : RegistrationRequest.t :=
  RegistrationRequest.with_rejection_reason "Afgewezen via bulk actie in admin"
    (RegistrationRequest.with_review "rejected"
       (User.id (Admin.user request)) (Some now) r).

(** ** Further test data *)

Module MoreData.

(** The request of the first applicant as it is stored after the
    verification. *)
Definition pending_row : RegistrationRequest.t :=
  Eval vm_compute in
    hd (RegistrationRequest.Build None "" "" "" "" "" 0 "" "" 0 None None ""
          "" false)
       (requests TestData.verified).

(** The admin account has been deleted: two accounts of the company are
    left, and the number a count of them gives, 0003, is still held. *)
Definition after_removal : DB :=
  Eval vm_compute in
    mkDB (companies TestData.verified) (tl (users TestData.verified))
         (requests TestData.verified) (next_user_id TestData.verified)
         (next_request_id TestData.verified).

Definition employee : User.t :=
  Eval vm_compute in nth 2 (users TestData.seeded) TestData.manager.

(** A second company is added on the admin site, its code left empty, and
    an applicant registers with the code issued. *)
Definition sushi_bar : Company.t := Company.Build 2 "Sushi Bar" "" true.

Definition application3 : Serializers.registration :=
  Serializers.Registration "piet@sushibar.example" "Piet" "Visser"
    "0687654321" "kitchen" "sush" "Welkom123" "Welkom123".

Definition two_companies : DB :=
  Eval vm_compute in
    match Admin.company_save_model TestData.verified sushi_bar false with
    | Ok db =>
        snd (Views.verify_email
               (snd (Views.register (fw := plain) db application3 "tok-3" 160))
               "tok-3")
    | Raise _ => TestData.verified
    end.

Definition other_row : RegistrationRequest.t :=
  Eval vm_compute in nth 1 (requests two_companies) pending_row.

(** The manager on the admin site, not a superuser. *)
Definition manager_request : Admin.http_request :=
  Admin.Request TestData.manager false.

(** A manager who was never approved adds an account on the admin site. *)
Definition new_account : User.t :=
  User.Build None "kees.jansen" "x" "kees@jillsushi.nl" "Kees" "Jansen"
    "+31612345682" 1 "employee" "kitchen" None None false None None false
    true.

Definition admin_added : DB * User.t :=
  Eval vm_compute in
    match Admin.user_save_model TestData.seeded
            (Admin.Request TestData.unapproved false) new_account false 300 with
    | Ok out => out
    | Raise _ => (TestData.seeded, new_account)
    end.

End MoreData.


(* ================================================================== *)
(** * Properties *)

(** ** Booleans, filters and [get] *)

Create HintDb rooster discriminated.

Lemma In_strs_spec (x : string) (l : list string) :
  Models.In_strs x l = true <-> In x l.
Proof.
  unfold Models.In_strs. rewrite existsb_exists. split.
  - intros [y [Hy Heq]]. apply String.eqb_eq in Heq. now subst.
  - intros H. exists x. split; [assumption | apply String.eqb_refl].
Qed.

Lemma filter_none {A} (p : A -> bool) (l : list A) :
  (forall x, In x l -> p x = false) -> filter p l = [].
Proof.
  induction l as [|a l IH]; intros H; simpl; [reflexivity|].
  rewrite (H a (or_introl eq_refl)). apply IH. intros x Hx. apply H. now right.
Qed.

Lemma get_none {A} (p : A -> bool) (l : list A) :
  (forall x, In x l -> p x = false) -> Orm.get p l = Raise DoesNotExist.
Proof. intros H. unfold Orm.get. now rewrite (filter_none p l H). Qed.

Lemma get_Ok_In {A} (p : A -> bool) (l : list A) (x : A) :
  Orm.get p l = Ok x -> In x l /\ p x = true.
Proof.
  unfold Orm.get. intros H.
  destruct (filter p l) as [|y [|z r]] eqn:E; try discriminate.
  injection H as ->. apply filter_In. rewrite E. now left.
Qed.

Lemma open_for_spec (user : User.t) (r : RegistrationRequest.t) :
  Views.open_for user r = true <->
  RegistrationRequest.company r = User.company user
  /\ RegistrationRequest.status r = "pending"
  /\ RegistrationRequest.email_verified r = true.
Proof.
  unfold Views.open_for.
  rewrite !andb_true_iff, Nat.eqb_eq, String.eqb_eq, Bool.eqb_true_iff.
  tauto.
Qed.

Lemma has_id_spec (i : nat) (r : RegistrationRequest.t) :
  Orm.has_id (Some i) r = true <-> RegistrationRequest.id r = Some i.
Proof.
  unfold Orm.has_id, Orm.id_eqb.
  destruct (RegistrationRequest.id r) as [j|]; [|split; discriminate].
  rewrite Nat.eqb_eq. split; [now intros -> | now intros [= ->]].
Qed.

Section Decisions.
Context {fw : Framework}.

(** C1.  A caller who may approve, deciding on a request id for which no
    stored request is at once of the caller's company, pending and
    e-mail-verified (the request is of another company, is already decided,
    is unverified, or does not exist), gets 404 whatever the body says, and
    the database, the user table with it, is left as it was. *)
Theorem decide_hidden_request_404
    (db : DB) (user : User.t) (registration_id : nat)
    (data : Serializers.approval) (t : Views.clock) :
  Models.can_approve_users user = true ->
  (forall r, In r (requests db) ->
     RegistrationRequest.id r = Some registration_id ->
     ~ (RegistrationRequest.company r = User.company user
        /\ RegistrationRequest.status r = "pending"
        /\ RegistrationRequest.email_verified r = true)) ->
  Views.approve_registration db user registration_id data t = (R404, db).
Proof.
  intros Hcan Hnone. unfold Views.approve_registration, Orm.get_object_or_404.
  rewrite Hcan. simpl negb. cbv iota.
  rewrite get_none; [reflexivity|].
  intros r Hr. apply not_true_is_false. intros Hp.
  apply andb_true_iff in Hp as [Hid Hopen].
  apply has_id_spec in Hid. apply open_for_spec in Hopen.
  exact (Hnone r Hr Hid Hopen).
Qed.

(** C6.  [can_approve_users] is exactly "role is manager or owner, and
    approved".  A caller without it lists nothing, and a decision of theirs
    is answered 403 with the database untouched; the answer is the same on
    any other database, so no request was read. *)
Theorem unprivileged_caller_gate
    (db other : DB) (user : User.t) (registration_id : nat)
    (data : Serializers.approval) (t : Views.clock) :
  (Models.can_approve_users user = true <->
     (User.role user = "manager" \/ User.role user = "owner")
     /\ User.is_approved user = true)
  /\ (Models.can_approve_users user = false ->
        Views.get_queryset db user = []
        /\ Views.approve_registration db user registration_id data t = (R403, db)
        /\ fst (Views.approve_registration other user registration_id data t)
           = fst (Views.approve_registration db user registration_id data t)).
Proof.
  split.
  - unfold Models.can_approve_users.
    rewrite andb_true_iff, In_strs_spec. simpl. intuition congruence.
  - intros Hno. unfold Views.get_queryset, Views.approve_registration.
    rewrite Hno. simpl. auto.
Qed.

End Decisions.

(* ================================================================== *)
(** ** Strings *)

Lemma str_app_nil_r (s : string) : s ++ "" = s.
Proof. induction s; simpl; congruence. Qed.

Lemma str_app_assoc (a b c : string) : (a ++ b) ++ c = a ++ b ++ c.
Proof. induction a; simpl; congruence. Qed.

Lemma str_app_inv_head (a b c : string) : a ++ b = a ++ c -> b = c.
Proof. induction a; simpl; intros H; [assumption|]. injection H. auto. Qed.

Lemma str_length_app (a b : string) :
  String.length (a ++ b) = String.length a + String.length b.
Proof. induction a; simpl; congruence. Qed.

(* ================================================================== *)
(** ** Phone numbers *)

Lemma startswith_split (p s : string) :
  Py.startswith p s = true -> s = p ++ Py.drop (String.length p) s.
Proof.
  revert s. induction p as [|a p IH]; intros [|b s] H; simpl in *;
    try reflexivity; try discriminate.
  apply andb_true_iff in H as [Hab H]. apply Ascii.eqb_eq in Hab. subst b.
  now rewrite <- IH.
Qed.

Lemma startswith_app (p r : string) : Py.startswith p (p ++ r) = true.
Proof.
  induction p as [|a p IH]; simpl; [reflexivity|].
  now rewrite Ascii.eqb_refl.
Qed.

Lemma drop_app (p r : string) : Py.drop (String.length p) (p ++ r) = r.
Proof. induction p; simpl; auto. Qed.

Lemma take_drop (n : nat) (s : string) : Py.take n s ++ Py.drop n s = s.
Proof.
  revert s. induction n as [|n IH]; intros [|c s]; simpl; try reflexivity.
  now rewrite IH.
Qed.

Lemma take_app_exact (d r : string) : Py.take (String.length d) (d ++ r) = d.
Proof. induction d; simpl; [now destruct r | congruence]. Qed.

Lemma all_str_app (p : ascii -> bool) (a b : string) :
  Py.all_str p (a ++ b) = Py.all_str p a && Py.all_str p b.
Proof.
  induction a as [|c a IH]; simpl; [reflexivity|].
  now rewrite IH, andb_assoc.
Qed.

Lemma all_str_filter (keep : ascii -> bool) (s : string) :
  Py.all_str keep (Py.filter_str keep s) = true.
Proof.
  induction s as [|c s IH]; simpl; [reflexivity|].
  destruct (keep c) eqn:E; simpl; [now rewrite E|assumption].
Qed.

(** What is left by [cleaned] holds no space and no hyphen. *)
Lemma cleaned_clean (value : string) :
  Py.all_str (fun c => negb (Py.isspace c || Ascii.eqb c "-"))
             (Serializers.cleaned value) = true.
Proof. apply all_str_filter. Qed.

Lemma six_and_8_digits_spec (s : string) :
  Serializers.six_and_8_digits s = true <->
  exists d e, s = "6" ++ d ++ e /\ String.length d = 8
              /\ Py.all_str Py.isdigit d = true /\ Serializers.at_end e = true.
Proof.
  split.
  - destruct s as [|c r]; [discriminate|]. unfold Serializers.six_and_8_digits.
    rewrite !andb_true_iff, Ascii.eqb_eq, Nat.eqb_eq.
    intros [[[-> Hd] Hl] He].
    exists (Py.take 8 r), (Py.drop 8 r). now rewrite take_drop.
  - intros (d & e & -> & Hl & Hd & He).
    assert (Ht : Py.take 8 (d ++ e) = d) by (rewrite <- Hl; apply take_app_exact).
    assert (Hr : Py.drop 8 (d ++ e) = e) by (rewrite <- Hl; apply drop_app).
    change (Serializers.six_and_8_digits ("6" ++ d ++ e))
      with (Ascii.eqb "6" "6" && Py.all_str Py.isdigit (Py.take 8 (d ++ e))
            && Nat.eqb (String.length (Py.take 8 (d ++ e))) 8
            && Serializers.at_end (Py.drop 8 (d ++ e))).
    rewrite Ht, Hr, Hd, He, Hl. reflexivity.
Qed.

Lemma phone_re_spec (s : string) :
  Serializers.phone_re s = true <->
  exists p d e, In p ["+31"; "0031"; "0"] /\ s = p ++ "6" ++ d ++ e
    /\ String.length d = 8 /\ Py.all_str Py.isdigit d = true
    /\ Serializers.at_end e = true.
Proof.
  unfold Serializers.phone_re. rewrite existsb_exists. split.
  - intros (p & Hp & H). apply andb_true_iff in H as [Hs H6].
    apply six_and_8_digits_spec in H6 as (d & e & Hr & Hl & Hd & He).
    exists p, d, e. repeat split; try assumption.
    rewrite (startswith_split _ _ Hs) at 1. now rewrite Hr.
  - intros (p & d & e & Hp & -> & Hl & Hd & He). exists p. split; [assumption|].
    rewrite startswith_app, drop_app, andb_true_l.
    apply six_and_8_digits_spec. now exists d, e.
Qed.

Lemma phone_re_cleaned (value : string) :
  Serializers.phone_re (Serializers.cleaned value) = true <->
  exists p d, mobile_form (Serializers.cleaned value) p d.
Proof.
  rewrite phone_re_spec. split.
  - intros (p & d & e & Hp & Hs & Hl & Hd & He).
    exists p, d. repeat split; try assumption.
    destruct e as [|c [|c' e]]; try discriminate.
    + now rewrite Hs, str_app_nil_r.
    + simpl in He. apply Ascii.eqb_eq in He. subst c.
      pose proof (cleaned_clean value) as Hc. rewrite Hs in Hc.
      rewrite !all_str_app in Hc.
      apply andb_true_iff in Hc as [_ Hc].
      apply andb_true_iff in Hc as [_ Hc].
      apply andb_true_iff in Hc as [_ Hc]. discriminate.
  - intros (p & d & Hp & Hs & Hl & Hd). exists p, d, "".
    rewrite str_app_nil_r. repeat split; assumption.
Qed.

Lemma normalise_mobile (value p d : string) :
  mobile_form (Serializers.cleaned value) p d ->
  Serializers.validate_phone value = Ok ("+316" ++ d).
Proof.
  intros Hm. unfold Serializers.validate_phone.
  assert (Hre : Serializers.phone_re (Serializers.cleaned value) = true)
    by (apply phone_re_cleaned; now exists p, d).
  rewrite Hre. simpl negb. cbv iota.
  destruct Hm as (Hp & -> & _ & _). simpl in Hp.
  destruct Hp as [<-|[<-|[<-|[]]]]; reflexivity.
Qed.

(** C7, as the code has it.  After spaces and hyphens are taken out,
    [validate_phone] accepts exactly the strings made of one of the
    prefixes +31, 0031 or 0 (one of them must be there), a 6 and 8 digits;
    every accepted input comes out as +316 followed by its 8 digits, and
    everything else is refused with a validation error on the field. *)
Theorem validate_phone_dutch_mobile (value : string) :
  (forall p d, mobile_form (Serializers.cleaned value) p d ->
     Serializers.validate_phone value = Ok ("+316" ++ d))
  /\ (forall out, Serializers.validate_phone value = Ok out ->
        exists p d, mobile_form (Serializers.cleaned value) p d
                    /\ out = "+316" ++ d)
  /\ ((forall p d, ~ mobile_form (Serializers.cleaned value) p d) ->
        Serializers.validate_phone value = Raise (ValidationError "phone"))
  /\ Serializers.validate_phone "06-12345678" = Ok "+31612345678"
  /\ Serializers.validate_phone "0031612345678" = Ok "+31612345678"
  /\ Serializers.validate_phone "+31612345678" = Ok "+31612345678"
  /\ Serializers.validate_phone "0512345678" = Raise (ValidationError "phone").
Proof.
  split; [|split; [|split]].
  - intros p d. apply normalise_mobile.
  - intros out Hout.
    destruct (Serializers.phone_re (Serializers.cleaned value)) eqn:Hre.
    + apply phone_re_cleaned in Hre as (p & d & Hm). exists p, d.
      split; [assumption|].
      rewrite (@normalise_mobile _ _ _ Hm) in Hout. now injection Hout.
    + unfold Serializers.validate_phone in Hout. rewrite Hre in Hout.
      discriminate.
  - intros Hnone. unfold Serializers.validate_phone.
    destruct (Serializers.phone_re (Serializers.cleaned value)) eqn:Hre;
      [|reflexivity].
    apply phone_re_cleaned in Hre as (p & d & Hm). now destruct (Hnone p d).
  - repeat split; reflexivity.
Qed.

(** C7, as the specification words it, fails: a 6 and 8 digits with no
    prefix fits "optional prefix, 6, 8 digits", and the code refuses it. *)
Lemma phone_without_prefix_refused :
  Spec.phone_pattern (Serializers.cleaned "612345678") = true
  /\ Serializers.validate_phone "612345678" = Raise (ValidationError "phone").
Proof. split; reflexivity. Qed.

(* ================================================================== *)
(** ** Decimal numerals *)

Lemma read_str (n : nat) : read_nat (Py.str n) = Some n.
Proof.
  unfold read_nat, Py.str. rewrite NilEmpty.usu. simpl.
  now rewrite DecimalNat.Unsigned.of_to.
Qed.

Lemma read_zero (s : string) : read_nat (String "0" s) = read_nat s.
Proof.
  unfold read_nat. simpl. now destruct (NilEmpty.uint_of_string s).
Qed.

Lemma read_zfill (w n : nat) : read_nat (Py.zfill w n) = Some n.
Proof.
  unfold Py.zfill. induction (w - String.length (Py.str n)) as [|k IH]; simpl.
  - apply read_str.
  - now rewrite read_zero.
Qed.

Lemma str_inj (a b : nat) : Py.str a = Py.str b -> a = b.
Proof.
  intros H. apply (f_equal read_nat) in H. rewrite !read_str in H. congruence.
Qed.

Lemma zfill_inj (w a b : nat) : Py.zfill w a = Py.zfill w b -> a = b.
Proof.
  intros H. apply (f_equal read_nat) in H. rewrite !read_zfill in H. congruence.
Qed.

Lemma str_not_empty (n : nat) : Py.str n <> "".
Proof.
  intros H. pose proof (read_str n) as Hn. rewrite H in Hn.
  injection Hn as Hn. subst n. discriminate.
Qed.

Lemma zfill_not_empty (w n : nat) : Py.zfill w n <> "".
Proof.
  unfold Py.zfill. destruct (w - String.length (Py.str n)); simpl;
    [apply str_not_empty | discriminate].
Qed.

Lemma suffix_not_empty (base r : string) : base = base ++ r -> r = "".
Proof.
  intros H. apply (str_app_inv_head base). now rewrite str_app_nil_r.
Qed.

(* ================================================================== *)
(** ** The name loop *)

Section Probe.
Variable taken : string -> bool.
Variable render : nat -> string.

Lemma candidate_shift (name : string) (counter i : nat) :
  candidate render (render counter) (S counter) i = candidate render name counter (S i).
Proof.
  destruct i as [|i]; simpl; [now rewrite Nat.add_0_r|].
  f_equal. lia.
Qed.

(** The loop returns the first candidate that is not taken. *)
Lemma probe_first_free (fuel : nat) (name : string) (counter : nat) (x : string) :
  probe taken render fuel name counter = Some x ->
  exists j, j < fuel /\ x = candidate render name counter j /\ taken x = false
            /\ forall i, i < j -> taken (candidate render name counter i) = true.
Proof.
  revert name counter.
  induction fuel as [|fuel IH]; intros name counter H; simpl in H; [discriminate|].
  destruct (taken name) eqn:Ht.
  - apply IH in H as (j & Hj & Hx & Hfree & Hbefore).
    exists (S j). rewrite <- candidate_shift.
    repeat split; try assumption; [lia|].
    intros [|i] Hi; [exact Ht|].
    rewrite <- candidate_shift. apply Hbefore. lia.
  - injection H as <-. exists 0. repeat split; try assumption; [lia|].
    intros i Hi. lia.
Qed.

(** The loop ends within [fuel] rounds once one of the first [fuel]
    candidates is free. *)
Lemma probe_total (fuel : nat) (name : string) (counter j : nat) :
  j < fuel -> taken (candidate render name counter j) = false ->
  exists x, probe taken render fuel name counter = Some x.
Proof.
  revert name counter j.
  induction fuel as [|fuel IH]; intros name counter j Hj Hfree; [lia|].
  simpl. destruct (taken name) eqn:Ht; [|now exists name].
  destruct j as [|j]; [simpl in Hfree; congruence|].
  apply (IH _ _ j); [lia|]. now rewrite (candidate_shift name).
Qed.

Lemma forallb_false_witness {A} (f : A -> bool) (l : list A) :
  forallb f l = false -> exists x, In x l /\ f x = false.
Proof.
  induction l as [|a l IH]; simpl; [discriminate|].
  destruct (f a) eqn:E; simpl; intros H.
  - destruct (IH H) as (x & Hx & Hf). exists x. auto.
  - exists a. auto.
Qed.

(** Pigeonhole: when the taken names all lie in [keys] and the candidates
    are pairwise different, one more round than [keys] has entries is
    enough. *)
Lemma probe_terminates (keys : list string) (name : string) (counter : nat) :
  (forall s, taken s = true -> In s keys) ->
  (forall i j, candidate render name counter i = candidate render name counter j -> i = j) ->
  exists x, probe taken render (S (List.length keys)) name counter = Some x.
Proof.
  intros Hkeys Hinj.
  set (n := List.length keys).
  destruct (forallb (fun j => taken (candidate render name counter j)) (seq 0 (S n)))
    eqn:Hall.
  - exfalso. rewrite forallb_forall in Hall.
    assert (Hnd : NoDup (map (candidate render name counter) (seq 0 (S n)))).
    { apply NoDup_map_NoDup_ForallPairs; [|apply seq_NoDup].
      intros i j _ _. apply Hinj. }
    assert (Hincl : incl (map (candidate render name counter) (seq 0 (S n))) keys).
    { intros s Hs. apply in_map_iff in Hs as (j & <- & Hj). auto. }
    pose proof (NoDup_incl_length Hnd Hincl) as Hlen.
    rewrite length_map, length_seq in Hlen. subst n. lia.
  - apply forallb_false_witness in Hall as (j & Hj & Hfree).
    apply in_seq in Hj. apply (probe_total (S n) name counter j); [lia|assumption].
Qed.

End Probe.

(** The candidates [base], [base ++ render 1], [base ++ render 2], ... are
    pairwise different when [render] is injective and never empty. *)
Lemma candidates_differ (render : nat -> string) (base : string) :
  (forall a b, render a = render b -> a = b) ->
  (forall a, render a <> "") ->
  forall i j,
    candidate (fun c => base ++ render c) base 1 i
    = candidate (fun c => base ++ render c) base 1 j -> i = j.
Proof.
  intros Hinj Hne [|i] [|j]; simpl; intros H; try reflexivity.
  - apply suffix_not_empty in H. now destruct (Hne (S j)).
  - symmetry in H. apply suffix_not_empty in H. now destruct (Hne (S i)).
  - apply str_app_inv_head, Hinj in H. congruence.
Qed.

(** Both generators: over a table [rows] with the column [key], the loop
    from [base] with the suffixes [render 1], [render 2], ... ends within
    its bound, on the first candidate that no row holds. *)
Lemma generator_first_free {A} (rows : list A) (key : A -> string)
    (render : nat -> string) (base : string) :
  (forall a b, render a = render b -> a = b) ->
  (forall a, render a <> "") ->
  let taken s := existsb (fun r => String.eqb (key r) s) rows in
  let cand := candidate (fun c => base ++ render c) base 1 in
  exists x j,
    probe taken (fun c => base ++ render c) (S (List.length rows)) base 1 = Some x
    /\ x = cand j /\ taken x = false
    /\ forall i, i < j -> taken (cand i) = true.
Proof.
  intros Hinj Hne taken cand.
  destruct (probe_terminates taken (fun c => base ++ render c)
              (map key rows) base 1) as [x Hx].
  - intros s Hs. unfold taken in Hs. apply existsb_exists in Hs as (r & Hr & He).
    apply String.eqb_eq in He. subst s. now apply in_map.
  - apply candidates_differ; assumption.
  - rewrite length_map in Hx.
    destruct (probe_first_free _ _ _ _ _ _ Hx) as (j & _ & Hj & Hfree & Hbefore).
    exists x, j. auto.
Qed.

(* ================================================================== *)
(** ** Company codes *)

(** C9, as the code has it.  With no code given, the code issued is found
    in a loop that always ends, and no company has the code issued.  For a
    name in ASCII the code is the base, the first two words of the name in
    upper case, joined and cut to 4 characters, when no company has that
    code; otherwise the base followed by the least counter k >= 1, written
    with two digits, such that no company has that code.  A code that was
    given is kept. *)
Theorem issue_code_first_free (db : DB) (obj : Company.t) :
  let base := Py.take 4 (Py.join (map Py.upper (firstn 2 (Py.split (Company.name obj))))) in
  exists code,
    Admin.generate_code db (Company.name obj) = Some code
    /\ Admin.code_exists db code = false
    /\ (Py.isascii (Company.name obj) = true ->
        code = base
        \/ exists k, 1 <= k /\ code = base ++ Py.zfill 2 k
             /\ Admin.code_exists db base = true
             /\ forall i, 1 <= i < k ->
                  Admin.code_exists db (base ++ Py.zfill 2 i) = true)
    /\ (Company.company_code obj = "" ->
        Admin.issue_code db obj
        = Some (Company.Build (Company.id obj) (Company.name obj) code
                  (Company.is_active obj)))
    /\ (Company.company_code obj <> "" -> Admin.issue_code db obj = Some obj).
Proof.
  intros base.
  destruct (generator_first_free (companies db) Company.company_code
              (Py.zfill 2) base (zfill_inj 2) (zfill_not_empty 2))
    as (code & j & Hrun & Hj & Hfree & Hbefore).
  exists code. split; [exact Hrun|]. split; [exact Hfree|]. split; [|split].
  - intros _. destruct j as [|j]; [left; exact Hj|right].
    exists (S j). simpl in Hj. repeat split; try assumption; [lia| |].
    + apply (Hbefore 0). lia.
    + intros i [Hi1 Hi2]. destruct i as [|i]; [lia|].
      apply (Hbefore (S i)). lia.
  - intros Hnone. unfold Admin.issue_code. rewrite Hnone. simpl.
    unfold Admin.generate_code, Admin.base_code in Hrun.
    unfold Admin.generate_code, Admin.base_code. fold base.
    unfold Admin.code_exists. now rewrite Hrun.
  - intros Hgiven. unfold Admin.issue_code.
    destruct (Company.company_code obj); [congruence|reflexivity].
Qed.

(* ================================================================== *)
(** ** Approval: what a successful decision leaves behind *)

Lemma save_request_update (db db' : DB) (r r' : RegistrationRequest.t) (i : nat) :
  RegistrationRequest.id r = Some i ->
  Orm.save_request db r = Ok (db', r') ->
  r' = r /\ users db' = users db /\ companies db' = companies db
  /\ next_user_id db' = next_user_id db
  /\ next_request_id db' = next_request_id db
  /\ requests db' =
       (if existsb (Orm.has_id (Some i)) (requests db)
        then map (Orm.replace_row r) (requests db)
        else (requests db ++ [r])%list).
Proof.
  intros Hid H. unfold Orm.save_request in H. rewrite Hid in H.
  destruct (Orm.check_request _ r); simpl in H; [|discriminate].
  injection H as <- <-. simpl. auto 6.
Qed.

Lemma role_mapping_get (f : string) :
  Views.dict_get Views.role_mapping f "employee"
  = if String.eqb f "manager" then "manager" else "employee".
Proof.
  destruct (String.eqb_spec f "manager") as [->|Hf]; [reflexivity|].
  cbv [Views.dict_get Views.role_mapping].
  repeat match goal with
         | |- context [String.eqb ?k f] =>
             destruct (String.eqb_spec k f); [try reflexivity; congruence|]
         end.
  reflexivity.
Qed.

Section Approval.
Context {fw : Framework}.

Lemma create_user_account_inv (db db' : DB) (rr : RegistrationRequest.t)
    (approver u : User.t) (t : Views.clock) :
  Views._create_user_account db rr approver (Views.now_approved t)
    (Views.now_hired t) = Ok (db', u) ->
  exists username c,
    Views.generate_username db
      (Py.lower (RegistrationRequest.first_name rr) ++ "."
       ++ Py.lower (RegistrationRequest.last_name rr)) = Some username
    /\ Orm.get (fun c => Nat.eqb (Company.id c) (RegistrationRequest.company rr))
               (companies db) = Ok c
    /\ u = User.with_id (Some (next_user_id db))
             (account_of rr approver t username
                (Company.company_code c ++ "-"
                 ++ Py.zfill 4 (Models.numbered_in (RegistrationRequest.company rr) db + 1)))
    /\ users db' = (users db ++ [u])%list
    /\ requests db' = requests db
    /\ companies db' = companies db
    /\ Orm.check_user (users db) u = Ok tt.
Proof.
  unfold Views._create_user_account. rewrite role_mapping_get. intros H.
  destruct (Views.generate_username db _) as [username|] eqn:Hname; [|discriminate].
  unfold Models.save, Models.assign_employee_number in H.
  cbn [User.employee_number Models.unset Py.truthy negb User.company] in H.
  destruct (Orm.get _ (companies db)) as [c|] eqn:Hc; cbn [bind] in H; [|discriminate].
  unfold Orm.save_user in H. cbn [User.with_employee_number User.id] in H.
  match type of H with
  | context [Orm.check_user ?l ?x] => destruct (Orm.check_user l x) as [[]|] eqn:Hchk
  end; cbn [bind] in H; [|discriminate].
  injection H as <- <-. exists username, c.
  repeat split; try assumption; try reflexivity.
Qed.

Lemma approve_inv (db db' : DB) (user : User.t) (registration_id : nat)
    (data : Serializers.approval) (t : Views.clock)
    (uid : option nat) (num : option string) :
  Views.approve_registration db user registration_id data t
    = (R200_approved uid num, db') ->
  exists rr db1 u,
    Models.can_approve_users user = true
    /\ In rr (requests db)
    /\ RegistrationRequest.id rr = Some registration_id
    /\ Views.open_for user rr = true
    /\ Orm.save_request db
         (RegistrationRequest.with_review "approved" (User.id user)
            (Some (Views.now_reviewed t)) rr)
       = Ok (db1, RegistrationRequest.with_review "approved" (User.id user)
                    (Some (Views.now_reviewed t)) rr)
    /\ Views._create_user_account db1
         (RegistrationRequest.with_review "approved" (User.id user)
            (Some (Views.now_reviewed t)) rr)
         user (Views.now_approved t) (Views.now_hired t) = Ok (db', u)
    /\ uid = User.id u /\ num = User.employee_number u.
Proof.
  unfold Views.approve_registration. intros H.
  destruct (Models.can_approve_users user) eqn:Hcan; simpl in H; [|discriminate].
  unfold Orm.get_object_or_404 in H.
  destruct (Orm.get _ (requests db)) as [rr|e] eqn:Hget;
    [|destruct e; discriminate].
  apply get_Ok_In in Hget as [Hin Hp]. apply andb_true_iff in Hp as [Hid Hopen].
  apply has_id_spec in Hid.
  destruct (Serializers.approval_is_valid data) as [vd| |]; try discriminate.
  unfold Views.decide in H.
  destruct (Serializers.status vd) as [s|]; simpl in H; [|discriminate].
  destruct (String.eqb_spec s "rejected") as [Hs|Hr].
  { subst s. destruct (Orm.save_request db _); simpl in H; discriminate. }
  destruct (String.eqb_spec s "approved") as [Hs|Ha]; [subst s|discriminate].
  destruct (Orm.save_request db _) as [[db1 r1]|] eqn:Hsave; simpl in H;
    [|discriminate].
  destruct (save_request_update db db1
              (RegistrationRequest.with_review "approved" (User.id user)
                 (Some (Views.now_reviewed t)) rr)
              r1 registration_id Hid Hsave) as [-> _].
  destruct (Views._create_user_account db1 _ user _ _) as [[db2 u]|] eqn:Hmk;
    simpl in H; [|discriminate].
  injection H as <- <- <-. exists rr, db1, u. auto 10.
Qed.

End Approval.

Section Provisioning.
Context {fw : Framework}.

Lemma generate_username_users (db db1 : DB) (base : string) :
  users db1 = users db ->
  Views.generate_username db1 base = Views.generate_username db base.
Proof.
  intros H. unfold Views.generate_username, Views.username_exists. now rewrite H.
Qed.

Lemma generate_username_first_free (db : DB) (base : string) :
  exists name j,
    Views.generate_username db base = Some name
    /\ name = candidate (fun c => base ++ Py.str c) base 1 j
    /\ Views.username_exists db name = false
    /\ forall i, i < j ->
         Views.username_exists db (candidate (fun c => base ++ Py.str c) base 1 i)
         = true.
Proof.
  exact (generator_first_free (users db) User.username Py.str base
           str_inj str_not_empty).
Qed.

(** C5.  The username loop always ends.  A decision that answers
    "approved" has added exactly one account to the user table: its role
    is manager when the request's function is manager and employee
    otherwise; no user had its username; for a request whose first and
    last name are in ASCII the username is the lower-case first name, a
    dot and the lower-case last name when no user has that name, and
    otherwise that name followed by the least counter k >= 1 for which no
    user has the result; it is approved, by the caller, at the time read
    for it, its e-mail counts as verified, and its hire date is the day of
    the decision. *)
Theorem approved_account_fields (db : DB) (user : User.t)
    (registration_id : nat) (data : Serializers.approval) (t : Views.clock) :
  (forall base, exists name, Views.generate_username db base = Some name)
  /\ forall uid num db',
      Views.approve_registration db user registration_id data t
        = (R200_approved uid num, db') ->
      exists rr u,
        In rr (requests db)
        /\ RegistrationRequest.id rr = Some registration_id
        /\ users db' = (users db ++ [u])%list
        /\ User.id u = uid
        /\ User.role u
           = (if String.eqb (RegistrationRequest.function rr) "manager"
              then "manager" else "employee")
        /\ (Py.isascii (RegistrationRequest.first_name rr) = true ->
            Py.isascii (RegistrationRequest.last_name rr) = true ->
            let base := Py.lower (RegistrationRequest.first_name rr) ++ "."
                          ++ Py.lower (RegistrationRequest.last_name rr) in
            User.username u = base
            \/ exists k, 1 <= k /\ User.username u = base ++ Py.str k
                 /\ Views.username_exists db base = true
                 /\ forall i, 1 <= i < k ->
                      Views.username_exists db (base ++ Py.str i) = true)
        /\ Views.username_exists db (User.username u) = false
        /\ User.is_approved u = true
        /\ User.approved_by u = User.id user
        /\ User.approved_at u = Some (Views.now_approved t)
        /\ User.email_verified u = true
        /\ User.hire_date u = Some (date (Views.now_hired t)).
Proof.
  split.
  { intros base. destruct (generate_username_first_free db base) as (n & _ & H & _).
    now exists n. }
  intros uid num db' H.
  apply approve_inv in H
    as (rr & db1 & u & _ & Hin & Hid & _ & Hsave & Hmk & -> & ->).
  destruct (save_request_update db db1
              (RegistrationRequest.with_review "approved" (User.id user)
                 (Some (Views.now_reviewed t)) rr)
              _ registration_id Hid Hsave) as (_ & Husers & _).
  apply create_user_account_inv in Hmk
    as (username & c & Hname & _ & -> & Hnew & _).
  rewrite (generate_username_users db db1 _ Husers) in Hname.
  cbn [RegistrationRequest.with_review RegistrationRequest.first_name
       RegistrationRequest.last_name] in Hname.
  destruct (generate_username_first_free db
              (Py.lower (RegistrationRequest.first_name rr) ++ "."
               ++ Py.lower (RegistrationRequest.last_name rr)))
    as (name & j & Hrun & Hj & Hfree & Hbefore).
  rewrite Hname in Hrun. injection Hrun as <-.
  exists rr. eexists. split; [exact Hin|]. split; [exact Hid|].
  split; [rewrite <- Husers; exact Hnew|].
  cbn. repeat split; try assumption.
  intros _ _. destruct j as [|j]; [left; exact Hj|right].
  exists (S j). simpl in Hj. repeat split; try assumption; [lia| |].
  - apply (Hbefore 0). lia.
  - intros i [Hi1 Hi2]. destruct i as [|i]; [lia|].
    apply (Hbefore (S i)). lia.
Qed.

End Provisioning.

(* ================================================================== *)
(** ** Employee numbers *)

Lemma numbered_in_snoc (c : nat) (db db' : DB) (u : User.t) :
  users db' = (users db ++ [u])%list ->
  User.company u = c -> User.employee_number u <> None ->
  Models.numbered_in c db' = Models.numbered_in c db + 1.
Proof.
  intros Hu Hc Hn. unfold Models.numbered_in.
  rewrite Hu, filter_app, length_app. f_equal. simpl.
  rewrite Hc, Nat.eqb_refl.
  destruct (User.employee_number u); [reflexivity|congruence].
Qed.

Lemma numbered_in_users (c : nat) (db db' : DB) :
  users db' = users db -> Models.numbered_in c db' = Models.numbered_in c db.
Proof. intros H. unfold Models.numbered_in. now rewrite H. Qed.

(** The query of [User.save] counts what the specification counts. *)
Lemma numbered_accounts_filter (tenant : nat) (accounts : list User.t) :
  Spec.numbered_accounts tenant accounts
    (List.length
       (filter (fun x => Nat.eqb (User.company x) tenant
                         && negb (Models.isnull (User.employee_number x)))
               accounts)).
Proof.
  induction accounts as [|x accounts IH]; simpl; [constructor|].
  destruct (Nat.eqb (User.company x) tenant) eqn:Hco; simpl.
  - apply Nat.eqb_eq in Hco.
    destruct (User.employee_number x) as [number|] eqn:Hnum; simpl.
    + apply Spec.counted_in; [exact Hco | congruence | exact IH].
    + apply Spec.counted_out; [right; exact Hnum | exact IH].
  - apply Nat.eqb_neq in Hco. apply Spec.counted_out; [left; exact Hco | exact IH].
Qed.

Lemma numbered_accounts_unique (tenant : nat) (accounts : list User.t)
    (n m : nat) :
  Spec.numbered_accounts tenant accounts n ->
  Spec.numbered_accounts tenant accounts m -> n = m.
Proof.
  intros Hn. revert m.
  induction Hn as [|x accounts n Hco Hnum Hn IH|x accounts n Hout Hn IH];
    intros m Hm; inversion Hm as [|? ? m' Hco' Hnum' Hm'|? ? m' Hout' Hm']; subst.
  - reflexivity.
  - f_equal. now apply IH.
  - destruct Hout' as [Hne|Hnull]; [now elim Hne | now elim Hnum].
  - destruct Hout as [Hne|Hnull]; [now elim Hne | now elim Hnum'].
  - now apply IH.
Qed.

Lemma numbered_in_counts (tenant : nat) (db : DB) (n : nat) :
  Spec.numbered_accounts tenant (users db) n -> Models.numbered_in tenant db = n.
Proof.
  intros Hn.
  apply (numbered_accounts_unique tenant (users db)); [|exact Hn].
  apply numbered_accounts_filter.
Qed.

(** [super().save()] stores the employee number the instance has. *)
Lemma save_user_number (db db' : DB) (x u' : User.t) :
  Orm.save_user db x = Ok (db', u') ->
  User.employee_number u' = User.employee_number x.
Proof.
  unfold Orm.save_user.
  destruct (User.id x); destruct (Orm.check_user _ x); cbn [bind];
    try discriminate; intros [= _ <-]; reflexivity.
Qed.

Section Numbering.
Context {fw : Framework}.

(** What one approval does to the numbering of the caller's company. *)
Lemma approve_numbers (db db' : DB) (user : User.t) (registration_id : nat)
    (data : Serializers.approval) (t : Views.clock)
    (uid : option nat) (num : option string) :
  Views.approve_registration db user registration_id data t
    = (R200_approved uid num, db') ->
  exists c,
    Orm.get (fun c => Nat.eqb (Company.id c) (User.company user)) (companies db)
      = Ok c
    /\ num = Some (Company.company_code c ++ "-"
                   ++ Py.zfill 4 (Models.numbered_in (User.company user) db + 1))
    /\ Models.numbered_in (User.company user) db'
       = Models.numbered_in (User.company user) db + 1
    /\ companies db' = companies db.
Proof.
  intros H.
  apply approve_inv in H
    as (rr & db1 & u & _ & Hin & Hid & Hopen & Hsave & Hmk & -> & ->).
  apply open_for_spec in Hopen as (Hco & _).
  destruct (save_request_update db db1
              (RegistrationRequest.with_review "approved" (User.id user)
                 (Some (Views.now_reviewed t)) rr)
              _ registration_id Hid Hsave) as (_ & Husers & Hcos & _).
  apply create_user_account_inv in Hmk
    as (username & c & _ & Hc & -> & Hnew & _ & Hcos' & _).
  cbn [RegistrationRequest.with_review RegistrationRequest.company] in *.
  rewrite Hco, Hcos in Hc. exists c. split; [exact Hc|].
  rewrite Hco, (numbered_in_users _ db db1 Husers). split; [reflexivity|].
  split; [|congruence].
  rewrite <- (numbered_in_users _ db db1 Husers).
  apply (numbered_in_snoc _ db1 db' _ Hnew); [exact Hco | discriminate].
Qed.

(** C2.  The accounts of a company that have an employee number can be
    counted.  With N their number, [User.save] on an account of the
    company whose number is still empty assigns the company code, a hyphen
    and N + 1 on four digits or more, and that is the number stored; on an
    account that has a number it assigns nothing, and the number stored is
    the one the account had.  Two approvals in a row in one company give,
    with N the count before the first, the numbers N + 1 and N + 2 of that
    company, which differ. *)
Theorem employee_number_assigned_once (db : DB) (u : User.t) :
  (exists N, Spec.numbered_accounts (User.company u) (users db) N)
  /\ (Models.unset (User.employee_number u) = true ->
      forall c N,
        Orm.get (fun c => Nat.eqb (Company.id c) (User.company u)) (companies db)
          = Ok c ->
        Spec.numbered_accounts (User.company u) (users db) N ->
        Models.assign_employee_number db u
        = Ok (User.with_employee_number
                (Some (Company.company_code c ++ "-" ++ Py.zfill 4 (N + 1)))
                u)
        /\ forall db' u', Models.save db u = Ok (db', u') ->
             User.employee_number u'
             = Some (Company.company_code c ++ "-" ++ Py.zfill 4 (N + 1)))
  /\ (Models.unset (User.employee_number u) = false ->
      Models.assign_employee_number db u = Ok u
      /\ forall db' u', Models.save db u = Ok (db', u') ->
           User.employee_number u' = User.employee_number u)
  /\ (forall manager1 manager2 id1 id2 data1 data2 t1 t2
             uid1 num1 db1 uid2 num2 db2,
        User.company manager1 = User.company manager2 ->
        Views.approve_registration db manager1 id1 data1 t1
          = (R200_approved uid1 num1, db1) ->
        Views.approve_registration db1 manager2 id2 data2 t2
          = (R200_approved uid2 num2, db2) ->
        exists c N,
          In c (companies db) /\ Company.id c = User.company manager1
          /\ Spec.numbered_accounts (User.company manager1) (users db) N
          /\ Spec.numbered_accounts (User.company manager1) (users db1) (N + 1)
          /\ num1 = Some (Company.company_code c ++ "-" ++ Py.zfill 4 (N + 1))
          /\ num2 = Some (Company.company_code c ++ "-" ++ Py.zfill 4 (N + 2))
          /\ num1 <> num2).
Proof.
  split; [|split; [|split]].
  - eexists. apply numbered_accounts_filter.
  - intros Hunset c N Hc HN.
    assert (Ha : Models.assign_employee_number db u
                 = Ok (User.with_employee_number
                         (Some (Company.company_code c ++ "-"
                                ++ Py.zfill 4 (N + 1))) u)).
    { unfold Models.assign_employee_number. rewrite Hunset, Hc. cbn [bind].
      now rewrite (numbered_in_counts _ _ _ HN). }
    split; [exact Ha|]. intros db' u' Hs. unfold Models.save in Hs.
    rewrite Ha in Hs. cbn [bind] in Hs.
    now rewrite (save_user_number _ _ _ _ Hs).
  - intros Hset.
    assert (Ha : Models.assign_employee_number db u = Ok u).
    { unfold Models.assign_employee_number. now rewrite Hset. }
    split; [exact Ha|]. intros db' u' Hs. unfold Models.save in Hs.
    rewrite Ha in Hs. cbn [bind] in Hs.
    exact (save_user_number _ _ _ _ Hs).
  - intros m1 m2 id1 id2 data1 data2 t1 t2 uid1 num1 db1 uid2 num2 db2
      Hsame H1 H2.
    apply approve_numbers in H1 as (c & Hc & -> & Hcount & Hcos).
    apply approve_numbers in H2 as (c' & Hc' & -> & _).
    rewrite <- Hsame, Hcos, Hc in Hc'. injection Hc' as <-.
    rewrite <- Hsame, Hcount.
    exists c, (Models.numbered_in (User.company m1) db).
    replace (Models.numbered_in (User.company m1) db + 1 + 1)
      with (Models.numbered_in (User.company m1) db + 2) by lia.
    apply get_Ok_In in Hc as [Hin Hid]. apply Nat.eqb_eq in Hid.
    split; [exact Hin|]. split; [exact Hid|].
    split; [apply numbered_accounts_filter|].
    split; [rewrite <- Hcount; apply numbered_accounts_filter|].
    split; [reflexivity|]. split; [reflexivity|].
    intros Heq. injection Heq as Heq.
    apply str_app_inv_head in Heq. change ("-" ++ ?x) with (String "-" x) in Heq.
    injection Heq as Heq. apply zfill_inj in Heq. lia.
Qed.

End Numbering.

(* ================================================================== *)
(** ** The request table and its constraints *)

Lemma NoDup_map_inj {A B} (f : A -> B) (l : list A) (x y : A) :
  NoDup (map f l) -> In x l -> In y l -> f x = f y -> x = y.
Proof.
  induction l as [|a l IH]; simpl; intros Hnd Hx Hy Hf; [contradiction|].
  inversion Hnd as [|? ? Hnotin Hnd']; subst.
  destruct Hx as [->|Hx], Hy as [->|Hy]; auto.
  - exfalso. apply Hnotin. rewrite Hf. now apply in_map.
  - exfalso. apply Hnotin. rewrite <- Hf. now apply in_map.
Qed.

Lemma filter_unique {A B} (f : A -> B) (p : A -> bool) (l : list A) (r : A) :
  NoDup (map f l) -> In r l -> p r = true ->
  (forall x, In x l -> p x = true -> f x = f r) ->
  filter p l = [r].
Proof.
  intros Hnd Hr Hp Hkey.
  assert (Hall : forall x, In x l -> p x = true -> x = r).
  { intros x Hx Hpx. apply (NoDup_map_inj f l); auto. }
  apply NoDup_map_inv in Hnd. clear Hkey.
  induction l as [|a l IH]; [contradiction|]. simpl.
  inversion Hnd as [|? ? Hnotin Hnd']; subst.
  destruct (p a) eqn:Hpa.
  - assert (a = r) by (apply Hall; simpl; auto). subst a. f_equal.
    apply filter_none. intros x Hx. apply not_true_is_false. intros Hpx.
    assert (x = r) by (apply Hall; simpl; auto). now subst x.
  - destruct Hr as [->|Hr]; [congruence|].
    apply IH; auto. intros x Hx. apply Hall. now right.
Qed.

Lemma same_token_spec (a b : RegistrationRequest.t) :
  Orm.same_token a b = true <->
  RegistrationRequest.verification_token a = RegistrationRequest.verification_token b.
Proof. unfold Orm.same_token. apply String.eqb_eq. Qed.

Lemma same_pair_spec (a b : RegistrationRequest.t) :
  Orm.same_pair a b = true <-> pair_of a = pair_of b.
Proof.
  unfold Orm.same_pair, pair_of. rewrite andb_true_iff, String.eqb_eq, Nat.eqb_eq.
  split; [intros [-> ->]; reflexivity | intros [= -> ->]; auto].
Qed.

Lemma check_request_Ok (others : list RegistrationRequest.t)
    (r : RegistrationRequest.t) :
  Orm.check_request others r = Ok tt <->
  (forall x, In x others ->
     RegistrationRequest.verification_token x <> RegistrationRequest.verification_token r
     /\ pair_of x <> pair_of r).
Proof.
  unfold Orm.check_request. split.
  - destruct (existsb (Orm.same_token r) others) eqn:Ht; [discriminate|].
    destruct (existsb (Orm.same_pair r) others) eqn:Hp; [discriminate|].
    intros _ x Hx. split; intros Heq.
    + apply not_true_iff_false in Ht. apply Ht, existsb_exists. exists x.
      split; [assumption|]. now apply same_token_spec.
    + apply not_true_iff_false in Hp. apply Hp, existsb_exists. exists x.
      split; [assumption|]. now apply same_pair_spec.
  - intros H.
    destruct (existsb (Orm.same_token r) others) eqn:Ht.
    { apply existsb_exists in Ht as (x & Hx & Heq). apply same_token_spec in Heq.
      destruct (H x Hx) as [Hne _]. congruence. }
    destruct (existsb (Orm.same_pair r) others) eqn:Hp; [|reflexivity].
    apply existsb_exists in Hp as (x & Hx & Heq). apply same_pair_spec in Heq.
    destruct (H x Hx) as [_ Hne]. congruence.
Qed.

Lemma id_eqb_eq (a b : option nat) : Orm.id_eqb a b = true <-> a = b.
Proof.
  destruct a as [x|], b as [y|]; simpl; try (split; congruence).
  rewrite Nat.eqb_eq. split; congruence.
Qed.

Lemma replace_row_keys {B} (key : RegistrationRequest.t -> B)
    (l : list RegistrationRequest.t) (r x : RegistrationRequest.t) :
  NoDup (map RegistrationRequest.id l) -> In x l ->
  RegistrationRequest.id r = RegistrationRequest.id x -> key r = key x ->
  map key (map (Orm.replace_row r) l) = map key l.
Proof.
  intros Hnd Hx Hid Hkey. rewrite map_map. apply map_ext_in. intros y Hy.
  unfold Orm.replace_row, Orm.has_id.
  destruct (Orm.id_eqb (RegistrationRequest.id y) (RegistrationRequest.id r)) eqn:E;
    [|reflexivity].
  apply id_eqb_eq in E. rewrite Hid in E.
  now rewrite (NoDup_map_inj RegistrationRequest.id l y x Hnd Hy Hx E).
Qed.

Lemma replace_row_In (l : list RegistrationRequest.t) (r x : RegistrationRequest.t) :
  In x l -> RegistrationRequest.id r = RegistrationRequest.id x ->
  In r (map (Orm.replace_row r) l).
Proof.
  intros Hx Hid. apply in_map_iff. exists x. split; [|assumption].
  unfold Orm.replace_row, Orm.has_id. rewrite Hid.
  now rewrite (proj2 (id_eqb_eq _ _) eq_refl).
Qed.

(** UPDATE of a stored row that keeps its key columns goes through and
    keeps the table consistent. *)
Lemma update_request_ok (db : DB) (r x : RegistrationRequest.t) :
  requests_consistent db -> In x (requests db) -> same_keys r x ->
  exists db',
    Orm.save_request db r = Ok (db', r)
    /\ requests db' = map (Orm.replace_row r) (requests db)
    /\ users db' = users db /\ companies db' = companies db
    /\ next_user_id db' = next_user_id db
    /\ next_request_id db' = next_request_id db
    /\ In r (requests db')
    /\ requests_consistent db'.
Proof.
  intros [Hids Hiss Htok Hpair] Hx (Hid & Ht & Hp).
  destruct (Hiss x Hx) as (i & Hxi & Hlt).
  assert (Hri : RegistrationRequest.id r = Some i) by congruence.
  unfold Orm.save_request. rewrite Hri.
  assert (Hchk : Orm.check_request
                   (filter (fun y => negb (Orm.has_id (Some i) y)) (requests db)) r
                 = Ok tt).
  { apply check_request_Ok. intros y Hy. apply filter_In in Hy as [Hy Hne].
    assert (Hyx : y <> x).
    { intros ->. unfold Orm.has_id in Hne. rewrite Hxi in Hne.
      now rewrite (proj2 (id_eqb_eq _ _) eq_refl) in Hne. }
    split; intros Heq; apply Hyx.
    - apply (NoDup_map_inj RegistrationRequest.verification_token (requests db));
        auto. congruence.
    - apply (NoDup_map_inj pair_of (requests db)); auto. congruence. }
  rewrite Hchk. cbn [bind].
  assert (Hex : existsb (Orm.has_id (Some i)) (requests db) = true).
  { apply existsb_exists. exists x. split; [assumption|]. now apply has_id_spec. }
  rewrite Hex. eexists. split; [reflexivity|]. cbn [requests users companies
    next_user_id next_request_id].
  repeat split; try reflexivity.
  - now apply (replace_row_In _ r x).
  - cbn [requests]. now rewrite (replace_row_keys _ _ r x Hids Hx Hid Hid).
  - cbn [requests next_request_id]. intros y Hy.
    apply in_map_iff in Hy as (z & <- & Hz). unfold Orm.replace_row.
    destruct (Orm.has_id _ z); [exists i; auto | auto].
  - cbn [requests]. now rewrite (replace_row_keys _ _ r x Hids Hx Hid Ht).
  - cbn [requests]. now rewrite (replace_row_keys _ _ r x Hids Hx Hid Hp).
Qed.

(* ================================================================== *)
(** ** E-mail verification *)

Lemma pending_token_spec (token : string) (r : RegistrationRequest.t) :
  Views.pending_token token r = true <->
  RegistrationRequest.verification_token r = token
  /\ RegistrationRequest.status r = "pending".
Proof.
  unfold Views.pending_token. now rewrite andb_true_iff, !String.eqb_eq.
Qed.

Lemma replace_row_fixed (l : list RegistrationRequest.t) (r : RegistrationRequest.t) :
  NoDup (map RegistrationRequest.id l) -> In r l ->
  map (Orm.replace_row r) l = l.
Proof.
  intros Hnd Hr. rewrite <- (map_id l) at 2. apply map_ext_in. intros y Hy.
  unfold Orm.replace_row, Orm.has_id.
  destruct (Orm.id_eqb _ _) eqn:E; [|reflexivity].
  apply id_eqb_eq in E.
  symmetry. exact (NoDup_map_inj RegistrationRequest.id l y r Hnd Hy Hr E).
Qed.

(** One call of [verify_email] with the token of a pending request. *)
Lemma verify_pending (db : DB) (r : RegistrationRequest.t) :
  requests_consistent db -> In r (requests db) ->
  RegistrationRequest.status r = "pending" ->
  exists db',
    Views.verify_email db (RegistrationRequest.verification_token r)
    = (R200_verified (RegistrationRequest.first_name r ++ " "
                      ++ RegistrationRequest.last_name r), db')
    /\ requests db'
       = map (Orm.replace_row (RegistrationRequest.with_email_verified true r))
             (requests db)
    /\ users db' = users db /\ companies db' = companies db
    /\ next_user_id db' = next_user_id db
    /\ next_request_id db' = next_request_id db
    /\ In (RegistrationRequest.with_email_verified true r) (requests db')
    /\ requests_consistent db'.
Proof.
  intros Hc Hr Hst. unfold Views.verify_email, Orm.get.
  rewrite (filter_unique RegistrationRequest.verification_token _ _ r
             (tokens_distinct db Hc) Hr).
  - destruct (update_request_ok db (RegistrationRequest.with_email_verified true r) r
                Hc Hr) as (db' & Hsave & H); [repeat split|].
    rewrite Hsave. exists db'. split; [reflexivity|exact H].
  - now apply pending_token_spec.
  - intros x _ Hx. now apply pending_token_spec in Hx as [-> _].
Qed.

(** C3, as the code has it.  On a consistent request table: a token held by
    a pending request makes [verify_email] answer 200 and store that
    request with [email_verified] true, all else as it was; a token that no
    pending request holds (it is unknown, or its request is approved or
    rejected) gives 404 and changes nothing.  Calling again with the same
    token after a successful verification answers 200 again, and leaves
    the database as the first call left it. *)
Theorem verify_email_pending_only (db : DB) (token : string) :
  requests_consistent db ->
  (forall r, In r (requests db) ->
     RegistrationRequest.verification_token r = token ->
     RegistrationRequest.status r = "pending" ->
     exists db',
       let ok := R200_verified (RegistrationRequest.first_name r ++ " "
                                ++ RegistrationRequest.last_name r) in
       let r' := RegistrationRequest.with_email_verified true r in
       Views.verify_email db token = (ok, db')
       /\ requests db' = map (Orm.replace_row r') (requests db)
       /\ In r' (requests db')
       /\ RegistrationRequest.email_verified r' = true
       /\ users db' = users db
       /\ Views.verify_email db' token = (ok, db'))
  /\ ((forall r, In r (requests db) ->
         RegistrationRequest.verification_token r = token ->
         RegistrationRequest.status r <> "pending") ->
      Views.verify_email db token = (R404, db)).
Proof.
  intros Hc. split.
  - intros r Hr <- Hst.
    destruct (verify_pending db r Hc Hr Hst)
      as (db' & Hrun & Hrows & Hu & Hco & Hnu & Hnr & Hin & Hc').
    exists db'. cbv zeta. repeat split; try assumption.
    destruct (verify_pending db' (RegistrationRequest.with_email_verified true r)
                Hc' Hin Hst)
      as (db'' & Hrun' & Hrows' & Hu' & Hco' & Hnu' & Hnr' & _).
    cbn [RegistrationRequest.with_email_verified
         RegistrationRequest.verification_token RegistrationRequest.first_name
         RegistrationRequest.last_name] in Hrun'.
    rewrite Hrun'. f_equal.
    change (RegistrationRequest.with_email_verified true
              (RegistrationRequest.with_email_verified true r))
      with (RegistrationRequest.with_email_verified true r) in Hrows'.
    rewrite (replace_row_fixed _ _ (ids_distinct db' Hc') Hin) in Hrows'.
    destruct db', db''. simpl in *. congruence.
  - intros Hnone. unfold Views.verify_email. rewrite get_none; [reflexivity|].
    intros r Hr. apply not_true_is_false. intros Hp.
    apply pending_token_spec in Hp as [Ht Hs]. exact (Hnone r Hr Ht Hs).
Qed.

(* ================================================================== *)
(** ** Uniqueness of (email, company) *)

Lemma rows_kept_refl (db : DB) : rows_kept db db.
Proof. intros r Hr. exists r. repeat split; assumption. Qed.

Lemma rows_kept_trans (a b c : DB) : rows_kept a b -> rows_kept b c -> rows_kept a c.
Proof.
  intros Hab Hbc r Hr.
  destruct (Hab r Hr) as (r1 & H1 & I1 & T1 & P1).
  destruct (Hbc r1 H1) as (r2 & H2 & I2 & T2 & P2).
  exists r2. repeat split; congruence.
Qed.

Lemma rows_kept_same (db db' : DB) : requests db' = requests db -> rows_kept db db'.
Proof. intros H r Hr. exists r. rewrite H. repeat split; assumption. Qed.

Lemma consistent_same (db db' : DB) :
  requests db' = requests db -> next_request_id db' = next_request_id db ->
  requests_consistent db -> requests_consistent db'.
Proof.
  intros Hr Hn [H1 H2 H3 H4]. split; rewrite ?Hr, ?Hn; assumption.
Qed.

(** INSERT of a new row. *)
Lemma insert_request_inv (db db' : DB) (r r' : RegistrationRequest.t) :
  RegistrationRequest.id r = None ->
  Orm.save_request db r = Ok (db', r') ->
  r' = RegistrationRequest.with_id (Some (next_request_id db)) r
  /\ requests db' = (requests db ++ [r'])%list
  /\ users db' = users db /\ companies db' = companies db
  /\ next_request_id db' = S (next_request_id db)
  /\ Orm.check_request (requests db) r = Ok tt.
Proof.
  intros Hid H. unfold Orm.save_request in H. rewrite Hid in H.
  destruct (Orm.check_request (requests db) r) as [[]|] eqn:Hc; simpl in H;
    [|discriminate].
  injection H as <- <-. simpl. auto 6.
Qed.

Lemma insert_request_consistent (db db' : DB) (r r' : RegistrationRequest.t) :
  requests_consistent db ->
  RegistrationRequest.id r = None ->
  Orm.save_request db r = Ok (db', r') ->
  requests_consistent db' /\ rows_kept db db'.
Proof.
  intros [Hids Hiss Htok Hpair] Hid H.
  destruct (insert_request_inv db db' r r' Hid H) as (-> & Hrows & _ & _ & Hnext & Hchk).
  rewrite check_request_Ok in Hchk.
  split.
  - split; rewrite Hrows, ?Hnext.
    + rewrite map_app. simpl. apply NoDup_app; [assumption|repeat constructor; auto|].
      intros a Ha [<-|[]]. apply in_map_iff in Ha as (x & Hx & Hin).
      destruct (Hiss x Hin) as (i & Hi & Hlt). rewrite Hi in Hx.
      injection Hx. lia.
    + intros x Hx. apply in_app_or in Hx as [Hx|[<-|[]]].
      * destruct (Hiss x Hx) as (i & Hi & Hlt). exists i. split; [assumption|lia].
      * exists (next_request_id db). split; [reflexivity|lia].
    + rewrite map_app. simpl. apply NoDup_app; [assumption|repeat constructor; auto|].
      intros a Ha [<-|[]]. apply in_map_iff in Ha as (x & Hx & Hin).
      destruct (Hchk x Hin) as [Hne _]. apply Hne. exact Hx.
    + rewrite map_app. simpl. apply NoDup_app; [assumption|repeat constructor; auto|].
      intros a Ha [<-|[]]. apply in_map_iff in Ha as (x & Hx & Hin).
      destruct (Hchk x Hin) as [_ Hne]. apply Hne. exact Hx.
  - intros x Hx. exists x. rewrite Hrows. split; [apply in_or_app; now left|].
    repeat split.
Qed.

Lemma update_request_kept (db : DB) (r x : RegistrationRequest.t) (db' : DB) :
  requests db' = map (Orm.replace_row r) (requests db) ->
  same_keys r x -> NoDup (map RegistrationRequest.id (requests db)) ->
  In x (requests db) -> rows_kept db db'.
Proof.
  intros Hrows Hk Hnd Hx y Hy. rewrite Hrows.
  exists (Orm.replace_row r y). split; [now apply in_map|].
  unfold Orm.replace_row, Orm.has_id.
  destruct (Orm.id_eqb _ _) eqn:E; [|repeat split].
  apply id_eqb_eq in E. destruct Hk as (Hid & Ht & Hp).
  assert (y = x) by (apply (NoDup_map_inj RegistrationRequest.id (requests db));
                     auto; congruence).
  subst y. repeat split; assumption.
Qed.

Lemma save_user_requests (db db' : DB) (u u' : User.t) :
  Orm.save_user db u = Ok (db', u') ->
  requests db' = requests db /\ next_request_id db' = next_request_id db.
Proof.
  unfold Orm.save_user. destruct (User.id u).
  - destruct (Orm.check_user _ u); simpl; [|discriminate].
    intros [= <- _]. auto.
  - destruct (Orm.check_user _ u); simpl; [|discriminate].
    intros [= <- _]. auto.
Qed.

Lemma models_save_requests (db db' : DB) (u u' : User.t) :
  Models.save db u = Ok (db', u') ->
  requests db' = requests db /\ next_request_id db' = next_request_id db.
Proof.
  unfold Models.save. destruct (Models.assign_employee_number db u); simpl;
    [apply save_user_requests|discriminate].
Qed.

Section Steps.
Context {fw : Framework}.

Lemma unchanged (db : DB) : requests_consistent db -> kept_consistent db db.
Proof. intros H. split; [assumption|apply rows_kept_refl]. Qed.

Hint Resolve unchanged : rooster.

Lemma register_step (db : DB) (data : Serializers.registration)
    (token : string) (now : nat) :
  requests_consistent db ->
  kept_consistent db (snd (Views.register db data token now)).
Proof.
  intros Hc. unfold Views.register.
  destruct (Serializers.is_valid db data) as [attrs| |]; simpl; auto with rooster.
  unfold Serializers.create.
  destruct (Orm.get _ (companies db)) as [c|]; simpl; auto with rooster.
  match goal with
  | |- context [Orm.save_request db ?new] =>
      destruct (Orm.save_request db new) as [[db' r]|] eqn:Hs; simpl;
      auto with rooster;
      exact (insert_request_consistent db db' new r Hc eq_refl Hs)
  end.
Qed.

Lemma verify_step (db : DB) (token : string) :
  requests_consistent db ->
  kept_consistent db (snd (Views.verify_email db token)).
Proof.
  intros Hc. unfold Views.verify_email.
  destruct (Orm.get _ (requests db)) as [r|[]] eqn:Hg; simpl; auto with rooster.
  apply get_Ok_In in Hg as [Hr _].
  destruct (update_request_ok db (RegistrationRequest.with_email_verified true r) r
              Hc Hr) as (db' & Hs & Hrows & _ & _ & _ & _ & _ & Hc');
    [repeat split|].
  rewrite Hs. simpl. split; [assumption|].
  apply (update_request_kept db _ r db' Hrows); auto; [repeat split|].
  apply (ids_distinct db Hc).
Qed.

(** The UPDATE in the goal, of the stored row [rr] with its key columns
    kept: it goes through, and leaves [db'] with [Hc'] and [Hk]. *)
Ltac run_update db rr Hc Hr :=
  match goal with
  | |- context [Orm.save_request db ?r] =>
      let Hs := fresh "Hs" in
      let Hrows := fresh "Hrows" in
      destruct (update_request_ok db r rr Hc Hr)
        as (db' & Hs & Hrows & _ & _ & _ & _ & _ & Hc'); [repeat split|];
      rewrite Hs; simpl;
      assert (Hk : rows_kept db db')
        by (apply (update_request_kept db r rr db' Hrows); auto;
            [repeat split | apply (ids_distinct db Hc)])
  end.

Lemma decide_step (db : DB) (user : User.t) (registration_id : nat)
    (data : Serializers.approval) (t : Views.clock) :
  requests_consistent db ->
  kept_consistent db
    (snd (Views.approve_registration db user registration_id data t)).
Proof.
  intros Hc. unfold Views.approve_registration.
  destruct (Models.can_approve_users user); simpl; auto with rooster.
  unfold Orm.get_object_or_404.
  destruct (Orm.get _ (requests db)) as [rr|[]] eqn:Hg; simpl; auto with rooster.
  apply get_Ok_In in Hg as [Hr _].
  destruct (Serializers.approval_is_valid data) as [vd| |]; simpl;
    auto with rooster.
  unfold Views.decide.
  destruct (Serializers.status vd) as [s|]; simpl; auto with rooster.
  destruct (String.eqb s "rejected").
  - run_update db rr Hc Hr. split; assumption.
  - destruct (String.eqb s "approved"); simpl; auto with rooster.
    run_update db rr Hc Hr.
    unfold Views._create_user_account.
    match goal with
    | |- context [Views.generate_username ?d ?b] =>
        destruct (Views.generate_username d b); simpl; auto with rooster
    end.
    match goal with
    | |- context [Models.save ?d ?x] =>
        destruct (Models.save d x) as [[db2 u]|] eqn:Hm; simpl;
        auto with rooster;
        apply models_save_requests in Hm as [Hr2 Hn2]; split;
        [ now apply (consistent_same d db2)
        | apply (rows_kept_trans db d db2);
          [assumption | now apply rows_kept_same] ]
    end.
Qed.

Lemma steps_kept (db db' : DB) :
  requests_consistent db -> steps db db' -> kept_consistent db db'.
Proof.
  intros Hc Hs. induction Hs as [db|db mid db' _ IH Hstep]; auto with rooster.
  destruct (IH Hc) as [Hmid Hkept].
  assert (H : kept_consistent mid db').
  { destruct Hstep; [apply register_step | apply verify_step | apply decide_step];
      assumption. }
  destruct H as [Hc' Hk']. split; [assumption|].
  now apply (rows_kept_trans db mid db').
Qed.

(** C10.  The request table holds at most one row per (email, company),
    whatever the status of the rows, and the workflow keeps it so: after
    any number of registrations, verifications and decisions, two
    different rows have different pairs; a row found under the pair of a
    row that was there before is that row, under its primary key; and
    inserting a new row under a stored pair raises. *)
Theorem email_company_unique_together (db db' : DB) :
  requests_consistent db -> steps db db' ->
  (forall r1 r2, In r1 (requests db') -> In r2 (requests db') ->
     r1 <> r2 -> pair_of r1 <> pair_of r2)
  /\ (forall r r', In r (requests db) -> In r' (requests db') ->
        pair_of r' = pair_of r ->
        RegistrationRequest.id r' = RegistrationRequest.id r)
  /\ (forall new, RegistrationRequest.id new = None ->
        (exists r, In r (requests db') /\ pair_of r = pair_of new) ->
        exists e, Orm.save_request db' new = Raise e).
Proof.
  intros Hc Hs. destruct (steps_kept db db' Hc Hs) as [Hc' Hk].
  split; [|split].
  - intros r1 r2 H1 H2 Hne Heq. apply Hne.
    exact (NoDup_map_inj pair_of _ r1 r2 (pairs_distinct db' Hc') H1 H2 Heq).
  - intros r r' Hr Hr' Heq. destruct (Hk r Hr) as (r2 & H2 & Hid & _ & Hp).
    assert (r' = r2)
      by (apply (NoDup_map_inj pair_of _ r' r2 (pairs_distinct db' Hc') Hr' H2);
          congruence).
    now subst r2.
  - intros new Hid (r & Hr & Hp). unfold Orm.save_request. rewrite Hid.
    destruct (Orm.check_request (requests db') new) as [[]|e] eqn:Hchk;
      [|now exists e].
    rewrite check_request_Ok in Hchk. destruct (Hchk r Hr) as [_ Hne].
    now destruct Hne.
Qed.

End Steps.

(* ================================================================== *)
(** ** Submission *)

Section Submission.
Context {fw : Framework}.
Import Serializers.

Lemma is_valid_fields_pass (db : DB) (data attrs : registration) :
  fields_pass db data attrs ->
  is_valid db data =
  match validate db attrs with
  | Ok a => Valid a
  | Raise (ValidationError name) => Invalid [name]
  | Raise ex => Crashed ex
  end.
Proof.
  intros (He & Hf & Hl & Hp & Hfn & Hc & Hpw & Hpc). unfold is_valid.
  rewrite He, Hf, Hl, Hp, Hfn, Hc, Hpw, Hpc. cbn [crash_of filter map snd fst
    is_ok negb value_of]. now destruct attrs.
Qed.

Lemma existsb_false {A} (p : A -> bool) (l : list A) :
  (forall x, In x l -> p x = false) -> existsb p l = false.
Proof.
  intros H. apply not_true_is_false. intros He.
  apply existsb_exists in He as (x & Hx & Hp). rewrite (H x Hx) in Hp. discriminate.
Qed.

Lemma pending_for_spec (e : string) (c : nat) (r : RegistrationRequest.t) :
  pending_for e c r = true <->
  pair_of r = (e, c) /\ RegistrationRequest.status r = "pending".
Proof.
  unfold pending_for, pair_of.
  rewrite !andb_true_iff, !String.eqb_eq, Nat.eqb_eq.
  split; [intros [[-> ->] ->]; auto | intros [[= -> ->] ->]; auto].
Qed.

(** C4, as the code has it.  A submission whose fields all pass, whose
    password equals its confirmation, whose company code names the
    company [c], for an (email, company) pair under which the table holds
    no request of any status, and with a token no stored request holds, is
    answered 201 and adds exactly one request: pending, not verified,
    carrying that token.  From then on, as long as a pending request of
    the pair is stored, a submission with passing fields for the same
    e-mail and code is answered 400 and adds nothing. *)
Theorem register_creates_one_request
    (db : DB) (data attrs : registration) (c : Company.t)
    (token : string) (now : nat) :
  fields_pass db data attrs ->
  password attrs = password_confirm attrs ->
  Orm.get (fun x => String.eqb (Company.company_code x) (company_code attrs))
          (companies db) = Ok c ->
  (forall r, In r (requests db) -> pair_of r <> (email attrs, Company.id c)) ->
  (forall r, In r (requests db) ->
     RegistrationRequest.verification_token r <> token) ->
  exists r db',
    Views.register db data token now = (R201 (Some (next_request_id db)), db')
    /\ requests db' = (requests db ++ [r])%list
    /\ users db' = users db /\ companies db' = companies db
    /\ pair_of r = (email attrs, Company.id c)
    /\ RegistrationRequest.status r = "pending"
    /\ RegistrationRequest.email_verified r = false
    /\ RegistrationRequest.verification_token r = token
    /\ forall later data2 attrs2 token2 now2,
         companies later = companies db ->
         (exists r2, In r2 (requests later)
                     /\ pair_of r2 = (email attrs, Company.id c)
                     /\ RegistrationRequest.status r2 = "pending") ->
         fields_pass later data2 attrs2 ->
         email attrs2 = email attrs ->
         company_code attrs2 = company_code attrs ->
         exists errors,
           Views.register later data2 token2 now2 = (R400 errors, later).
Proof.
  intros Hfields Hpw Hc Hpair Htok.
  unfold Views.register. rewrite (is_valid_fields_pass db data attrs Hfields).
  unfold validate. rewrite Hpw, String.eqb_refl, Hc. cbn [negb bind].
  rewrite existsb_false.
  2:{ intros r Hr. apply not_true_is_false. intros Hp.
      apply pending_for_spec in Hp as [Hp _]. exact (Hpair r Hr Hp). }
  unfold create. rewrite Hc. cbn [bind].
  unfold Orm.save_request. cbn [RegistrationRequest.id].
  rewrite (proj2 (check_request_Ok (requests db) _)).
  2:{ intros x Hx. split; [apply (Htok x Hx) | apply (Hpair x Hx)]. }
  cbn [bind]. eexists. eexists. split; [reflexivity|].
  cbn [requests users companies]. repeat split.
  intros later data2 attrs2 token2 now2 Hcos (r2 & Hr2 & Hp2 & Hs2) Hf2 He2 Hc2.
  rewrite (is_valid_fields_pass later data2 attrs2 Hf2).
  unfold validate. destruct (negb _); [now eexists|].
  rewrite Hc2, Hcos, Hc, He2. cbn [bind].
  assert (He : existsb (pending_for (email attrs) (Company.id c)) (requests later)
               = true).
  { apply existsb_exists. exists r2. split; [assumption|].
    now apply pending_for_spec. }
  rewrite He. now eexists.
Qed.

(** What [validate_email] decides: it refuses exactly when some account's stored
    address is, character for character, the lower-cased submission; what
    it hands on is the lower-cased submission. *)
Lemma validate_email_exact (db : DB) (value : string) :
  (validate_email db value = Raise (ValidationError "email") <->
   exists u, In u (users db) /\ User.email u = Py.lower value)
  /\ (validate_email db value = Ok (Py.lower value) <->
      forall u, In u (users db) -> User.email u <> Py.lower value).
Proof.
  unfold validate_email.
  destruct (existsb _ (users db)) eqn:E.
  - apply existsb_exists in E as (u & Hu & He). apply String.eqb_eq in He.
    split; split; try discriminate; intros H.
    + now exists u.
    + reflexivity.
    + now destruct (H u Hu).
  - split; split; try discriminate; intros H; try reflexivity.
    + destruct H as (u & Hu & He). apply not_true_iff_false in E.
      destruct E. apply existsb_exists. exists u. split; [assumption|].
      now apply String.eqb_eq.
    + intros u Hu He. apply not_true_iff_false in E.
      apply E, existsb_exists. exists u. split; [assumption|].
      now apply String.eqb_eq.
Qed.

End Submission.

(* ================================================================== *)
(** ** The theorems on the test data *)

Lemma seeded_consistent : requests_consistent TestData.seeded.
Proof.
  split; simpl; try constructor. intros r [].
Qed.

Lemma submitted_consistent : requests_consistent TestData.submitted.
Proof.
  split; simpl.
  - repeat constructor; simpl; tauto.
  - intros r [<-|[]]. exists 1. simpl. split; [reflexivity|lia].
  - repeat constructor; simpl; tauto.
  - repeat constructor; simpl; tauto.
Qed.

Lemma workflow_steps : steps (fw := plain) TestData.seeded TestData.approved.
Proof.
  apply (steps_more TestData.seeded TestData.verified).
  - apply (steps_more TestData.seeded TestData.submitted).
    + apply (steps_more TestData.seeded TestData.seeded); [apply steps_none|].
      exact (step_register (fw := plain) TestData.seeded TestData.application
               "tok-1" 100
             <: step (fw := plain) TestData.seeded TestData.submitted).
    + exact (step_verify (fw := plain) TestData.submitted "tok-1"
             <: step (fw := plain) TestData.submitted TestData.verified).
  - exact (step_decide (fw := plain) TestData.verified TestData.manager 1
             (Serializers.Approval (Some "approved") None) TestData.times
           <: step (fw := plain) TestData.verified TestData.approved).
Qed.

(** C1 on the test data: the manager decides on the request before the
    applicant has verified. *)
Lemma decide_hidden_request_404_witness :
  Views.approve_registration (fw := plain) TestData.submitted TestData.manager 1
    (Serializers.Approval (Some "approved") None) TestData.times
  = (R404, TestData.submitted).
Proof.
  apply (decide_hidden_request_404 (fw := plain)).
  - reflexivity.
  - intros r [<-|[]] _ (_ & _ & H). simpl in H. discriminate H.
Defined.

(** C6 on the test data: a manager who was never approved. *)
Lemma unprivileged_caller_gate_witness :
  Views.get_queryset TestData.verified TestData.unapproved = []
  /\ Views.approve_registration (fw := plain) TestData.verified
       TestData.unapproved 1 (Serializers.Approval (Some "approved") None)
       TestData.times = (R403, TestData.verified).
Proof.
  destruct (unprivileged_caller_gate (fw := plain) TestData.verified
              TestData.seeded TestData.unapproved 1
              (Serializers.Approval (Some "approved") None) TestData.times)
    as [_ H].
  destruct (H eq_refl) as (Hq & Hd & _). split; assumption.
Defined.

(** C3 on the test data: the applicant verifies, and verifies again. *)
Lemma verify_email_pending_only_witness :
  exists db',
    Views.verify_email TestData.submitted "tok-1"
    = (R200_verified "Sanne Bakker", db')
    /\ Views.verify_email db' "tok-1" = (R200_verified "Sanne Bakker", db').
Proof.
  destruct (verify_email_pending_only TestData.submitted "tok-1"
              submitted_consistent) as [H _].
  destruct (H (hd (RegistrationRequest.Build None "" "" "" "" "" 0 "" "" 0
                     None None "" "" false)
                  (requests TestData.submitted))
              (or_introl eq_refl) eq_refl eq_refl)
    as (db' & H1 & _ & _ & _ & _ & H2).
  exists db'. split; [exact H1|exact H2].
Defined.

(** C3 as the specification words it fails: after a successful
    verification the same token is answered 200 again, not 404. *)
Lemma reverify_answers_200 :
  Views.verify_email TestData.submitted "tok-1"
  = (R200_verified "Sanne Bakker", TestData.verified)
  /\ Views.verify_email TestData.verified "tok-1"
     = (R200_verified "Sanne Bakker", TestData.verified)
  /\ fst (Views.verify_email TestData.verified "tok-1") <> R404.
Proof.
  split; [|split]; try (vm_compute; reflexivity). vm_compute. discriminate.
Qed.

(** C4 on the test data: the applicant submits, and submits again. *)
Lemma register_creates_one_request_witness :
  exists r db',
    Views.register (fw := plain) TestData.seeded TestData.application "tok-1" 100
    = (R201 (Some 1), db')
    /\ requests db' = [r]
    /\ RegistrationRequest.status r = "pending"
    /\ RegistrationRequest.email_verified r = false
    /\ exists errors,
         Views.register (fw := plain) TestData.submitted TestData.application
           "tok-2" 101 = (R400 errors, TestData.submitted).
Proof.
  destruct (register_creates_one_request (fw := plain) TestData.seeded
              TestData.application
              (Serializers.Registration "sanne.bakker@example.nl" "Sanne"
                 "Bakker" "+31612345678" "server" "JILL01" "Welkom123"
                 "Welkom123")
              TestData.company "tok-1" 100)
    as (r & db' & H1 & H2 & _ & _ & _ & H3 & H4 & _ & Hlater).
  - repeat split; reflexivity.
  - reflexivity.
  - reflexivity.
  - intros r [].
  - intros r [].
  - exists r, db'. repeat split; try assumption.
    apply (Hlater TestData.submitted TestData.application
             (Serializers.Registration "sanne.bakker@example.nl" "Sanne"
                "Bakker" "+31612345678" "server" "JILL01" "Welkom123"
                "Welkom123")).
    + reflexivity.
    + eexists. split; [left; reflexivity|]. split; reflexivity.
    + repeat split; reflexivity.
    + reflexivity.
    + reflexivity.
Defined.

(** C4 as the specification words it fails: the applicant was rejected and
    submits again.  The fields pass, no request of the pair is pending and
    the token is new, so the submission is valid; the insert breaks the
    (email, company) constraint, the view answers 500, nothing is added. *)
Lemma resubmission_after_rejection_500 :
  (exists attrs,
     Serializers.is_valid (fw := plain) TestData.rejected TestData.application
     = Serializers.Valid attrs
     /\ existsb (Serializers.pending_for (Serializers.email attrs) 1)
                (requests TestData.rejected) = false)
  /\ existsb (fun r => String.eqb (RegistrationRequest.verification_token r) "tok-2")
             (requests TestData.rejected) = false
  /\ Views.register (fw := plain) TestData.rejected TestData.application "tok-2" 300
     = (R500, TestData.rejected).
Proof.
  split; [|split]; try (vm_compute; reflexivity).
  eexists. split; vm_compute; reflexivity.
Qed.

(** C5 on the test data: the second Sanne Bakker, a manager; the names
    are in ASCII and the first candidate is taken. *)
Lemma approved_account_fields_witness :
  exists rr u,
    users TestData.second_approved = (users TestData.first_approved ++ [u])%list
    /\ Py.isascii (RegistrationRequest.first_name rr) = true
    /\ Py.isascii (RegistrationRequest.last_name rr) = true
    /\ (User.username u = "sanne.bakker"
        \/ exists k, 1 <= k /\ User.username u = "sanne.bakker" ++ Py.str k
             /\ Views.username_exists TestData.first_approved "sanne.bakker" = true
             /\ forall i, 1 <= i < k ->
                  Views.username_exists TestData.first_approved
                    ("sanne.bakker" ++ Py.str i) = true)
    /\ User.role u = "manager"
    /\ User.username u = "sanne.bakker1"
    /\ User.is_approved u = true
    /\ User.approved_by u = Some 2
    /\ User.email_verified u = true.
Proof.
  destruct (approved_account_fields (fw := plain) TestData.first_approved
              TestData.manager 2 (Serializers.Approval (Some "approved") None)
              TestData.times) as [_ H].
  destruct (H (Some 5) (Some "JILL01-0005") TestData.second_approved)
    as (rr & u & Hin & Hid & Hu & _ & Hrole & Hname & _ & Ha & Hby & _ & Hv & _).
  - vm_compute. reflexivity.
  - exists rr, u. split; [exact Hu|].
    destruct Hin as [<-|[<-|[]]]; [discriminate Hid|].
    split; [reflexivity|]. split; [reflexivity|].
    split; [exact (Hname eq_refl eq_refl)|].
    vm_compute in Hu. injection Hu as <-.
    repeat split; vm_compute; reflexivity.
Defined.

(** C2 on the test data: three accounts of the company have a number, a
    new account is given 0004, and the two approvals give 0004 and 0005. *)
Lemma employee_number_assigned_once_witness :
  Models.assign_employee_number TestData.seeded MoreData.new_account
  = Ok (User.with_employee_number (Some "JILL01-0004") MoreData.new_account)
  /\ exists c N,
       Spec.numbered_accounts 1 (users TestData.both_verified) N
       /\ Spec.numbered_accounts 1 (users TestData.first_approved) (N + 1)
       /\ Some "JILL01-0004"
          = Some (Company.company_code c ++ "-" ++ Py.zfill 4 (N + 1))
       /\ Some "JILL01-0005"
          = Some (Company.company_code c ++ "-" ++ Py.zfill 4 (N + 2))
       /\ Some "JILL01-0004" <> Some "JILL01-0005".
Proof.
  split.
  - destruct (employee_number_assigned_once (fw := plain) TestData.seeded
                MoreData.new_account) as (_ & H & _).
    apply (H eq_refl TestData.company 3); [reflexivity|].
    repeat (apply Spec.counted_in; [reflexivity | discriminate |]).
    apply Spec.counted_none.
  - destruct (employee_number_assigned_once (fw := plain) TestData.both_verified
                TestData.manager) as (_ & _ & _ & H).
    destruct (H TestData.manager TestData.manager 1 2
                (Serializers.Approval (Some "approved") None)
                (Serializers.Approval (Some "approved") None)
                TestData.times TestData.times
                (Some 4) (Some "JILL01-0004") TestData.first_approved
                (Some 5) (Some "JILL01-0005") TestData.second_approved)
      as (c & N & _ & _ & H0 & H1 & Hn1 & Hn2 & Hne).
    + reflexivity.
    + vm_compute. reflexivity.
    + vm_compute. reflexivity.
    + exists c, N. repeat split; assumption.
Defined.

(** C10 on the test data: after the whole workflow the applicant's pair
    is still taken, by the approved request, and a new request of the pair
    cannot be inserted. *)
Lemma email_company_unique_together_witness :
  exists e,
    Orm.save_request TestData.approved
      (RegistrationRequest.Build None "sanne.bakker@example.nl" "Sanne"
         "Bakker" "+31612345678" "server" 1 "JILL01" "pending" 300 None None
         "" "tok-3" false)
    = Raise e.
Proof.
  destruct (email_company_unique_together (fw := plain) TestData.seeded
              TestData.approved seeded_consistent workflow_steps)
    as (_ & _ & H).
  apply H; [reflexivity|].
  eexists. split; [left; reflexivity|reflexivity].
Defined.

(** C8 at an account stored with capitals: the addresses are the same up
    to case, and the submission passes. *)
Theorem validate_email_misses_capitals :
  (exists u, In u (users TestData.capitals)
             /\ User.email u = "Kees.Jansen@jillsushi.nl"
             /\ Py.lower (User.email u) = Py.lower "kees.jansen@jillsushi.nl")
  /\ Serializers.validate_email TestData.capitals "kees.jansen@jillsushi.nl"
     = Ok "kees.jansen@jillsushi.nl".
Proof.
  split; [|vm_compute; reflexivity].
  eexists. split; [do 3 right; left; reflexivity|]. split; reflexivity.
Qed.

(** C9 on the test data: a second company named Sushi Bar; the name is in
    ASCII and the base is taken. *)
Lemma issue_code_first_free_witness :
  exists code,
    Admin.generate_code MoreData.two_companies "Sushi Bar" = Some code
    /\ Admin.code_exists MoreData.two_companies code = false
    /\ (code = "SUSH"
        \/ exists k, 1 <= k /\ code = "SUSH" ++ Py.zfill 2 k
             /\ Admin.code_exists MoreData.two_companies "SUSH" = true
             /\ forall i, 1 <= i < k ->
                  Admin.code_exists MoreData.two_companies
                    ("SUSH" ++ Py.zfill 2 i) = true).
Proof.
  destruct (issue_code_first_free MoreData.two_companies MoreData.sushi_bar)
    as (code & Hrun & Hfree & Hbase & _).
  exists code. split; [exact Hrun|]. split; [exact Hfree|].
  exact (Hbase eq_refl).
Defined.

(** C9 as the specification words it fails: the initials of "Jill Sushi"
    are JS, the code issued is JILL, and with JILL taken it is JILL01. *)
Lemma issue_code_not_initials :
  Spec.initials "Jill Sushi Wok & Grill" = "JS"
  /\ Admin.generate_code TestData.empty "Jill Sushi Wok & Grill" = Some "JILL"
  /\ Admin.generate_code (mkDB [Company.Build 2 "Jill" "JILL" true] [] [] 1 1)
       "Jill Sushi Wok & Grill" = Some "JILL01".
Proof. repeat split; reflexivity. Qed.

(* ================================================================== *)
(** ** The primitives on examples *)

Example split_words :
  Py.split "  Jill Sushi   Wok & Grill " = ["Jill"; "Sushi"; "Wok"; "&"; "Grill"].
Proof. reflexivity. Qed.

Example zfill_widths :
  Py.zfill 4 7 = "0007" /\ Py.zfill 4 1234 = "1234" /\ Py.zfill 2 0 = "00"
  /\ Py.zfill 2 123 = "123" /\ Py.str 0 = "0" /\ Py.str 120 = "120".
Proof. repeat split; reflexivity. Qed.

Example case_mapping :
  Py.lower "Jan.De-Vries@X.NL" = "jan.de-vries@x.nl"
  /\ Py.upper "jill01" = "JILL01".
Proof. split; reflexivity. Qed.

Example cleaned_phone :
  Serializers.cleaned "06 - 1234 5678" = "0612345678".
Proof. reflexivity. Qed.

Example seeded_numbers :
  map User.employee_number (users TestData.seeded)
  = [Some "JILL01-0001"; Some "JILL01-0002"; Some "JILL01-0003"].
Proof. reflexivity. Qed.

Example pending_list :
  Views.get_queryset TestData.submitted TestData.manager = []
  /\ Views.get_queryset TestData.verified TestData.manager
     = requests TestData.verified.
Proof. split; reflexivity. Qed.


(* ================================================================== *)
(** * Further properties of the code *)

(** ** The decision view on its other paths *)

Lemma get_open_row (db : DB) (user : User.t) (registration_id : nat)
    (rr : RegistrationRequest.t) :
  requests_consistent db -> In rr (requests db) ->
  RegistrationRequest.id rr = Some registration_id ->
  Views.open_for user rr = true ->
  Orm.get_object_or_404
    (fun r => Orm.has_id (Some registration_id) r && Views.open_for user r)
    (requests db) = Ok rr.
Proof.
  intros Hc Hin Hid Hopen. unfold Orm.get_object_or_404, Orm.get.
  rewrite (filter_unique RegistrationRequest.id _ _ rr (ids_distinct db Hc) Hin).
  - reflexivity.
  - rewrite Hopen, andb_true_r. now apply has_id_spec.
  - intros x _ Hx. apply andb_true_iff in Hx as [Hx _].
    apply has_id_spec in Hx. congruence.
Qed.

(** What [RegistrationApprovalSerializer] lets through. *)
Lemma approval_is_valid_spec (data : Serializers.approval) :
  match Serializers.status data with
  | None => Serializers.approval_is_valid data = Serializers.Valid data
  | Some s =>
      if String.eqb s "approved"
      then Serializers.approval_is_valid data = Serializers.Valid data
      else if String.eqb s "rejected"
      then match Serializers.rejection_reason data with
           | Some (String _ _) =>
               Serializers.approval_is_valid data = Serializers.Valid data
           | _ => Serializers.approval_is_valid data
                  = Serializers.Invalid ["rejection_reason"]
           end
      else Serializers.approval_is_valid data = Serializers.Invalid ["status"]
  end.
Proof.
  destruct data as [[s|] reason]; [|reflexivity].
  cbn [Serializers.status Serializers.rejection_reason].
  destruct (String.eqb_spec s "approved") as [->|Ha]; [reflexivity|].
  destruct (String.eqb_spec s "rejected") as [->|Hr].
  - destruct reason as [[|c r]|]; reflexivity.
  - unfold Serializers.approval_is_valid, Serializers.validate_status.
    cbn [Serializers.status Serializers.rejection_reason].
    unfold Models.In_strs. cbn [existsb].
    rewrite (proj2 (String.eqb_neq s "approved") Ha).
    rewrite (proj2 (String.eqb_neq s "rejected") Hr).
    cbn [orb negb]. now destruct (s =? "pending")%string.
Qed.

Section OtherPaths.
Context {fw : Framework}.

(** X1.  On a consistent request table, a caller who may approve and
    rejects, with a reason that is not empty, a pending and verified
    request of the caller's company is answered 200; the stored request is
    now rejected, reviewed by the caller at the time read, with the reason
    given; every other request, every account and every company is as it
    was. *)
Theorem reject_with_reason (db : DB) (user : User.t) (registration_id : nat)
    (rr : RegistrationRequest.t) (reason : string) (t : Views.clock) :
  requests_consistent db ->
  Models.can_approve_users user = true ->
  In rr (requests db) ->
  RegistrationRequest.id rr = Some registration_id ->
  Views.open_for user rr = true ->
  reason <> "" ->
  exists db',
    Views.approve_registration db user registration_id
      (Serializers.Approval (Some "rejected") (Some reason)) t
    = (R200_rejected, db')
    /\ requests db'
       = map (Orm.replace_row (decided_row "rejected" reason user t rr))
             (requests db)
    /\ In (decided_row "rejected" reason user t rr) (requests db')
    /\ (forall r, In r (requests db) -> r <> rr -> In r (requests db'))
    /\ users db' = users db /\ companies db' = companies db.
Proof.
  intros Hc Hcan Hin Hid Hopen Hreason.
  unfold Views.approve_registration. rewrite Hcan. cbn [negb].
  rewrite (get_open_row db user registration_id rr Hc Hin Hid Hopen).
  destruct reason as [|c reason]; [congruence|].
  change (Serializers.approval_is_valid
            (Serializers.Approval (Some "rejected") (Some (String c reason))))
    with (Serializers.Valid
            (Serializers.Approval (Some "rejected") (Some (String c reason)))).
  cbv iota.
  unfold Views.decide. cbn [Serializers.status Serializers.rejection_reason bind].
  cbn [String.eqb Ascii.eqb Bool.eqb andb].
  destruct (update_request_ok db
              (decided_row "rejected" (String c reason) user t rr) rr Hc Hin)
    as (db' & Hs & Hrows & Hu & Hco & _ & _ & Hin' & _); [repeat split|].
  unfold decided_row in Hs. rewrite Hs. cbn [bind fst].
  exists db'. repeat split; try assumption.
  intros r Hr Hne. rewrite Hrows. apply in_map_iff. exists r.
  split; [|assumption]. unfold Orm.replace_row, Orm.has_id.
  destruct (Orm.id_eqb _ _) eqn:E; [|reflexivity].
  apply id_eqb_eq in E. destruct Hne.
  exact (NoDup_map_inj RegistrationRequest.id _ r rr (ids_distinct db Hc) Hr Hin E).
Qed.

End OtherPaths.

Section RefusedBodies.
Context {fw : Framework}.

(** The view once the caller may approve and the request was found. *)
Lemma approve_found (db : DB) (user : User.t) (registration_id : nat)
    (rr : RegistrationRequest.t) (data : Serializers.approval) (t : Views.clock) :
  requests_consistent db ->
  Models.can_approve_users user = true ->
  In rr (requests db) ->
  RegistrationRequest.id rr = Some registration_id ->
  Views.open_for user rr = true ->
  Views.approve_registration db user registration_id data t
  = match Serializers.approval_is_valid data with
    | Serializers.Valid validated_data =>
        match Views.decide db user rr validated_data t with
        | Ok out => out
        | Raise _ => (R500, db)
        end
    | Serializers.Invalid errors => (R400 errors, db)
    | Serializers.Crashed _ => (R500, db)
    end.
Proof.
  intros Hc Hcan Hin Hid Hopen.
  unfold Views.approve_registration. rewrite Hcan. cbn [negb].
  now rewrite (get_open_row db user registration_id rr Hc Hin Hid Hopen).
Qed.

(** X2.  For a caller who may approve and a request that is found, a body
    whose status is neither approved nor rejected is answered 400 on
    [status], and a rejection whose reason is missing or empty is answered
    400 on [rejection_reason]; in both cases nothing is written. *)
Theorem decision_body_refused (db : DB) (user : User.t) (registration_id : nat)
    (rr : RegistrationRequest.t) (t : Views.clock) :
  requests_consistent db ->
  Models.can_approve_users user = true ->
  In rr (requests db) ->
  RegistrationRequest.id rr = Some registration_id ->
  Views.open_for user rr = true ->
  (forall s reason, s <> "approved" -> s <> "rejected" ->
     Views.approve_registration db user registration_id
       (Serializers.Approval (Some s) reason) t = (R400 ["status"], db))
  /\ (forall reason, reason = None \/ reason = Some "" ->
        Views.approve_registration db user registration_id
          (Serializers.Approval (Some "rejected") reason) t
        = (R400 ["rejection_reason"], db)).
Proof.
  intros Hc Hcan Hin Hid Hopen. split.
  - intros s reason Ha Hr.
    rewrite (approve_found db user registration_id rr _ t Hc Hcan Hin Hid Hopen).
    pose proof (approval_is_valid_spec (Serializers.Approval (Some s) reason)) as Hv.
    cbn [Serializers.status] in Hv.
    rewrite (proj2 (String.eqb_neq s "approved") Ha) in Hv.
    rewrite (proj2 (String.eqb_neq s "rejected") Hr) in Hv.
    now rewrite Hv.
  - intros reason Hreason.
    rewrite (approve_found db user registration_id rr _ t Hc Hcan Hin Hid Hopen).
    destruct Hreason as [->| ->]; reflexivity.
Qed.

(** X3.  Neither key of the body is required by the serializer: a body
    without [status] passes validation, the view then fails on the missing
    key, answers 500 and writes nothing. *)
Theorem decision_without_status_500 (db : DB) (user : User.t)
    (registration_id : nat) (rr : RegistrationRequest.t)
    (reason : option string) (t : Views.clock) :
  requests_consistent db ->
  Models.can_approve_users user = true ->
  In rr (requests db) ->
  RegistrationRequest.id rr = Some registration_id ->
  Views.open_for user rr = true ->
  Serializers.approval_is_valid (Serializers.Approval None reason)
  = Serializers.Valid (Serializers.Approval None reason)
  /\ Views.approve_registration db user registration_id
       (Serializers.Approval None reason) t = (R500, db).
Proof.
  intros Hc Hcan Hin Hid Hopen. split; [reflexivity|].
  now rewrite (approve_found db user registration_id rr _ t Hc Hcan Hin Hid Hopen).
Qed.

(** X4.  The decision is all or nothing: whatever the caller, the id, the
    body and the database, either the view answers 200 (rejected or
    approved) or the database is exactly as it was; and a rejection leaves
    the accounts and companies as they were. *)
Theorem decision_all_or_nothing (db : DB) (user : User.t)
    (registration_id : nat) (data : Serializers.approval) (t : Views.clock) :
  let out := Views.approve_registration db user registration_id data t in
  (snd out = db
   \/ (fst out = R200_rejected /\ users (snd out) = users db
       /\ companies (snd out) = companies db)
   \/ exists uid num, fst out = R200_approved uid num).
Proof.
  cbv zeta. unfold Views.approve_registration.
  destruct (Models.can_approve_users user); cbn [negb]; [|now left].
  destruct (Orm.get_object_or_404 _ (requests db)) as [rr|[]]; try now left.
  destruct (Serializers.approval_is_valid data) as [vd| |]; try now left.
  unfold Views.decide.
  destruct (Serializers.status vd) as [s|]; cbn [bind]; [|now left].
  destruct (String.eqb s "rejected").
  - match goal with
    | |- context [Orm.save_request db ?r] =>
        destruct (Orm.save_request db r) as [[db' r']|] eqn:Hs
    end; cbn [bind fst snd]; [|now left].
    right; left. split; [reflexivity|].
    unfold Orm.save_request in Hs.
    destruct (RegistrationRequest.id _);
      destruct (Orm.check_request _ _); cbn [bind] in Hs; try discriminate;
      injection Hs as <- _; split; reflexivity.
  - destruct (String.eqb s "approved"); [|now left].
    destruct (Orm.save_request db _) as [saved|]; cbn [bind]; [|now left].
    destruct (Views._create_user_account _ _ _ _ _) as [made|]; cbn [bind];
      [|now left].
    right; right. eexists. eexists. reflexivity.
Qed.

End RefusedBodies.

(** ** Approval: when it goes through and when it does not *)

Section ApprovalRuns.
Context {fw : Framework}.

Lemma create_user_account_run (db : DB) (rr : RegistrationRequest.t)
    (approver : User.t) (t : Views.clock) (username : string) (c : Company.t) :
  Views.generate_username db
    (Py.lower (RegistrationRequest.first_name rr) ++ "."
     ++ Py.lower (RegistrationRequest.last_name rr)) = Some username ->
  Orm.get (fun c => Nat.eqb (Company.id c) (RegistrationRequest.company rr))
          (companies db) = Ok c ->
  let u := account_of rr approver t username
             (next_number db (RegistrationRequest.company rr) c) in
  Views._create_user_account db rr approver (Views.now_approved t)
    (Views.now_hired t)
  = (_ <- Orm.check_user (users db) u ;;
     Ok (mkDB (companies db)
              (users db ++ [User.with_id (Some (next_user_id db)) u])%list
              (requests db) (S (next_user_id db)) (next_request_id db),
         User.with_id (Some (next_user_id db)) u)).
Proof.
  intros Hname Hc. cbv zeta.
  unfold Views._create_user_account. rewrite role_mapping_get, Hname.
  unfold Models.save, Models.assign_employee_number.
  cbn [User.employee_number Models.unset Py.truthy negb User.company].
  rewrite Hc. cbn [bind]. reflexivity.
Qed.

Lemma check_user_free (l : list User.t) (u : User.t) (n : string) :
  User.employee_number u = Some n ->
  (forall x, In x l -> User.username x <> User.username u) ->
  (forall x, In x l -> User.employee_number x <> Some n) ->
  Orm.check_user l u = Ok tt.
Proof.
  intros Hn Hname Hnum. unfold Orm.check_user.
  rewrite existsb_false.
  2:{ intros x Hx. apply String.eqb_neq. now apply Hname. }
  rewrite Hn. rewrite existsb_false; [reflexivity|].
  intros x Hx. specialize (Hnum x Hx).
  destruct (User.employee_number x) as [m|]; [|reflexivity].
  simpl. apply String.eqb_neq. congruence.
Qed.

Lemma check_user_number_taken (l : list User.t) (u x : User.t) (n : string) :
  User.employee_number u = Some n -> In x l ->
  User.employee_number x = Some n ->
  exists e, Orm.check_user l u = Raise e.
Proof.
  intros Hn Hx Hxn. unfold Orm.check_user.
  destruct (existsb _ l); [now eexists|]. rewrite Hn.
  assert (H : existsb (fun y => Orm.opt_eqb (User.employee_number y) (Some n)) l
              = true).
  { apply existsb_exists. exists x. split; [assumption|].
    rewrite Hxn. simpl. apply String.eqb_refl. }
  rewrite H. now eexists.
Qed.

Lemma username_free (db : DB) (name : string) :
  Views.username_exists db name = false ->
  forall x, In x (users db) -> User.username x <> name.
Proof.
  intros H x Hx Heq. apply not_true_iff_false in H. apply H.
  apply existsb_exists. exists x. split; [assumption|].
  now apply String.eqb_eq.
Qed.

(** The atomic block of an approval, up to the unique columns of the new
    account. *)
Lemma approve_runs (db : DB) (user : User.t) (registration_id : nat)
    (rr : RegistrationRequest.t) (reason : option string) (t : Views.clock)
    (c : Company.t) :
  requests_consistent db ->
  Models.can_approve_users user = true ->
  In rr (requests db) ->
  RegistrationRequest.id rr = Some registration_id ->
  Views.open_for user rr = true ->
  Orm.get (fun c => Nat.eqb (Company.id c) (RegistrationRequest.company rr))
          (companies db) = Ok c ->
  exists username db1,
    let u := account_of rr user t username
               (next_number db (RegistrationRequest.company rr) c) in
    Views.username_exists db username = false
    /\ requests db1
       = map (Orm.replace_row
                (RegistrationRequest.with_review "approved" (User.id user)
                   (Some (Views.now_reviewed t)) rr))
             (requests db)
    /\ users db1 = users db /\ companies db1 = companies db
    /\ next_user_id db1 = next_user_id db
    /\ Views.approve_registration db user registration_id
         (Serializers.Approval (Some "approved") reason) t
       = match Orm.check_user (users db) u with
         | Ok _ =>
             (R200_approved (Some (next_user_id db))
                (Some (next_number db (RegistrationRequest.company rr) c)),
              mkDB (companies db1)
                   (users db1 ++ [User.with_id (Some (next_user_id db1)) u])%list
                   (requests db1) (S (next_user_id db1)) (next_request_id db1))
         | Raise _ => (R500, db)
         end.
Proof.
  intros Hc Hcan Hin Hid Hopen Hco.
  destruct (generate_username_first_free db
              (Py.lower (RegistrationRequest.first_name rr) ++ "."
               ++ Py.lower (RegistrationRequest.last_name rr)))
    as (username & _ & Hname & _ & Hfree & _).
  destruct (update_request_ok db
              (RegistrationRequest.with_review "approved" (User.id user)
                 (Some (Views.now_reviewed t)) rr) rr Hc Hin)
    as (db1 & Hs & Hrows & Hu & Hcos & Hnu & _); [repeat split|].
  exists username, db1. cbv zeta.
  repeat (split; [assumption|]).
  rewrite (approve_found db user registration_id rr _ t Hc Hcan Hin Hid Hopen).
  change (Serializers.approval_is_valid
            (Serializers.Approval (Some "approved") reason))
    with (Serializers.Valid (Serializers.Approval (Some "approved") reason)).
  cbv iota. unfold Views.decide.
  cbn [Serializers.status bind String.eqb Ascii.eqb Bool.eqb andb].
  rewrite Hs. cbn [bind fst snd].
  rewrite (create_user_account_run db1 _ user t username c).
  - cbn [RegistrationRequest.with_review RegistrationRequest.company].
    change (account_of
              (RegistrationRequest.with_review "approved" (User.id user)
                 (Some (Views.now_reviewed t)) rr))
      with (account_of rr).
    unfold next_number, Models.numbered_in. rewrite Hu, Hnu.
    fold (Models.numbered_in (RegistrationRequest.company rr) db).
    destruct (Orm.check_user (users db) _) as [[]|]; cbn [bind fst snd];
      reflexivity.
  - cbn [RegistrationRequest.with_review RegistrationRequest.first_name
         RegistrationRequest.last_name].
    now rewrite (generate_username_users db db1 _ Hu).
  - cbn [RegistrationRequest.with_review RegistrationRequest.company].
    now rewrite Hcos.
Qed.

End ApprovalRuns.

Section ApprovalOutcome.
Context {fw : Framework}.

(** X5.  On a consistent request table, when the caller may approve, the
    request is pending, verified and of the caller's company, its company
    row exists and no account holds the next employee number of that
    company, an approval is answered 200 with the new primary key and
    that number; the request is stored as approved, reviewed by the
    caller, and exactly one account is added, under a username no account
    had. *)
Theorem approval_goes_through (db : DB) (user : User.t) (registration_id : nat)
    (rr : RegistrationRequest.t) (reason : option string) (t : Views.clock)
    (c : Company.t) :
  requests_consistent db ->
  Models.can_approve_users user = true ->
  In rr (requests db) ->
  RegistrationRequest.id rr = Some registration_id ->
  Views.open_for user rr = true ->
  Orm.get (fun c => Nat.eqb (Company.id c) (RegistrationRequest.company rr))
          (companies db) = Ok c ->
  (forall x, In x (users db) ->
     User.employee_number x
     <> Some (next_number db (RegistrationRequest.company rr) c)) ->
  exists username db',
    Views.approve_registration db user registration_id
      (Serializers.Approval (Some "approved") reason) t
    = (R200_approved (Some (next_user_id db))
         (Some (next_number db (RegistrationRequest.company rr) c)), db')
    /\ Views.username_exists db username = false
    /\ users db'
       = (users db
          ++ [User.with_id (Some (next_user_id db))
                (account_of rr user t username
                   (next_number db (RegistrationRequest.company rr) c))])%list
    /\ requests db'
       = map (Orm.replace_row
                (RegistrationRequest.with_review "approved" (User.id user)
                   (Some (Views.now_reviewed t)) rr))
             (requests db)
    /\ companies db' = companies db.
Proof.
  intros Hc Hcan Hin Hid Hopen Hco Hnum.
  destruct (approve_runs db user registration_id rr reason t c
              Hc Hcan Hin Hid Hopen Hco)
    as (username & db1 & Hfree & Hrows & Hu & Hcos & Hnu & Hrun).
  rewrite (check_user_free (users db) _
             (next_number db (RegistrationRequest.company rr) c)) in Hrun.
  - exists username. eexists. split; [exact Hrun|].
    cbn [users requests companies]. rewrite Hu, Hnu. auto.
  - reflexivity.
  - exact (username_free db username Hfree).
  - exact Hnum.
Qed.

(** X6.  Under the same conditions but with the next employee number of
    the company already held by an account, the approval is answered 500
    and rolled back: the request is still pending and no account is
    added. *)
Theorem approval_number_taken_500 (db : DB) (user : User.t)
    (registration_id : nat) (rr : RegistrationRequest.t)
    (reason : option string) (t : Views.clock) (c : Company.t) (x : User.t) :
  requests_consistent db ->
  Models.can_approve_users user = true ->
  In rr (requests db) ->
  RegistrationRequest.id rr = Some registration_id ->
  Views.open_for user rr = true ->
  Orm.get (fun c => Nat.eqb (Company.id c) (RegistrationRequest.company rr))
          (companies db) = Ok c ->
  In x (users db) ->
  User.employee_number x
  = Some (next_number db (RegistrationRequest.company rr) c) ->
  Views.approve_registration db user registration_id
    (Serializers.Approval (Some "approved") reason) t = (R500, db).
Proof.
  intros Hc Hcan Hin Hid Hopen Hco Hx Hxn.
  destruct (approve_runs db user registration_id rr reason t c
              Hc Hcan Hin Hid Hopen Hco)
    as (username & db1 & _ & _ & _ & _ & _ & Hrun).
  destruct (check_user_number_taken (users db)
              (account_of rr user t username
                 (next_number db (RegistrationRequest.company rr) c))
              x _ eq_refl Hx Hxn) as [e He].
  now rewrite He in Hrun.
Qed.

End ApprovalOutcome.

(** ** Decided requests are final *)

Lemma replace_row_others (l : list RegistrationRequest.t)
    (r x y : RegistrationRequest.t) :
  NoDup (map RegistrationRequest.id l) -> In x l -> In y l ->
  RegistrationRequest.id r = RegistrationRequest.id x -> y <> x ->
  In y (map (Orm.replace_row r) l).
Proof.
  intros Hnd Hx Hy Hid Hne. apply in_map_iff. exists y. split; [|assumption].
  unfold Orm.replace_row, Orm.has_id.
  destruct (Orm.id_eqb _ _) eqn:E; [|reflexivity].
  apply id_eqb_eq in E. destruct Hne.
  apply (NoDup_map_inj RegistrationRequest.id l y x Hnd Hy Hx). congruence.
Qed.

Lemma decided_kept_refl (db : DB) : decided_kept db db.
Proof. intros r Hr _. exact Hr. Qed.

Lemma decided_kept_trans (a b c : DB) :
  decided_kept a b -> decided_kept b c -> decided_kept a c.
Proof. intros Hab Hbc r Hr Hs. apply Hbc; auto. Qed.

(** An UPDATE of a pending row, its key columns kept, leaves the decided
    rows alone. *)
Lemma update_pending_decided_kept (db db' : DB)
    (r x r2 : RegistrationRequest.t) :
  requests_consistent db -> In x (requests db) -> same_keys r x ->
  RegistrationRequest.status x = "pending" ->
  Orm.save_request db r = Ok (db', r2) ->
  decided_kept db db'.
Proof.
  intros Hc Hx Hk Hst Hs.
  destruct (update_request_ok db r x Hc Hx Hk) as (db2 & Hs2 & Hrows & _).
  rewrite Hs2 in Hs. injection Hs as <- _.
  intros y Hy Hdec. rewrite Hrows.
  apply (replace_row_others _ r x y (ids_distinct db Hc) Hx Hy (proj1 Hk)).
  intros ->. contradiction.
Qed.

Section Finality.
Context {fw : Framework}.

Hint Resolve decided_kept_refl : rooster.

Lemma register_decided_kept (db : DB) (data : Serializers.registration)
    (token : string) (now : nat) :
  decided_kept db (snd (Views.register db data token now)).
Proof.
  unfold Views.register.
  destruct (Serializers.is_valid db data) as [attrs| |]; simpl; auto with rooster.
  unfold Serializers.create.
  destruct (Orm.get _ (companies db)) as [c|]; simpl; auto with rooster.
  match goal with
  | |- context [Orm.save_request db ?new] =>
      destruct (Orm.save_request db new) as [[db' r]|] eqn:Hs; simpl;
      auto with rooster;
      destruct (insert_request_inv db db' new r eq_refl Hs) as (_ & Hrows & _)
  end.
  intros y Hy _. rewrite Hrows. apply in_or_app. now left.
Qed.

Lemma verify_decided_kept (db : DB) (token : string) :
  requests_consistent db ->
  decided_kept db (snd (Views.verify_email db token)).
Proof.
  intros Hc. unfold Views.verify_email.
  destruct (Orm.get _ (requests db)) as [r|[]] eqn:Hg; simpl; auto with rooster.
  apply get_Ok_In in Hg as [Hr Hp]. apply pending_token_spec in Hp as [_ Hst].
  destruct (Orm.save_request db _) as [[db' r']|] eqn:Hs; simpl;
    auto with rooster.
  eapply (update_pending_decided_kept db db');
    [exact Hc | exact Hr | | exact Hst | exact Hs]. repeat split.
Qed.

Lemma decide_decided_kept (db : DB) (user : User.t) (registration_id : nat)
    (data : Serializers.approval) (t : Views.clock) :
  requests_consistent db ->
  decided_kept db
    (snd (Views.approve_registration db user registration_id data t)).
Proof.
  intros Hc. unfold Views.approve_registration.
  destruct (Models.can_approve_users user); simpl; auto with rooster.
  unfold Orm.get_object_or_404.
  destruct (Orm.get _ (requests db)) as [rr|[]] eqn:Hg; simpl; auto with rooster.
  apply get_Ok_In in Hg as [Hr Hp]. apply andb_true_iff in Hp as [_ Hopen].
  apply open_for_spec in Hopen as (_ & Hst & _).
  destruct (Serializers.approval_is_valid data) as [vd| |]; simpl;
    auto with rooster.
  unfold Views.decide.
  destruct (Serializers.status vd) as [s|]; simpl; auto with rooster.
  destruct (String.eqb s "rejected").
  - destruct (Orm.save_request db _) as [[db' r']|] eqn:Hs; simpl;
      auto with rooster.
    eapply (update_pending_decided_kept db db');
      [exact Hc | exact Hr | | exact Hst | exact Hs]. repeat split.
  - destruct (String.eqb s "approved"); simpl; auto with rooster.
    destruct (Orm.save_request db _) as [[db' r']|] eqn:Hs; simpl;
      auto with rooster.
    assert (Hk : decided_kept db db').
    { eapply (update_pending_decided_kept db db');
        [exact Hc | exact Hr | | exact Hst | exact Hs]. repeat split. }
    unfold Views._create_user_account.
    match goal with
    | |- context [Views.generate_username ?d ?b] =>
        destruct (Views.generate_username d b); simpl; auto with rooster
    end.
    match goal with
    | |- context [Models.save ?d ?x] =>
        destruct (Models.save d x) as [[db2 u]|] eqn:Hm; simpl;
        auto with rooster;
        apply models_save_requests in Hm as [Hr2 _]
    end.
    intros y Hy Hdec. rewrite Hr2. now apply Hk.
Qed.

(** The workflow keeps every decided row. *)
Lemma steps_decided_kept (db db' : DB) :
  requests_consistent db -> steps db db' -> decided_kept db db'.
Proof.
  intros Hc Hs. induction Hs as [db|db mid db' Hsteps IH Hstep].
  - apply decided_kept_refl.
  - destruct (steps_kept db mid Hc Hsteps) as [Hmid _].
    assert (H : decided_kept mid db').
    { destruct Hstep; [apply register_decided_kept | apply verify_decided_kept
                       | apply decide_decided_kept]; assumption. }
    intros r Hr Hdec. apply H; auto. apply IH; auto.
Qed.

(** X7.  Approved and rejected are terminal: whatever registrations,
    verifications and decisions follow, a stored request that is not
    pending stays in the table exactly as it is: status, reviewer, time,
    reason and verification flag included. *)
Theorem decided_requests_final (db db' : DB) :
  requests_consistent db -> steps db db' ->
  forall r, In r (requests db) ->
    RegistrationRequest.status r <> "pending" -> In r (requests db').
Proof.
  intros Hc Hs r Hr Hdec. exact (steps_decided_kept db db' Hc Hs r Hr Hdec).
Qed.

End Finality.

Section Once.
Context {fw : Framework}.

(** The row an answered decision has stored. *)
Lemma decide_200_row (db db1 : DB) (user : User.t) (registration_id : nat)
    (data : Serializers.approval) (t : Views.clock) (resp : Response) :
  requests_consistent db ->
  Views.approve_registration db user registration_id data t = (resp, db1) ->
  (resp = R200_rejected \/ exists uid num, resp = R200_approved uid num) ->
  exists rr rr1,
    In rr (requests db) /\ RegistrationRequest.id rr = Some registration_id
    /\ In rr1 (requests db1)
    /\ RegistrationRequest.id rr1 = Some registration_id
    /\ RegistrationRequest.verification_token rr1
       = RegistrationRequest.verification_token rr
    /\ RegistrationRequest.status rr1 <> "pending".
Proof.
  intros Hc Hrun H200. unfold Views.approve_registration in Hrun.
  assert (Hno : forall d, (resp, db1) <> (R403, d) /\ (resp, db1) <> (R404, d)
                          /\ (resp, db1) <> (R500, d)
                          /\ forall e, (resp, db1) <> (R400 e, d)).
  { intros d. destruct H200 as [->|(uid & num & ->)]; repeat split;
      try intros e; discriminate. }
  destruct (Models.can_approve_users user); cbn [negb] in Hrun;
    [|symmetry in Hrun; now apply Hno in Hrun].
  unfold Orm.get_object_or_404 in Hrun.
  destruct (Orm.get _ (requests db)) as [rr|[]] eqn:Hg;
    try (symmetry in Hrun; now apply Hno in Hrun).
  apply get_Ok_In in Hg as [Hr Hp]. apply andb_true_iff in Hp as [Hid _].
  apply has_id_spec in Hid.
  destruct (Serializers.approval_is_valid data) as [vd| |];
    try (symmetry in Hrun; now apply Hno in Hrun).
  unfold Views.decide in Hrun.
  destruct (Serializers.status vd) as [s|]; cbn [bind] in Hrun;
    [|symmetry in Hrun; now apply Hno in Hrun].
  exists rr.
  destruct (String.eqb_spec s "rejected") as [Hs|Hs].
  - subst s.
    match type of Hrun with
    | context [Orm.save_request db ?r] =>
        destruct (update_request_ok db r rr Hc Hr)
          as (db' & Hsave & _ & _ & _ & _ & _ & Hin' & _); [repeat split|];
        rewrite Hsave in Hrun; cbn [bind fst] in Hrun;
        injection Hrun as _ <-; exists r
    end.
    repeat split; try assumption. discriminate.
  - destruct (String.eqb_spec s "approved") as [Ha|Ha];
      [subst s|symmetry in Hrun; now apply Hno in Hrun].
    match type of Hrun with
    | context [Orm.save_request db ?r] =>
        destruct (update_request_ok db r rr Hc Hr)
          as (db' & Hsave & _ & _ & _ & _ & _ & Hin' & _); [repeat split|];
        rewrite Hsave in Hrun; cbn [bind fst snd] in Hrun; exists r
    end.
    destruct (Views._create_user_account db' _ user _ _) as [[db2 u]|] eqn:Hmk;
      cbn [bind fst snd] in Hrun; [|symmetry in Hrun; now apply Hno in Hrun].
    injection Hrun as _ <-.
    unfold Views._create_user_account in Hmk.
    destruct (Views.generate_username db' _); [|discriminate].
    apply models_save_requests in Hmk as [Hreq _]. rewrite Hreq.
    repeat split; try assumption. discriminate.
Qed.

(** X8.  A request is decided once.  After a decision was answered 200,
    and whatever the workflow does next, every decision on the same id by
    a caller who may approve is answered 404, and so is a verification
    with the request's token; neither writes anything. *)
Theorem decision_is_once (db db1 db2 : DB) (user : User.t)
    (registration_id : nat) (data : Serializers.approval) (t : Views.clock)
    (resp : Response) :
  requests_consistent db ->
  Views.approve_registration db user registration_id data t = (resp, db1) ->
  (resp = R200_rejected \/ exists uid num, resp = R200_approved uid num) ->
  steps db1 db2 ->
  (forall user2 data2 t2, Models.can_approve_users user2 = true ->
     Views.approve_registration db2 user2 registration_id data2 t2 = (R404, db2))
  /\ exists rr, In rr (requests db)
       /\ RegistrationRequest.id rr = Some registration_id
       /\ Views.verify_email db2 (RegistrationRequest.verification_token rr)
          = (R404, db2).
Proof.
  intros Hc Hrun H200 Hsteps.
  destruct (decide_200_row db db1 user registration_id data t resp Hc Hrun H200)
    as (rr & rr1 & Hr & Hid & Hr1 & Hid1 & Htok & Hdec).
  assert (Hc1 : requests_consistent db1).
  { pose proof (decide_step db user registration_id data t Hc) as [H _].
    now rewrite Hrun in H. }
  destruct (steps_kept db1 db2 Hc1 Hsteps) as [Hc2 _].
  pose proof (steps_decided_kept db1 db2 Hc1 Hsteps rr1 Hr1 Hdec) as Hr2.
  split.
  - intros user2 data2 t2 Hcan. unfold Views.approve_registration.
    rewrite Hcan. cbn [negb]. unfold Orm.get_object_or_404.
    rewrite get_none; [reflexivity|].
    intros y Hy. apply not_true_is_false. intros Hp.
    apply andb_true_iff in Hp as [Hyid Hopen]. apply has_id_spec in Hyid.
    apply open_for_spec in Hopen as (_ & Hst & _).
    assert (y = rr1)
      by (apply (NoDup_map_inj RegistrationRequest.id _ y rr1
                   (ids_distinct db2 Hc2) Hy Hr2); congruence).
    subst y. contradiction.
  - exists rr. repeat split; try assumption.
    unfold Views.verify_email. rewrite get_none; [reflexivity|].
    intros y Hy. apply not_true_is_false. intros Hp.
    apply pending_token_spec in Hp as [Hyt Hst].
    assert (y = rr1)
      by (apply (NoDup_map_inj RegistrationRequest.verification_token _ y rr1
                   (tokens_distinct db2 Hc2) Hy Hr2); congruence).
    subst y. contradiction.
Qed.

End Once.

(** ** The user table through the workflow *)

Lemma check_user_Ok_inv (l : list User.t) (u : User.t) :
  Orm.check_user l u = Ok tt ->
  (forall x, In x l -> User.username x <> User.username u)
  /\ User.employee_number u <> None
  /\ (forall x, In x l -> User.employee_number x <> User.employee_number u).
Proof.
  unfold Orm.check_user.
  destruct (existsb _ l) eqn:En; [discriminate|].
  destruct (User.employee_number u) as [n|]; [|discriminate].
  destruct (existsb (fun x => Orm.opt_eqb _ _) l) eqn:Em; [discriminate|].
  intros _. repeat split; try discriminate.
  - intros x Hx Heq. apply not_true_iff_false in En. apply En.
    apply existsb_exists. exists x. split; [assumption|]. now apply String.eqb_eq.
  - intros x Hx Heq. apply not_true_iff_false in Em. apply Em.
    apply existsb_exists. exists x. split; [assumption|].
    rewrite Heq. simpl. apply String.eqb_refl.
Qed.

Lemma save_request_users (db db' : DB) (r r' : RegistrationRequest.t) :
  Orm.save_request db r = Ok (db', r') ->
  users db' = users db /\ next_user_id db' = next_user_id db.
Proof.
  unfold Orm.save_request.
  destruct (RegistrationRequest.id r); destruct (Orm.check_request _ r);
    cbn [bind]; try discriminate; intros [= <- _]; auto.
Qed.

Lemma users_consistent_same (db db' : DB) :
  users db' = users db -> next_user_id db' = next_user_id db ->
  users_consistent db -> users_consistent db'.
Proof.
  intros Hu Hn [H1 H2 H3 H4 H5]. split; rewrite ?Hu, ?Hn; assumption.
Qed.

(** INSERT of an account keeps the user table consistent and adds one row. *)
Lemma insert_user_consistent (db db' : DB) (u u' : User.t) :
  users_consistent db -> User.id u = None ->
  Orm.save_user db u = Ok (db', u') ->
  users_consistent db' /\ users db' = (users db ++ [u'])%list.
Proof.
  intros [Hids Hiss Hnames Hnums Hset] Hid H.
  unfold Orm.save_user in H. rewrite Hid in H.
  destruct (Orm.check_user (users db) u) as [[]|] eqn:Hchk; cbn [bind] in H;
    [|discriminate].
  injection H as <- <-. cbn [users next_user_id].
  apply check_user_Ok_inv in Hchk as (Hn & Hsome & Hm).
  split; [|reflexivity]. split; cbn [users next_user_id].
  - rewrite map_app. simpl. apply NoDup_app; [assumption|repeat constructor; auto|].
    intros a Ha [<-|[]]. apply in_map_iff in Ha as (x & Hx & Hin).
    destruct (Hiss x Hin) as (i & Hi & Hlt). rewrite Hi in Hx. injection Hx. lia.
  - intros x Hx. apply in_app_or in Hx as [Hx|[<-|[]]].
    + destruct (Hiss x Hx) as (i & Hi & Hlt). exists i. split; [assumption|lia].
    + exists (next_user_id db). split; [reflexivity|lia].
  - rewrite map_app. simpl. apply NoDup_app; [assumption|repeat constructor; auto|].
    intros a Ha [<-|[]]. apply in_map_iff in Ha as (x & Hx & Hin).
    exact (Hn x Hin Hx).
  - rewrite map_app. simpl. apply NoDup_app; [assumption|repeat constructor; auto|].
    intros a Ha [<-|[]]. apply in_map_iff in Ha as (x & Hx & Hin).
    exact (Hm x Hin Hx).
  - intros x Hx. apply in_app_or in Hx as [Hx|[<-|[]]]; [now apply Hset|].
    exact Hsome.
Qed.

Lemma users_extended_same (db db' : DB) :
  users_consistent db -> users db' = users db ->
  next_user_id db' = next_user_id db -> users_extended db db'.
Proof.
  intros Hc Hu Hn. split; [now apply (users_consistent_same db db')|].
  exists []. now rewrite app_nil_r.
Qed.

Section UserTable.
Context {fw : Framework}.

Lemma register_users (db : DB) (data : Serializers.registration)
    (token : string) (now : nat) :
  users (snd (Views.register db data token now)) = users db
  /\ next_user_id (snd (Views.register db data token now)) = next_user_id db.
Proof.
  unfold Views.register.
  destruct (Serializers.is_valid db data) as [attrs| |]; simpl; auto.
  unfold Serializers.create.
  destruct (Orm.get _ (companies db)) as [c|]; simpl; auto.
  destruct (Orm.save_request db _) as [[db' r]|] eqn:Hs; simpl; auto.
  exact (save_request_users db db' _ r Hs).
Qed.

Lemma verify_users (db : DB) (token : string) :
  users (snd (Views.verify_email db token)) = users db
  /\ next_user_id (snd (Views.verify_email db token)) = next_user_id db.
Proof.
  unfold Views.verify_email.
  destruct (Orm.get _ (requests db)) as [r|[]]; simpl; auto.
  destruct (Orm.save_request db _) as [[db' r']|] eqn:Hs; simpl; auto.
  exact (save_request_users db db' _ r' Hs).
Qed.

Lemma decide_users (db : DB) (user : User.t) (registration_id : nat)
    (data : Serializers.approval) (t : Views.clock) :
  users_consistent db ->
  users_extended db
    (snd (Views.approve_registration db user registration_id data t)).
Proof.
  intros Hc.
  assert (Hsame : users_extended db db)
    by (now apply users_extended_same).
  unfold Views.approve_registration.
  destruct (Models.can_approve_users user); simpl; auto.
  destruct (Orm.get_object_or_404 _ (requests db)) as [rr|[]]; simpl; auto.
  destruct (Serializers.approval_is_valid data) as [vd| |]; simpl; auto.
  unfold Views.decide.
  destruct (Serializers.status vd) as [s|]; simpl; auto.
  destruct (String.eqb s "rejected").
  - destruct (Orm.save_request db _) as [[db' r']|] eqn:Hs; simpl; auto.
    apply save_request_users in Hs as [Hu Hn].
    now apply users_extended_same.
  - destruct (String.eqb s "approved"); simpl; auto.
    destruct (Orm.save_request db _) as [[db' r']|] eqn:Hs; simpl; auto.
    apply save_request_users in Hs as [Hu Hn].
    unfold Views._create_user_account.
    match goal with
    | |- context [Views.generate_username ?d ?b] =>
        destruct (Views.generate_username d b); simpl; auto
    end.
    unfold Models.save, Models.assign_employee_number.
    cbn [User.employee_number Models.unset Py.truthy negb User.company].
    destruct (Orm.get _ (companies db')) as [c|]; cbn [bind]; simpl; auto.
    match goal with
    | |- context [Orm.save_user ?d ?x] =>
        destruct (Orm.save_user d x) as [[db2 u]|] eqn:Hm; simpl; auto;
        destruct (insert_user_consistent d db2 x u
                    (users_consistent_same db d Hu Hn Hc) eq_refl Hm)
          as [Hc2 Hadd]
    end.
    split; [assumption|]. exists [u]. now rewrite Hadd, Hu.
Qed.

(** X9.  The workflow keeps the user table consistent: after any number of
    registrations, verifications and decisions no two accounts share a
    username, an employee number or a primary key, and every account has
    an employee number; the accounts that were there are all still there,
    unchanged and in place, new ones come after them. *)
Theorem accounts_stay_unique (db db' : DB) :
  users_consistent db -> steps db db' ->
  users_consistent db' /\ exists added, users db' = (users db ++ added)%list.
Proof.
  intros Hc Hs. induction Hs as [db|db mid db' _ IH Hstep].
  - split; [assumption|]. exists []. now rewrite app_nil_r.
  - destruct (IH Hc) as [Hmid [added Hadd]].
    assert (H : users_extended mid db').
    { destruct Hstep.
      - destruct (register_users db0 data token now) as [Hu Hn].
        now apply users_extended_same.
      - destruct (verify_users db0 token) as [Hu Hn].
        now apply users_extended_same.
      - now apply decide_users. }
    destruct H as [Hc' [more Hmore]]. split; [assumption|].
    exists (added ++ more)%list. now rewrite Hmore, Hadd, app_assoc.
Qed.

End UserTable.

(** ** The pending list *)

Lemma insert_desc_perm (r : RegistrationRequest.t) (l : list RegistrationRequest.t) :
  Permutation (Views.insert_desc r l) (r :: l).
Proof.
  induction l as [|x l IH]; simpl; [apply Permutation_refl|].
  destruct (Nat.ltb _ _); [apply Permutation_refl|].
  apply perm_trans with (x :: r :: l); [now apply perm_skip | apply perm_swap].
Qed.

Lemma newest_first_perm (l : list RegistrationRequest.t) :
  Permutation (Views.newest_first l) l.
Proof.
  induction l as [|x l IH]; simpl; [apply perm_nil|].
  apply perm_trans with (x :: Views.newest_first l);
    [apply insert_desc_perm | now apply perm_skip].
Qed.

Lemma insert_desc_sorted (r : RegistrationRequest.t)
    (l : list RegistrationRequest.t) :
  StronglySorted not_older l -> StronglySorted not_older (Views.insert_desc r l).
Proof.
  induction l as [|x l IH]; intros Hs; simpl.
  - repeat constructor.
  - inversion Hs as [|? ? Hl Hx]; subst.
    destruct (Nat.ltb_spec (RegistrationRequest.created_at x)
                           (RegistrationRequest.created_at r)) as [Hlt|Hge].
    + constructor; [assumption|]. constructor.
      * unfold not_older. lia.
      * eapply Forall_impl; [|exact Hx]. unfold not_older. intros y Hy. lia.
    + constructor; [now apply IH|].
      apply (Permutation_Forall (Permutation_sym (insert_desc_perm r l))).
      constructor; [exact Hge|exact Hx].
Qed.

Lemma newest_first_sorted (l : list RegistrationRequest.t) :
  StronglySorted not_older (Views.newest_first l).
Proof.
  induction l as [|x l IH]; simpl; [constructor|now apply insert_desc_sorted].
Qed.

(** X10.  To a caller who may approve, the pending list shows exactly the
    stored requests that are of the caller's company, pending and
    e-mail-verified, each as often as it is stored, and no request in it
    is newer than one before it. *)
Theorem pending_list_content (db : DB) (user : User.t) :
  Models.can_approve_users user = true ->
  Permutation (Views.get_queryset db user)
              (filter (Views.open_for user) (requests db))
  /\ StronglySorted not_older (Views.get_queryset db user)
  /\ forall r, In r (Views.get_queryset db user) <->
       In r (requests db)
       /\ RegistrationRequest.company r = User.company user
       /\ RegistrationRequest.status r = "pending"
       /\ RegistrationRequest.email_verified r = true.
Proof.
  intros Hcan. unfold Views.get_queryset. rewrite Hcan. cbn [negb].
  split; [apply newest_first_perm|]. split; [apply newest_first_sorted|].
  intros r. rewrite <- open_for_spec, <- filter_In. split; intros H.
  - exact (Permutation_in r (newest_first_perm _) H).
  - exact (Permutation_in r (Permutation_sym (newest_first_perm _)) H).
Qed.

(** ** What a registration stores *)

Section Stored.
Context {fw : Framework}.

Lemma no_errors_all_ok (fields : list (string * result string)) :
  map fst (filter (fun x => negb (is_ok (snd x))) fields) = [] ->
  Forall (fun x => exists v, snd x = Ok v) fields.
Proof.
  induction fields as [|[n r] fields IH]; intros H; [constructor|].
  simpl in H. destruct r as [v|e]; simpl in H; [|discriminate].
  constructor; [now exists v | now apply IH].
Qed.

Lemma validate_returns_attrs (db : DB) (a a' : Serializers.registration) :
  Serializers.validate db a = Ok a' -> a' = a.
Proof.
  unfold Serializers.validate. destruct (negb _); [discriminate|].
  destruct (Orm.get _ (companies db)); cbn [bind]; [|discriminate].
  destruct (existsb _ (requests db)); [discriminate|]. now intros [= <-].
Qed.

Lemma is_valid_inv (db : DB) (data attrs : Serializers.registration) :
  Serializers.is_valid db data = Serializers.Valid attrs ->
  fields_pass db data attrs /\ Serializers.validate db attrs = Ok attrs.
Proof.
  unfold Serializers.is_valid, fields_pass. cbv zeta. intros H.
  destruct (Serializers.crash_of _); [discriminate|].
  destruct (map fst _) eqn:Herr; [|discriminate].
  apply no_errors_all_ok in Herr.
  repeat match goal with
         | F : Forall _ (_ :: _) |- _ => inversion F; clear F; subst
         end.
  repeat match goal with
         | E : exists v, snd _ = Ok v |- _ =>
             let v := fresh "v" in
             destruct E as [v E]; cbn [snd] in E; rewrite E in H; rewrite E
         end.
  cbn [Serializers.value_of] in H.
  match type of H with
  | context [Serializers.validate db ?a] =>
      destruct (Serializers.validate db a) as [a'|ex] eqn:Hv;
      [|destruct ex; discriminate H];
      pose proof (validate_returns_attrs db a a' Hv); subst a'
  end.
  injection H as <-. split; [|exact Hv].
  cbn [Serializers.email Serializers.first_name Serializers.last_name
       Serializers.phone Serializers.function Serializers.company_code
       Serializers.password Serializers.password_confirm].
  repeat split; reflexivity.
Qed.

Lemma run_field_inv (name raw : string) (v : string -> result string)
    (x : string) :
  Serializers.run_field name raw v = Ok x ->
  exists w, to_internal_value name raw = Ok w /\ v w = Ok x.
Proof.
  unfold Serializers.run_field.
  destruct (to_internal_value name raw) as [w|]; cbn [bind]; [|discriminate].
  intros H. now exists w.
Qed.

Lemma lower_char_idem (c : ascii) : Py.lower_char (Py.lower_char c) = Py.lower_char c.
Proof. destruct c as [[] [] [] [] [] [] [] []]; reflexivity. Qed.

Lemma upper_char_idem (c : ascii) : Py.upper_char (Py.upper_char c) = Py.upper_char c.
Proof. destruct c as [[] [] [] [] [] [] [] []]; reflexivity. Qed.

Lemma lower_idem (s : string) : Py.lower (Py.lower s) = Py.lower s.
Proof.
  unfold Py.lower. induction s as [|c s IH]; simpl; [reflexivity|].
  now rewrite lower_char_idem, IH.
Qed.

Lemma upper_idem (s : string) : Py.upper (Py.upper s) = Py.upper s.
Proof.
  unfold Py.upper. induction s as [|c s IH]; simpl; [reflexivity|].
  now rewrite upper_char_idem, IH.
Qed.

Lemma validate_phone_canonical (value out : string) :
  Serializers.validate_phone value = Ok out ->
  exists d, out = "+316" ++ d /\ String.length d = 8
            /\ Py.all_str Py.isdigit d = true.
Proof.
  intros H.
  destruct (Serializers.phone_re (Serializers.cleaned value)) eqn:Hre.
  - apply phone_re_cleaned in Hre as (p & d & Hm).
    rewrite (normalise_mobile value p d Hm) in H. injection H as <-.
    destruct Hm as (_ & _ & Hl & Hd). now exists d.
  - unfold Serializers.validate_phone in H. rewrite Hre in H. discriminate.
Qed.

Lemma validate_company_code_inv (db : DB) (value out : string) :
  Serializers.validate_company_code db value = Ok out ->
  out = Py.upper value
  /\ exists c, In c (companies db) /\ Company.is_active c = true
               /\ Company.company_code c = out.
Proof.
  unfold Serializers.validate_company_code.
  destruct (Orm.get _ (companies db)) as [c|[]] eqn:Hg; try discriminate.
  intros [= <-]. split; [reflexivity|].
  apply get_Ok_In in Hg as [Hin Hp]. apply andb_true_iff in Hp as [Hcode Hact].
  apply String.eqb_eq in Hcode. now exists c.
Qed.

(** X11.  What a registration that is answered 201 has stored: one new
    request, under the next primary key and the token given, pending and
    unverified, created at the time read, with no reviewer; its e-mail
    address is in lower case and belongs to no account; its phone number
    is +316 and 8 digits; the code kept as entered is the upper-cased
    code, and it is the code of the active company the request points to.
    Accounts and companies are as they were. *)
Theorem registration_stored_normalised (db db' : DB)
    (data : Serializers.registration) (token : string) (now : nat)
    (rid : option nat) :
  Views.register db data token now = (R201 rid, db') ->
  exists r,
    requests db' = (requests db ++ [r])%list
    /\ users db' = users db /\ companies db' = companies db
    /\ rid = Some (next_request_id db) /\ RegistrationRequest.id r = rid
    /\ RegistrationRequest.verification_token r = token
    /\ RegistrationRequest.status r = "pending"
    /\ RegistrationRequest.email_verified r = false
    /\ RegistrationRequest.created_at r = now
    /\ RegistrationRequest.reviewed_by r = None
    /\ Py.lower (RegistrationRequest.email r) = RegistrationRequest.email r
    /\ (forall u, In u (users db) -> User.email u <> RegistrationRequest.email r)
    /\ (exists d, RegistrationRequest.phone r = "+316" ++ d
                  /\ String.length d = 8 /\ Py.all_str Py.isdigit d = true)
    /\ Py.upper (RegistrationRequest.company_code_entered r)
       = RegistrationRequest.company_code_entered r
    /\ exists c, In c (companies db) /\ Company.is_active c = true
         /\ Company.company_code c = RegistrationRequest.company_code_entered r
         /\ Company.id c = RegistrationRequest.company r.
Proof.
  unfold Views.register. intros H.
  destruct (Serializers.is_valid db data) as [attrs| |] eqn:Hv; try discriminate.
  apply is_valid_inv in Hv as [(He & _ & _ & Hp & _ & Hc & _) _].
  unfold Serializers.create in H.
  destruct (Orm.get _ (companies db)) as [c|] eqn:Hg; cbn [bind] in H;
    [|discriminate].
  match type of H with
  | context [Orm.save_request db ?new] =>
      destruct (Orm.save_request db new) as [[db1 r]|] eqn:Hs; [|discriminate];
      destruct (insert_request_inv db db1 new r eq_refl Hs)
        as (-> & Hrows & Hu & Hco & _)
  end.
  injection H as <- <-. eexists. split; [exact Hrows|].
  cbn [RegistrationRequest.with_id RegistrationRequest.id
       RegistrationRequest.verification_token RegistrationRequest.status
       RegistrationRequest.email_verified RegistrationRequest.created_at
       RegistrationRequest.reviewed_by RegistrationRequest.email
       RegistrationRequest.phone RegistrationRequest.company_code_entered
       RegistrationRequest.company].
  apply run_field_inv in He as (we & _ & He).
  apply run_field_inv in Hp as (wp & _ & Hp).
  apply run_field_inv in Hc as (wc & _ & Hc).
  apply validate_company_code_inv in Hc as (Hup & c' & Hin' & Hact & Hcode).
  apply get_Ok_In in Hg as Hg'. destruct Hg' as [Hin Hceq].
  apply String.eqb_eq in Hceq.
  repeat (split; [first [assumption|reflexivity]|]).
  split; [|split; [|split; [|split]]].
  - unfold Serializers.validate_email in He.
    destruct (existsb _ (users db)); [discriminate|]. injection He as <-.
    apply lower_idem.
  - unfold Serializers.validate_email in He.
    destruct (existsb _ (users db)) eqn:Hex; [discriminate|]. injection He as <-.
    intros u Hin_u Heq. apply not_true_iff_false in Hex. apply Hex.
    apply existsb_exists. exists u. split; [assumption|]. now apply String.eqb_eq.
  - exact (validate_phone_canonical wp _ Hp).
  - rewrite Hup. apply upper_idem.
  - exists c. repeat split; try assumption.
    assert (Hc' : In c' (filter (fun x => String.eqb (Company.company_code x)
                                           (Serializers.company_code attrs))
                                (companies db))).
    { apply filter_In. split; [assumption|]. now apply String.eqb_eq. }
    unfold Orm.get in Hg.
    destruct (filter _ (companies db)) as [|y [|z l]]; try discriminate.
    injection Hg as ->. destruct Hc' as [<-|[]]. exact Hact.
Qed.

(** X12.  A registration is all or nothing, and never touches an account
    or a company: either the database is exactly as it was, or the answer
    is 201 with the next primary key and the request table has grown by
    one pending, unverified row. *)
Theorem registration_all_or_nothing (db : DB) (data : Serializers.registration)
    (token : string) (now : nat) :
  let out := Views.register db data token now in
  users (snd out) = users db /\ companies (snd out) = companies db
  /\ (snd out = db
      \/ exists r, fst out = R201 (Some (next_request_id db))
           /\ requests (snd out) = (requests db ++ [r])%list
           /\ RegistrationRequest.status r = "pending"
           /\ RegistrationRequest.email_verified r = false).
Proof.
  cbv zeta. unfold Views.register.
  destruct (Serializers.is_valid db data) as [attrs| |]; cbn [fst snd]; auto.
  unfold Serializers.create.
  destruct (Orm.get _ (companies db)) as [c|]; cbn [bind fst snd]; auto.
  match goal with
  | |- context [Orm.save_request db ?new] =>
      destruct (Orm.save_request db new) as [[db1 r]|] eqn:Hs; cbn [fst snd];
      auto;
      destruct (insert_request_inv db db1 new r eq_refl Hs)
        as (-> & Hrows & Hu & Hco & _)
  end.
  split; [assumption|]. split; [assumption|]. right. eexists.
  split; [reflexivity|]. split; [exact Hrows|]. split; reflexivity.
Qed.

End Stored.

(** ** The account an approval creates: what comes from the request *)

Section Copied.
Context {fw : Framework}.

(** X13.  The account created by an approval takes its name, phone,
    company and function from the request and its address from the
    request's address as [create_user] normalises it; it is active; and
    its password is the fixed string TempPassword123!, whatever password
    the applicant had chosen, since the request that is read back from the
    table carries none. *)
Theorem approved_account_from_request (db db' : DB) (user : User.t)
    (registration_id : nat) (data : Serializers.approval) (t : Views.clock)
    (uid : option nat) (num : option string) :
  Views.approve_registration db user registration_id data t
    = (R200_approved uid num, db') ->
  exists rr u,
    In rr (requests db)
    /\ RegistrationRequest.id rr = Some registration_id
    /\ users db' = (users db ++ [u])%list
    /\ User.id u = uid /\ User.employee_number u = num
    /\ User.password u = "TempPassword123!"
    /\ User.email u = normalize_email (RegistrationRequest.email rr)
    /\ User.first_name u = RegistrationRequest.first_name rr
    /\ User.last_name u = RegistrationRequest.last_name rr
    /\ User.phone u = RegistrationRequest.phone rr
    /\ User.company u = RegistrationRequest.company rr
    /\ User.function u = RegistrationRequest.function rr
    /\ User.is_active u = true.
Proof.
  intros H.
  apply approve_inv in H
    as (rr & db1 & u & _ & Hin & Hid & _ & Hsave & Hmk & -> & ->).
  destruct (save_request_update db db1
              (RegistrationRequest.with_review "approved" (User.id user)
                 (Some (Views.now_reviewed t)) rr)
              _ registration_id Hid Hsave) as (_ & Husers & _).
  apply create_user_account_inv in Hmk
    as (username & c & _ & _ & -> & Hnew & _).
  exists rr. eexists. split; [exact Hin|]. split; [exact Hid|].
  split; [rewrite <- Husers; exact Hnew|]. repeat split.
Qed.

End Copied.

(** ** Passwords *)

Lemma search_spec (cls : ascii -> bool) (s : string) :
  Serializers.search cls s = true <->
  exists c, In c (list_ascii_of_string s) /\ cls c = true.
Proof.
  induction s as [|a s IH]; simpl.
  - split; [discriminate|intros (c & [] & _)].
  - rewrite orb_true_iff, IH. split.
    + intros [Ha|(c & Hc & Hcls)]; [exists a; auto | exists c; auto].
    + intros (c & [<-|Hc] & Hcls); [now left | right; now exists c].
Qed.

Section Passwords.
Context {fw : Framework}.

(** X14.  [validate_password] accepts a password exactly when Django's
    validators accept it and it has at least 8 characters, among them a
    capital A..Z, a small a..z and a digit 0..9; an accepted password is
    handed on unchanged. *)
Theorem password_rules (value : string) :
  (forall out, Serializers.validate_password value = Ok out -> out = value)
  /\ (Serializers.validate_password value = Ok value <->
      django_validate_password value = Ok tt
      /\ 8 <= String.length value
      /\ (exists c, In c (list_ascii_of_string value) /\ Py.isupper c = true)
      /\ (exists c, In c (list_ascii_of_string value) /\ Py.islower c = true)
      /\ (exists c, In c (list_ascii_of_string value) /\ Py.isdigit c = true)).
Proof.
  unfold Serializers.validate_password. rewrite <- !search_spec.
  destruct (django_validate_password value) as [[]|e]; cbn [bind].
  2:{ split; [discriminate|]. split; [discriminate|]. intros [H _]. discriminate. }
  destruct (Nat.ltb_spec (String.length value) 8) as [Hlt|Hge].
  { split; [discriminate|]. split; [discriminate|]. intros (_ & H & _). lia. }
  destruct (Serializers.search Py.isupper value); cbn [negb].
  2:{ split; [discriminate|]. split; [discriminate|].
      intros (_ & _ & H & _). discriminate. }
  destruct (Serializers.search Py.islower value); cbn [negb].
  2:{ split; [discriminate|]. split; [discriminate|].
      intros (_ & _ & _ & H & _). discriminate. }
  destruct (Serializers.search Py.isdigit value); cbn [negb].
  2:{ split; [discriminate|]. split; [discriminate|].
      intros (_ & _ & _ & _ & H). discriminate. }
  split; [now intros out [= <-]|]. split; auto.
Qed.

End Passwords.

(** ** Company lookup *)

Section LookupView.
Context {fw : Framework}.

(** X15.  [CompanyLookupView] answers 200 only with an active company
    whose code is the upper-cased entry, of at least 4 characters; it
    answers 200 whenever that company is the one [get] finds; an entry of
    fewer than 4 characters is answered 400 whether or not a company has
    that code; and the view's own 404 is never given, because the
    serializer has run the same query and answers 400 first. *)
Theorem company_lookup_answers (db : DB) (company_code : string) :
  fst (Views.company_lookup db company_code) <> R404
  /\ (forall c, Views.company_lookup db company_code = (R200, Some c) ->
        In c (companies db) /\ Company.is_active c = true
        /\ exists v, to_internal_value "company_code" company_code = Ok v
             /\ 4 <= String.length v
             /\ Company.company_code c = Py.upper v)
  /\ (forall v c, to_internal_value "company_code" company_code = Ok v ->
        4 <= String.length v ->
        Orm.get (fun c => String.eqb (Company.company_code c) (Py.upper v)
                          && Company.is_active c) (companies db) = Ok c ->
        Views.company_lookup db company_code = (R200, Some c))
  /\ (forall v, to_internal_value "company_code" company_code = Ok v ->
        String.length v < 4 ->
        Views.company_lookup db company_code = (R400 ["company_code"], None)).
Proof.
  unfold Views.company_lookup, Serializers.lookup_is_valid,
    Serializers.lookup_validate_company_code.
  destruct (to_internal_value "company_code" company_code) as [v|e]; cbn [bind].
  2:{ split; [destruct e; discriminate|].
      split; [intros c H; destruct e; discriminate H|].
      split; intros; discriminate. }
  destruct (Nat.ltb_spec (String.length v) 4) as [Hlt|Hge].
  { cbn [bind fst]. split; [discriminate|]. split; [|split].
    - intros c H. discriminate H.
    - intros w c [= <-] Hw. lia.
    - reflexivity. }
  destruct (Orm.get _ (companies db)) as [c|e] eqn:Hg.
  - rewrite Hg. cbn [fst]. split; [discriminate|]. split; [|split].
    + intros c' [= <-]. apply get_Ok_In in Hg as [Hin Hp].
      apply andb_true_iff in Hp as [Hcode Hact]. apply String.eqb_eq in Hcode.
      repeat split; try assumption. now exists v.
    + intros w c' [= <-] _ Hg'. rewrite Hg in Hg'. now injection Hg' as <-.
    + intros w [= <-] Hw. lia.
  - split; [destruct e; discriminate|].
    split; [intros c H; destruct e; discriminate H|]. split.
    + intros w c [= <-] _ H. rewrite Hg in H. discriminate H.
    + intros w [= <-] Hw. lia.
Qed.

End LookupView.

(** ** Who is told of a new request *)

(** X16.  The accounts notified of a new request are exactly the active
    accounts of the request's company that may approve; and each of them
    finds the request in its pending list as soon as the request is
    stored pending and verified. *)
Theorem notified_managers_can_decide (db : DB) (rr : RegistrationRequest.t)
    (u : User.t) :
  (In u (Views.managers db rr) <->
     In u (users db)
     /\ User.company u = RegistrationRequest.company rr
     /\ Models.can_approve_users u = true
     /\ User.is_active u = true)
  /\ (In u (Views.managers db rr) -> In rr (requests db) ->
      RegistrationRequest.status rr = "pending" ->
      RegistrationRequest.email_verified rr = true ->
      In rr (Views.get_queryset db u)).
Proof.
  assert (Hiff : In u (Views.managers db rr) <->
                 In u (users db)
                 /\ User.company u = RegistrationRequest.company rr
                 /\ Models.can_approve_users u = true
                 /\ User.is_active u = true).
  { unfold Views.managers, Models.can_approve_users.
    rewrite filter_In, !andb_true_iff, Nat.eqb_eq. tauto. }
  split; [exact Hiff|].
  intros Hu Hin Hst Hv. apply Hiff in Hu as (_ & Hco & Hcan & _).
  unfold Views.get_queryset. rewrite Hcan. cbn [negb].
  apply (Permutation_in rr (Permutation_sym (newest_first_perm _))).
  apply filter_In. split; [assumption|]. apply open_for_spec. auto.
Qed.

(** ** The phone number of an account *)

Lemma take_all (s : string) : Py.take (String.length s) s = s.
Proof. induction s; simpl; congruence. Qed.

Lemma drop_all (s : string) : Py.drop (String.length s) s = "".
Proof. induction s; simpl; auto. Qed.

(** X17.  Every phone number that [validate_phone] hands on has 12
    characters, within the 15 of the phone columns, and satisfies the
    validator of the phone column of the account it will be copied to. *)
Theorem normalised_phone_fits_account (value out : string) :
  Serializers.validate_phone value = Ok out ->
  String.length out = 12 /\ Validators.phone out = true.
Proof.
  intros H. apply validate_phone_canonical in H as (d & -> & Hl & Hd).
  split; [simpl; now rewrite Hl|].
  unfold Validators.phone. apply existsb_exists. exists "+".
  split; [simpl; tauto|].
  change (Py.startswith "+" ("+316" ++ d)) with true.
  change (Py.drop (String.length "+") ("+316" ++ d)) with ("316" ++ d).
  rewrite andb_true_l. unfold Validators.digits_9_15.
  apply existsb_exists. exists 11. split; [simpl; tauto|].
  unfold Validators.digits_then_end.
  assert (Hlen : String.length ("316" ++ d) = 11) by (simpl; now rewrite Hl).
  rewrite <- Hlen, take_all, drop_all, Nat.eqb_refl.
  rewrite all_str_app, Hd. reflexivity.
Qed.

(** ** The admin actions on requests *)

Lemma decided_row_404 {fw : Framework} (db : DB) (r1 : RegistrationRequest.t)
    (i : nat) (user : User.t) (data : Serializers.approval) (t : Views.clock) :
  requests_consistent db -> In r1 (requests db) ->
  RegistrationRequest.id r1 = Some i ->
  RegistrationRequest.status r1 <> "pending" ->
  Models.can_approve_users user = true ->
  Views.approve_registration db user i data t = (R404, db).
Proof.
  intros Hc Hr1 Hid Hdec Hcan. unfold Views.approve_registration.
  rewrite Hcan. cbn [negb]. unfold Orm.get_object_or_404.
  rewrite get_none; [reflexivity|].
  intros y Hy. apply not_true_is_false. intros Hp.
  apply andb_true_iff in Hp as [Hyid Hopen]. apply has_id_spec in Hyid.
  apply open_for_spec in Hopen as (_ & Hst & _).
  assert (y = r1)
    by (apply (NoDup_map_inj RegistrationRequest.id _ y r1
                 (ids_distinct db Hc) Hy Hr1); congruence).
  subst y. contradiction.
Qed.

(** A column that is unique in a table is unique in every selection of
    its rows. *)
Lemma NoDup_map_filter {Row Key : Type} (column : Row -> Key)
    (keep : Row -> bool) (rows : list Row)
    (Hunique : NoDup (map column rows)) :
  NoDup (map column (filter keep rows)).
Proof.
  induction rows as [|row rows IH]; simpl; [constructor|].
  simpl in Hunique. apply NoDup_cons_iff in Hunique as [Hnew Hrest].
  destruct (keep row); simpl; [|now apply IH].
  apply NoDup_cons; [|now apply IH].
  intros Hin. apply Hnew. apply in_map_iff in Hin as (x & Hx & Hin).
  apply filter_In in Hin as [Hin _]. apply in_map_iff. now exists x.
Qed.

Lemma requests_queryset_In (db : DB) (request : Admin.http_request)
    (r : RegistrationRequest.t) :
  In r (Admin.requests_queryset db request) <->
  In r (requests db)
  /\ (Admin.is_superuser request = true
      \/ RegistrationRequest.company r = User.company (Admin.user request)).
Proof.
  unfold Admin.requests_queryset.
  assert (Hp : forall x, In x (Views.newest_first (requests db)) <-> In x (requests db)).
  { intros x. split; intros H.
    - exact (Permutation_in x (newest_first_perm _) H).
    - exact (Permutation_in x (Permutation_sym (newest_first_perm _)) H). }
  destruct (Admin.is_superuser request).
  - rewrite Hp. tauto.
  - rewrite filter_In, Hp, Nat.eqb_eq. intuition discriminate.
Qed.

Lemma requests_queryset_NoDup (db : DB) (request : Admin.http_request) :
  NoDup (map RegistrationRequest.id (requests db)) ->
  NoDup (map RegistrationRequest.id (Admin.requests_queryset db request)).
Proof.
  intros H. unfold Admin.requests_queryset.
  assert (Hq : NoDup (map RegistrationRequest.id (Views.newest_first (requests db)))).
  { apply (Permutation_NoDup
             (Permutation_map _ (Permutation_sym (newest_first_perm (requests db))))).
    exact H. }
  destruct (Admin.is_superuser request); [assumption|].
  now apply NoDup_map_filter.
Qed.

Lemma bulk_approved_In (db : DB) (request : Admin.http_request)
    (selected : list nat) (r : RegistrationRequest.t) :
  In r (bulk_approved db request selected) <->
  In r (requests db)
  /\ (Admin.is_superuser request = true
      \/ RegistrationRequest.company r = User.company (Admin.user request))
  /\ Admin.ticked selected r = true
  /\ RegistrationRequest.status r = "pending"
  /\ RegistrationRequest.email_verified r = true.
Proof.
  unfold bulk_approved, Admin.action_queryset.
  rewrite !filter_In, requests_queryset_In, andb_true_iff, String.eqb_eq,
    Bool.eqb_true_iff. tauto.
Qed.

(** The loop of [approve_requests] over rows of the table with different
    primary keys. *)
Lemma approve_each_runs (reviewer : option nat) (now : nat -> nat)
    (rows : list RegistrationRequest.t) :
  forall (db : DB) (k : nat),
    requests_consistent db ->
    NoDup (map RegistrationRequest.id rows) ->
    (forall r, In r rows -> In r (requests db)) ->
    exists db',
      Admin.approve_each db reviewer now k rows = (db', Ok (k + List.length rows))
      /\ users db' = users db /\ companies db' = companies db
      /\ requests_consistent db'
      /\ (forall r, In r (requests db) -> ~ In r rows -> In r (requests db'))
      /\ (forall r, In r rows ->
            exists j, In (RegistrationRequest.with_review "approved" reviewer
                            (Some (now j)) r) (requests db')).
Proof.
  induction rows as [|r rest IH]; intros db k Hc Hnd Hin.
  - exists db. simpl. rewrite Nat.add_0_r.
    split; [reflexivity|]. split; [reflexivity|]. split; [reflexivity|].
    split; [assumption|]. split; [auto|]. intros r [].
  - simpl in Hnd. inversion Hnd as [|? ? Hnotin Hnd']; subst.
    assert (Hr : In r (requests db)) by (apply Hin; now left).
    destruct (update_request_ok db
                (RegistrationRequest.with_review "approved" reviewer
                   (Some (now k)) r) r Hc Hr)
      as (db1 & Hs & Hrows & Hu & Hco & _ & _ & Hr' & Hc1); [repeat split|].
    assert (Hothers : forall x, In x (requests db) -> x <> r -> In x (requests db1)).
    { intros x Hx Hne. rewrite Hrows.
      apply (replace_row_others _
               (RegistrationRequest.with_review "approved" reviewer
                  (Some (now k)) r)
               r x (ids_distinct db Hc) Hr Hx eq_refl Hne). }
    assert (Hrest : forall x, In x rest -> x <> r).
    { intros x Hx ->. apply Hnotin. now apply in_map. }
    destruct (IH db1 (S k) Hc1 Hnd') as (db' & Hrun & Hu' & Hco' & Hc' & Hkept & Hdone).
    { intros x Hx. apply Hothers; [apply Hin; now right | now apply Hrest]. }
    exists db'. simpl. rewrite Hs, Hrun.
    split; [f_equal; f_equal; lia|].
    split; [congruence|]. split; [congruence|]. split; [assumption|]. split.
    + intros x Hx Hnot. apply Hkept.
      * apply Hothers; [assumption|]. intros ->. apply Hnot. now left.
      * intros Hxr. apply Hnot. now right.
    + intros x [<-|Hx]; [|now apply Hdone].
      exists k. apply Hkept; [assumption|].
      intros Hin'. apply Hnotin.
      apply (in_map RegistrationRequest.id) in Hin'. exact Hin'.
Qed.

Section BulkActions.
Context {fw : Framework}.

(** X18.  [approve_requests] of the admin site, on a consistent request
    table: every ticked request that the caller's queryset holds and that
    is pending and verified is stored as approved, reviewed by the caller;
    the count reported is their number; every other request is as it was;
    and no account is created.  The decision view then answers 404 for
    each of these requests, so none of them gets an account through the
    workflow. *)
Theorem bulk_approval_makes_no_account (db : DB) (request : Admin.http_request)
    (selected : list nat) (now : nat -> nat) :
  requests_consistent db ->
  exists db',
    Admin.approve_requests db request selected now
    = (db', Ok (List.length (bulk_approved db request selected)))
    /\ users db' = users db /\ companies db' = companies db
    /\ requests_consistent db'
    /\ (forall r, In r (requests db) ->
          ~ In r (bulk_approved db request selected) -> In r (requests db'))
    /\ (forall r, In r (bulk_approved db request selected) ->
          exists j, In (RegistrationRequest.with_review "approved"
                          (User.id (Admin.user request)) (Some (now j)) r)
                       (requests db'))
    /\ (forall r i user2 data t,
          In r (bulk_approved db request selected) ->
          RegistrationRequest.id r = Some i ->
          Models.can_approve_users user2 = true ->
          Views.approve_registration db' user2 i data t = (R404, db')).
Proof.
  intros Hc.
  destruct (approve_each_runs (User.id (Admin.user request)) now
              (bulk_approved db request selected) db 0 Hc)
    as (db' & Hrun & Hu & Hco & Hc' & Hkept & Hdone).
  - unfold bulk_approved, Admin.action_queryset.
    do 2 apply NoDup_map_filter.
    apply requests_queryset_NoDup. exact (ids_distinct db Hc).
  - intros r Hr. now apply bulk_approved_In in Hr.
  - exists db'. do 6 (split; [assumption|]).
    intros r i user2 data t Hr Hid Hcan.
    destruct (Hdone r Hr) as [j Hj].
    apply (decided_row_404 db' _ i user2 data t Hc' Hj); auto. discriminate.
Qed.

End BulkActions.

Lemma filter_length_perm {A} (p : A -> bool) (l l' : list A) :
  Permutation l l' -> List.length (filter p l) = List.length (filter p l').
Proof.
  induction 1 as [|x l l' _ IH|x y l|l l' l'' _ IH1 _ IH2]; simpl.
  - reflexivity.
  - destruct (p x); simpl; congruence.
  - destruct (p x), (p y); reflexivity.
  - congruence.
Qed.

Lemma filter_and {A} (p q : A -> bool) (l : list A) :
  filter p (filter q l) = filter (fun x => q x && p x) l.
Proof.
  induction l as [|a l IH]; simpl; [reflexivity|].
  destruct (q a); simpl; [destruct (p a); simpl; congruence | assumption].
Qed.

(** X19.  [reject_requests] of the admin site rejects, with its fixed
    reason and the caller as reviewer, exactly the ticked requests that
    the caller may see and that are pending, whether or not their e-mail
    was verified; the number it reports is the number of these rows; all
    other requests, the accounts and the companies are as they were, and
    a consistent request table stays consistent. *)
Theorem bulk_rejection_rows (db : DB) (request : Admin.http_request)
    (selected : list nat) (now : nat) :
  let out := Admin.reject_requests db request selected now in
  users (fst out) = users db /\ companies (fst out) = companies db
  /\ (forall r, In r (requests db) ->
        Admin.rejects request selected r = true ->
        In (bulk_rejected request now r) (requests (fst out)))
  /\ (forall r, In r (requests db) ->
        Admin.rejects request selected r = false -> In r (requests (fst out)))
  /\ (forall r, Admin.rejects request selected r = true <->
        Admin.ticked selected r = true
        /\ (Admin.is_superuser request = true
            \/ RegistrationRequest.company r = User.company (Admin.user request))
        /\ RegistrationRequest.status r = "pending")
  /\ snd out
     = List.length (filter (Admin.rejects request selected) (requests db))
  /\ (requests_consistent db -> requests_consistent (fst out)).
Proof.
  cbv zeta. unfold Admin.reject_requests. cbn [fst snd users companies requests].
  split; [reflexivity|]. split; [reflexivity|]. split; [|split; [|split; [|split]]].
  - intros r Hr Hhit. apply in_map_iff. exists r. now rewrite Hhit.
  - intros r Hr Hhit. apply in_map_iff. exists r. now rewrite Hhit.
  - intros r. unfold Admin.rejects.
    rewrite !andb_true_iff, orb_true_iff, Nat.eqb_eq, String.eqb_eq. tauto.
  - unfold Admin.action_queryset, Admin.requests_queryset.
    destruct (Admin.is_superuser request) eqn:Hsu.
    + rewrite filter_and.
      rewrite (filter_length_perm _ _ _ (newest_first_perm (requests db))).
      f_equal. apply filter_ext. intros r. unfold Admin.rejects.
      now rewrite Hsu, orb_true_l, andb_true_r.
    + rewrite !filter_and.
      rewrite (filter_length_perm _ _ _ (newest_first_perm (requests db))).
      f_equal. apply filter_ext. intros r. unfold Admin.rejects.
      rewrite Hsu, orb_false_l.
      destruct (Nat.eqb _ _), (Admin.ticked selected r); reflexivity.
  - intros [Hids Hiss Htok Hpair].
    assert (Hkey : forall B (key : RegistrationRequest.t -> B),
               (forall r, key (bulk_rejected request now r) = key r) ->
               map key (map (fun r => if Admin.rejects request selected r
                                      then bulk_rejected request now r else r)
                            (requests db))
               = map key (requests db)).
    { intros B key Hk. rewrite map_map. apply map_ext. intros r.
      destruct (Admin.rejects request selected r); [apply Hk|reflexivity]. }
    split; cbn [requests next_request_id].
    + unfold bulk_rejected in Hkey. rewrite Hkey; [assumption|reflexivity].
    + intros r Hr. apply in_map_iff in Hr as (x & <- & Hx).
      destruct (Admin.rejects request selected x); [|now apply Hiss].
      exact (Hiss x Hx).
    + unfold bulk_rejected in Hkey. rewrite Hkey; [assumption|reflexivity].
    + unfold bulk_rejected in Hkey. rewrite Hkey; [assumption|reflexivity].
Qed.

(** X20.  The admin actions of a caller who is not a superuser reach the
    caller's company only: whatever primary keys are ticked, a request of
    another company is left exactly as it is by [approve_requests] and by
    [reject_requests]. *)
Theorem admin_actions_stay_in_company (db : DB) (request : Admin.http_request)
    (selected : list nat) (r : RegistrationRequest.t) :
  requests_consistent db ->
  Admin.is_superuser request = false ->
  In r (requests db) ->
  RegistrationRequest.company r <> User.company (Admin.user request) ->
  (forall now, In r (requests (fst (Admin.approve_requests db request selected now))))
  /\ (forall now, In r (requests (fst (Admin.reject_requests db request selected now)))).
Proof.
  intros Hc Hsu Hr Hco. split; intros now.
  - destruct (approve_each_runs (User.id (Admin.user request)) now
                (bulk_approved db request selected) db 0 Hc)
      as (db' & Hrun & _ & _ & _ & Hkept & _).
    + unfold bulk_approved, Admin.action_queryset.
      do 2 apply NoDup_map_filter.
      apply requests_queryset_NoDup. exact (ids_distinct db Hc).
    + intros x Hx. now apply bulk_approved_In in Hx.
    + unfold Admin.approve_requests. fold (bulk_approved db request selected).
      rewrite Hrun. cbn [fst]. apply Hkept; [assumption|].
      intros Hin. apply bulk_approved_In in Hin as (_ & [Hs|Hc'] & _);
        [congruence|contradiction].
  - unfold Admin.reject_requests. cbn [fst requests].
    apply in_map_iff. exists r. split; [|assumption].
    unfold Admin.rejects. rewrite Hsu, orb_false_l.
    apply Nat.eqb_neq in Hco. now rewrite Hco, andb_false_r.
Qed.

(** ** Accounts and companies made in the admin site *)

Lemma models_save_fields (db db' : DB) (u u' : User.t) :
  Models.save db u = Ok (db', u') ->
  User.username u' = User.username u /\ User.role u' = User.role u
  /\ User.company u' = User.company u
  /\ User.is_approved u' = User.is_approved u
  /\ User.approved_by u' = User.approved_by u
  /\ User.approved_at u' = User.approved_at u
  /\ User.employee_number u' <> None
  /\ (Models.unset (User.employee_number u) = false ->
      User.employee_number u' = User.employee_number u)
  /\ In u' (users db').
Proof.
  unfold Models.save, Models.assign_employee_number. intros H.
  assert (Hsave : forall x, Orm.save_user db x = Ok (db', u') ->
            User.username u' = User.username x /\ User.role u' = User.role x
            /\ User.company u' = User.company x
            /\ User.is_approved u' = User.is_approved x
            /\ User.approved_by u' = User.approved_by x
            /\ User.approved_at u' = User.approved_at x
            /\ User.employee_number u' = User.employee_number x
            /\ User.employee_number x <> None
            /\ In u' (users db')).
  { intros x Hx. unfold Orm.save_user in Hx.
    destruct (User.id x) as [i|]; destruct (Orm.check_user _ x) as [[]|] eqn:Hc;
      cbn [bind] in Hx; try discriminate; injection Hx as <- <-;
      apply check_user_Ok_inv in Hc as (_ & Hsome & _);
      cbn [users]; repeat split; try assumption.
    - destruct (existsb _ (users db)) eqn:He.
      + apply existsb_exists in He as (y & Hy & Hid).
        apply in_map_iff. exists y. now rewrite Hid.
      + apply in_or_app. right. now left.
    - apply in_or_app. right. now left. }
  destruct (Models.unset (User.employee_number u)) eqn:Hun.
  - destruct (Orm.get _ (companies db)) as [c|]; cbn [bind] in H; [|discriminate].
    apply Hsave in H as (H1 & H2 & H3 & H4 & H5 & H6 & H7 & H8 & H9).
    repeat split; try assumption; try discriminate. rewrite H7. discriminate.
  - cbn [bind] in H.
    apply Hsave in H as (H1 & H2 & H3 & H4 & H5 & H6 & H7 & H8 & H9).
    repeat split; try assumption; congruence.
Qed.

(** X21.  An account that [UserAdmin.save_model] has saved is approved, by
    the caller and at the time read, whenever it was being added and the
    caller's role is manager or owner, be the caller approved or not; in
    every other case its approval is what the form gave.  Its role is
    what the form gave, and it has an employee number. *)
Theorem admin_added_account_approved (db db' : DB)
    (request : Admin.http_request) (obj u : User.t) (change : bool) (now : nat) :
  Admin.user_save_model db request obj change now = Ok (db', u) ->
  (change = false /\ Models.is_manager_or_above (Admin.user request) = true ->
     User.is_approved u = true
     /\ User.approved_by u = User.id (Admin.user request)
     /\ User.approved_at u = Some now)
  /\ (change = true \/ Models.is_manager_or_above (Admin.user request) = false ->
       User.is_approved u = User.is_approved obj
       /\ User.approved_by u = User.approved_by obj
       /\ User.approved_at u = User.approved_at obj)
  /\ User.role u = User.role obj
  /\ User.employee_number u <> None
  /\ In u (users db').
Proof.
  unfold Admin.user_save_model. intros H.
  destruct change; cbn [negb andb] in H.
  - apply models_save_fields in H as (_ & Hr & _ & Ha & Hb & Hc & Hn & _ & Hin).
    split; [intros [Hf _]; discriminate|]. auto 6.
  - destruct (Models.is_manager_or_above (Admin.user request)).
    + apply models_save_fields in H as (_ & Hr & _ & Ha & Hb & Hc & Hn & _ & Hin).
      split; [auto|]. split; [intros [Hf|Hf]; discriminate|]. auto.
    + apply models_save_fields in H as (_ & Hr & _ & Ha & Hb & Hc & Hn & _ & Hin).
      split; [intros [_ Hf]; discriminate|]. auto 6.
Qed.

Lemma code_exists_spec (db : DB) (code : string) :
  Admin.code_exists db code = true <->
  exists c, In c (companies db) /\ Company.company_code c = code.
Proof.
  unfold Admin.code_exists. rewrite existsb_exists. split.
  - intros (c & Hc & He). apply String.eqb_eq in He. now exists c.
  - intros (c & Hc & He). exists c. split; [assumption|]. now apply String.eqb_eq.
Qed.

Lemma save_company_add (db : DB) (c : Company.t) :
  (forall x, In x (companies db) -> Company.id x <> Company.id c) ->
  Orm.save_company db c true
  = if Admin.code_exists db (Company.company_code c)
    then Raise (IntegrityError "company_code")
    else Ok (mkDB (companies db ++ [c])%list (users db) (requests db)
                  (next_user_id db) (next_request_id db)).
Proof.
  intros Hfresh. unfold Orm.save_company, Admin.code_exists.
  assert (Hmine : forall x, In x (companies db) ->
            Nat.eqb (Company.id x) (Company.id c) = false).
  { intros x Hx. apply Nat.eqb_neq. now apply Hfresh. }
  assert (Hall : filter (fun x => negb (Nat.eqb (Company.id x) (Company.id c)))
                        (companies db) = companies db).
  { clear Hfresh. induction (companies db) as [|a l IH]; simpl; [reflexivity|].
    rewrite (Hmine a (or_introl eq_refl)). simpl. f_equal. apply IH.
    intros x Hx. apply Hmine. now right. }
  rewrite Hall. rewrite (existsb_false _ _ Hmine).
  destruct (existsb _ (companies db)); reflexivity.
Qed.

(** X22.  [CompanyAdmin.save_model] for a new company, on a consistent
    company table: with the code left empty the save goes through, the
    company is stored under the code issued, a code no company had, and
    the table stays consistent; with a code given that a company already
    has, the save raises and nothing is stored. *)
Theorem company_added_under_free_code (db : DB) (obj : Company.t) :
  companies_consistent db ->
  (forall x, In x (companies db) -> Company.id x <> Company.id obj) ->
  (Company.company_code obj = "" ->
   exists code db',
     Admin.company_save_model db obj false = Ok db'
     /\ Admin.generate_code db (Company.name obj) = Some code
     /\ Admin.code_exists db code = false
     /\ companies db'
        = (companies db
           ++ [Company.Build (Company.id obj) (Company.name obj) code
                 (Company.is_active obj)])%list
     /\ users db' = users db /\ requests db' = requests db
     /\ companies_consistent db')
  /\ (Company.company_code obj <> "" ->
      Admin.code_exists db (Company.company_code obj) = true ->
      exists e, Admin.company_save_model db obj false = Raise e).
Proof.
  intros [Hids Hcodes] Hfresh. split.
  - intros Hnone.
    destruct (generator_first_free (companies db) Company.company_code
                (Py.zfill 2) (Admin.base_code (Company.name obj))
                (zfill_inj 2) (zfill_not_empty 2))
      as (code & j & Hrun & _ & Hfree & _).
    change (Admin.generate_code db (Company.name obj) = Some code) in Hrun.
    change (Admin.code_exists db code = false) in Hfree.
    unfold Admin.company_save_model, Admin.issue_code.
    rewrite Hnone. cbn [Py.truthy negb]. rewrite Hrun.
    rewrite save_company_add by exact Hfresh.
    cbn [Company.company_code]. rewrite Hfree.
    exists code. eexists. split; [reflexivity|].
    cbn [companies users requests]. repeat split; try assumption.
    + cbn [companies]. rewrite map_app. simpl.
      apply NoDup_app; [assumption|repeat constructor; auto|].
      intros a Ha [<-|[]]. apply in_map_iff in Ha as (x & Hx & Hin).
      exact (Hfresh x Hin Hx).
    + cbn [companies]. rewrite map_app. simpl.
      apply NoDup_app; [assumption|repeat constructor; auto|].
      intros a Ha [<-|[]]. apply in_map_iff in Ha as (x & Hx & Hin).
      apply not_true_iff_false in Hfree. apply Hfree.
      apply code_exists_spec. now exists x.
  - intros Hgiven Htaken. unfold Admin.company_save_model, Admin.issue_code.
    destruct (Company.company_code obj) eqn:Hcode; [congruence|].
    cbn [Py.truthy negb]. rewrite save_company_add by exact Hfresh.
    rewrite Hcode, Htaken. now eexists.
Qed.

(** ** The width of an issued code *)

Lemma take_length_le (n : nat) (s : string) : String.length (Py.take n s) <= n.
Proof.
  revert s. induction n as [|n IH]; intros [|c s]; simpl; try lia.
  specialize (IH s). lia.
Qed.

Lemma zfill_2_width (k : nat) : k < 100 -> String.length (Py.zfill 2 k) = 2.
Proof.
  intros Hk.
  assert (H : forallb (fun k => Nat.eqb (String.length (Py.zfill 2 k)) 2)
                      (seq 0 100) = true) by (vm_compute; reflexivity).
  rewrite forallb_forall in H. apply Nat.eqb_eq, H, in_seq. lia.
Qed.

(** X23.  While there are fewer than 100 companies, an issued code has at
    most 6 characters, within the 8 of the column: at most 4 of the name
    and, when the base is taken, 2 digits. *)
Theorem issued_code_width (db : DB) (name code : string) :
  List.length (companies db) < 100 ->
  Admin.generate_code db name = Some code ->
  String.length code <= 6.
Proof.
  intros Hn Hrun. unfold Admin.generate_code in Hrun.
  apply probe_first_free in Hrun as (j & Hj & -> & _).
  pose proof (take_length_le 4
                (Py.join (map Py.upper (firstn 2 (Py.split name))))) as Hb.
  fold (Admin.base_code name) in Hb.
  destruct j as [|j]; simpl; [lia|].
  rewrite str_length_app, zfill_2_width; lia.
Qed.

(** ** The seeding command *)

Lemma create_unless_exists_inv (db db' : DB) (company : Company.t)
    (username email_ password first last role function phone : string) :
  Command.create_unless_exists db company username email_ password first last
    role function phone = Ok db' ->
  companies db' = companies db
  /\ Views.username_exists db' username = true
  /\ (forall name, Views.username_exists db name = true ->
                   Views.username_exists db' name = true)
  /\ (Views.username_exists db username = true -> db' = db).
Proof.
  unfold Command.create_unless_exists.
  destruct (Views.username_exists db username) eqn:He.
  - intros [= <-]. auto.
  - destruct (Models.save db _) as [[db1 u]|] eqn:Hs; cbn [bind fst];
      [|discriminate].
    intros [= <-].
    assert (Hco : companies db1 = companies db).
    { unfold Models.save, Models.assign_employee_number in Hs.
      cbn [User.employee_number Models.unset Py.truthy negb] in Hs.
      destruct (Orm.get _ (companies db)); cbn [bind] in Hs; [|discriminate].
      unfold Orm.save_user in Hs. cbn [User.with_employee_number User.id] in Hs.
      destruct (Orm.check_user _ _); cbn [bind] in Hs; [|discriminate].
      now injection Hs as <- _. }
    assert (Hadd : exists u', users db1 = (users db ++ [u'])%list
                              /\ User.username u' = username).
    { unfold Models.save, Models.assign_employee_number in Hs.
      cbn [User.employee_number Models.unset Py.truthy negb] in Hs.
      destruct (Orm.get _ (companies db)); cbn [bind] in Hs; [|discriminate].
      unfold Orm.save_user in Hs. cbn [User.with_employee_number User.id] in Hs.
      destruct (Orm.check_user _ _); cbn [bind] in Hs; [|discriminate].
      injection Hs as <- <-. eexists. split; reflexivity. }
    destruct Hadd as (u' & Hu & Hname).
    split; [assumption|]. unfold Views.username_exists. rewrite Hu.
    split; [|split; [|discriminate]].
    + rewrite existsb_app. simpl. rewrite Hname, String.eqb_refl.
      now rewrite orb_true_r.
    + intros name Hn. rewrite existsb_app.
      unfold Views.username_exists in Hn. now rewrite Hn.
Qed.

Lemma create_unless_exists_skip (db : DB) (company : Company.t)
    (username email_ password first last role function phone : string) :
  Views.username_exists db username = true ->
  Command.create_unless_exists db company username email_ password first last
    role function phone = Ok db.
Proof. intros H. unfold Command.create_unless_exists. now rewrite H. Qed.

Lemma get_or_create_again (db db' : DB) (uuid : nat) (c : Company.t) :
  Command.get_or_create db uuid = Ok (db', c) ->
  Orm.get (fun c => String.eqb (Company.company_code c) "JILL01") (companies db')
  = Ok c.
Proof.
  unfold Command.get_or_create.
  destruct (Orm.get _ (companies db)) as [c0|[]] eqn:Hg; try discriminate.
  - now intros [= <- <-].
  - unfold Orm.save_company.
    destruct (existsb _ (filter _ (companies db))); [discriminate|].
    cbn [Company.id andb].
    destruct (existsb _ (companies db)) eqn:He; cbn [andb bind]; [discriminate|].
    intros [= <- <-]. cbn [companies].
    unfold Orm.get in *. rewrite filter_app.
    destruct (filter _ (companies db)) as [|y [|z l]]; try discriminate.
    reflexivity.
Qed.

(** X24.  The seeding command is idempotent: once it has run through, a
    second run, whatever primary key it would give a new company, finds
    the company and the three users and leaves the database as it is. *)
Theorem seeding_is_idempotent (db db' : DB) (uuid uuid' : nat) :
  Command.handle db uuid = Ok db' ->
  Command.handle db' uuid' = Ok db'.
Proof.
  unfold Command.handle. intros H.
  destruct (Command.get_or_create db uuid) as [[db0 c]|] eqn:Hg; cbn [bind] in H;
    [|discriminate].
  cbn [fst snd] in H.
  destruct (Command.create_unless_exists db0 c "admin" _ _ _ _ _ _ _)
    as [db1|] eqn:H1; cbn [bind] in H; [|discriminate].
  destruct (Command.create_unless_exists db1 c "manager.jill" _ _ _ _ _ _ _)
    as [db2|] eqn:H2; cbn [bind] in H; [|discriminate].
  apply get_or_create_again in Hg.
  apply create_unless_exists_inv in H1 as (Hc1 & Ha1 & Hk1 & _).
  apply create_unless_exists_inv in H2 as (Hc2 & Ha2 & Hk2 & _).
  apply create_unless_exists_inv in H as (Hc3 & Ha3 & Hk3 & _).
  assert (Hget : Command.get_or_create db' uuid' = Ok (db', c)).
  { unfold Command.get_or_create. now rewrite Hc3, Hc2, Hc1, Hg. }
  rewrite Hget. cbn [bind fst snd].
  rewrite create_unless_exists_skip by auto. cbn [bind].
  rewrite create_unless_exists_skip by auto. cbn [bind].
  now rewrite create_unless_exists_skip.
Qed.

(* ================================================================== *)
(** ** The further properties on the test data *)

Ltac rows_distinct := repeat constructor; simpl; intuition discriminate.

Ltac rows_issued :=
  let r := fresh "r" in
  let H := fresh "H" in
  intros r H; simpl in H;
  repeat (destruct H as [<-|H]; [eexists; split; [reflexivity|simpl; lia]|]);
  destruct H.

Ltac rows_numbered :=
  let r := fresh "r" in
  let H := fresh "H" in
  intros r H; simpl in H;
  repeat (destruct H as [<-|H]; [discriminate|]);
  destruct H.

Lemma verified_consistent : requests_consistent TestData.verified.
Proof. split; [rows_distinct | rows_issued | rows_distinct | rows_distinct]. Qed.

Lemma after_removal_consistent : requests_consistent MoreData.after_removal.
Proof. split; [rows_distinct | rows_issued | rows_distinct | rows_distinct]. Qed.

Lemma two_companies_consistent : requests_consistent MoreData.two_companies.
Proof. split; [rows_distinct | rows_issued | rows_distinct | rows_distinct]. Qed.

Lemma first_approved_consistent : requests_consistent TestData.first_approved.
Proof. split; [rows_distinct | rows_issued | rows_distinct | rows_distinct]. Qed.

Lemma seeded_users_consistent : users_consistent TestData.seeded.
Proof.
  split; [rows_distinct | rows_issued | rows_distinct | rows_distinct
          | rows_numbered].
Qed.

Lemma fresh_companies_consistent : companies_consistent TestData.fresh.
Proof. split; rows_distinct. Qed.

(** X1 on the test data: the manager rejects the verified request. *)
Lemma reject_with_reason_witness :
  exists db',
    Views.approve_registration (fw := plain) TestData.verified TestData.manager 1
      (Serializers.Approval (Some "rejected") (Some "Geen plek")) TestData.times
    = (R200_rejected, db')
    /\ In (decided_row "rejected" "Geen plek" TestData.manager TestData.times
             MoreData.pending_row) (requests db')
    /\ users db' = users TestData.verified.
Proof.
  destruct (reject_with_reason (fw := plain) TestData.verified TestData.manager
              1 MoreData.pending_row "Geen plek" TestData.times)
    as (db' & H & _ & Hin & _ & Hu & _).
  - exact verified_consistent.
  - reflexivity.
  - left. reflexivity.
  - reflexivity.
  - reflexivity.
  - discriminate.
  - exists db'. repeat split; assumption.
Defined.

(** X2 on the test data: a status that is no choice, and a rejection
    without a reason. *)
Lemma decision_body_refused_witness :
  Views.approve_registration (fw := plain) TestData.verified TestData.manager 1
    (Serializers.Approval (Some "pending") None) TestData.times
  = (R400 ["status"], TestData.verified)
  /\ Views.approve_registration (fw := plain) TestData.verified TestData.manager
       1 (Serializers.Approval (Some "rejected") (Some "")) TestData.times
     = (R400 ["rejection_reason"], TestData.verified).
Proof.
  destruct (decision_body_refused (fw := plain) TestData.verified
              TestData.manager 1 MoreData.pending_row TestData.times)
    as [Hs Hr].
  - exact verified_consistent.
  - reflexivity.
  - left. reflexivity.
  - reflexivity.
  - reflexivity.
  - split.
    + apply Hs; discriminate.
    + apply Hr. right. reflexivity.
Defined.

(** X3 on the test data: a body with a reason only. *)
Lemma decision_without_status_500_witness :
  Views.approve_registration (fw := plain) TestData.verified TestData.manager 1
    (Serializers.Approval None (Some "Geen plek")) TestData.times
  = (R500, TestData.verified).
Proof.
  apply (decision_without_status_500 (fw := plain) TestData.verified
           TestData.manager 1 MoreData.pending_row (Some "Geen plek")
           TestData.times).
  - exact verified_consistent.
  - reflexivity.
  - left. reflexivity.
  - reflexivity.
  - reflexivity.
Defined.

(** X5 on the test data: the manager approves the verified request. *)
Lemma approval_goes_through_witness :
  exists username db',
    Views.approve_registration (fw := plain) TestData.verified TestData.manager 1
      (Serializers.Approval (Some "approved") None) TestData.times
    = (R200_approved (Some 4) (Some "JILL01-0004"), db')
    /\ Views.username_exists TestData.verified username = false.
Proof.
  destruct (approval_goes_through (fw := plain) TestData.verified
              TestData.manager 1 MoreData.pending_row None TestData.times
              TestData.company)
    as (username & db' & H & Hfree & _).
  - exact verified_consistent.
  - reflexivity.
  - left. reflexivity.
  - reflexivity.
  - reflexivity.
  - reflexivity.
  - intros x [<-|[<-|[<-|[]]]]; vm_compute; discriminate.
  - exists username, db'. split; [exact H | exact Hfree].
Defined.

(** X6 on the test data: after an account was deleted the count gives
    0003 again, which the employee still holds. *)
Lemma approval_number_taken_500_witness :
  Views.approve_registration (fw := plain) MoreData.after_removal
    TestData.manager 1 (Serializers.Approval (Some "approved") None)
    TestData.times
  = (R500, MoreData.after_removal).
Proof.
  apply (approval_number_taken_500 (fw := plain) MoreData.after_removal
           TestData.manager 1 MoreData.pending_row None TestData.times
           TestData.company MoreData.employee).
  - exact after_removal_consistent.
  - reflexivity.
  - left. reflexivity.
  - reflexivity.
  - reflexivity.
  - reflexivity.
  - right. left. reflexivity.
  - reflexivity.
Defined.

Lemma second_decision_steps :
  steps (fw := plain) TestData.first_approved TestData.second_approved.
Proof.
  apply (steps_more TestData.first_approved TestData.first_approved);
    [apply steps_none|].
  exact (step_decide (fw := plain) TestData.first_approved TestData.manager 2
           (Serializers.Approval (Some "approved") None) TestData.times
         <: step (fw := plain) TestData.first_approved TestData.second_approved).
Qed.

(** X7 on the test data: the first request, approved, is as it was after
    the second has been approved. *)
Lemma decided_requests_final_witness :
  In (RegistrationRequest.with_review "approved" (Some 2) (Some 200)
        MoreData.pending_row)
     (requests TestData.second_approved).
Proof.
  apply (decided_requests_final (fw := plain) TestData.first_approved
           TestData.second_approved first_approved_consistent
           second_decision_steps).
  - left. reflexivity.
  - discriminate.
Defined.

(** X8 on the test data: the first request was approved; after the second
    approval the manager tries to reject it. *)
Lemma decision_is_once_witness :
  Views.approve_registration (fw := plain) TestData.second_approved
    TestData.manager 1
    (Serializers.Approval (Some "rejected") (Some "Geen plek")) TestData.times
  = (R404, TestData.second_approved).
Proof.
  destruct (decision_is_once (fw := plain) TestData.both_verified
              TestData.first_approved TestData.second_approved
              TestData.manager 1 (Serializers.Approval (Some "approved") None)
              TestData.times (R200_approved (Some 4) (Some "JILL01-0004")))
    as [H _].
  - split; [rows_distinct | rows_issued | rows_distinct | rows_distinct].
  - vm_compute. reflexivity.
  - right. eexists. eexists. reflexivity.
  - exact second_decision_steps.
  - apply H. reflexivity.
Defined.

(** X9 on the test data: the user table after the workflow. *)
Lemma accounts_stay_unique_witness :
  users_consistent TestData.approved
  /\ exists added,
       users TestData.approved = (users TestData.seeded ++ added)%list.
Proof.
  exact (accounts_stay_unique (fw := plain) TestData.seeded TestData.approved
           seeded_users_consistent workflow_steps).
Defined.

(** X10 on the test data: the manager's list when both have verified. *)
Lemma pending_list_content_witness :
  Permutation (Views.get_queryset TestData.both_verified TestData.manager)
              (filter (Views.open_for TestData.manager)
                      (requests TestData.both_verified))
  /\ StronglySorted not_older
       (Views.get_queryset TestData.both_verified TestData.manager).
Proof.
  destruct (pending_list_content TestData.both_verified TestData.manager)
    as (Hp & Hs & _).
  - reflexivity.
  - split; assumption.
Defined.

(** X11 on the test data: the first submission. *)
Lemma registration_stored_normalised_witness :
  exists r,
    requests TestData.submitted = (requests TestData.seeded ++ [r])%list
    /\ RegistrationRequest.status r = "pending"
    /\ Py.lower (RegistrationRequest.email r) = RegistrationRequest.email r.
Proof.
  destruct (registration_stored_normalised (fw := plain) TestData.seeded
              TestData.submitted TestData.application "tok-1" 100 (Some 1))
    as (r & Hr & _ & _ & _ & _ & _ & Hst & _ & _ & _ & Hl & _).
  - vm_compute. reflexivity.
  - exists r. repeat split; assumption.
Defined.

(** X13 on the test data: the account of the first applicant. *)
Lemma approved_account_from_request_witness :
  exists u,
    users TestData.approved = (users TestData.verified ++ [u])%list
    /\ User.password u = "TempPassword123!"
    /\ User.is_active u = true.
Proof.
  destruct (approved_account_from_request (fw := plain) TestData.verified
              TestData.approved TestData.manager 1
              (Serializers.Approval (Some "approved") None) TestData.times
              (Some 4) (Some "JILL01-0004"))
    as (rr & u & _ & _ & Hu & _ & _ & Hp & _ & _ & _ & _ & _ & _ & Ha).
  - vm_compute. reflexivity.
  - exists u. repeat split; assumption.
Defined.

(** X17 on the test data: the phone number of the first applicant. *)
Lemma normalised_phone_fits_account_witness :
  String.length "+31612345678" = 12 /\ Validators.phone "+31612345678" = true.
Proof.
  apply (normalised_phone_fits_account "06-12345678" "+31612345678").
  reflexivity.
Defined.

(** X18 on the test data: the manager ticks the verified request on the
    admin site and approves. *)
Lemma bulk_approval_makes_no_account_witness :
  exists db',
    Admin.approve_requests TestData.verified MoreData.manager_request [1]
      (fun j => 300 + j)
    = (db', Ok 1)
    /\ users db' = users TestData.verified
    /\ Views.approve_registration (fw := plain) db' TestData.manager 1
         (Serializers.Approval (Some "approved") None) TestData.times
       = (R404, db').
Proof.
  destruct (bulk_approval_makes_no_account (fw := plain) TestData.verified
              MoreData.manager_request [1] (fun j => 300 + j)
              verified_consistent)
    as (db' & H & Hu & _ & _ & _ & _ & H404).
  exists db'. split; [exact H|]. split; [exact Hu|].
  apply (H404 MoreData.pending_row).
  - left. reflexivity.
  - reflexivity.
  - reflexivity.
Defined.

(** X20 on the test data: the manager of the first company ticks both
    requests; the one of the second company is left as it is. *)
Lemma admin_actions_stay_in_company_witness :
  In MoreData.other_row
     (requests (fst (Admin.approve_requests MoreData.two_companies
                       MoreData.manager_request [1; 2] (fun j => 300 + j))))
  /\ In MoreData.other_row
        (requests (fst (Admin.reject_requests MoreData.two_companies
                          MoreData.manager_request [1; 2] 300))).
Proof.
  destruct (admin_actions_stay_in_company MoreData.two_companies
              MoreData.manager_request [1; 2] MoreData.other_row)
    as [Ha Hr].
  - exact two_companies_consistent.
  - reflexivity.
  - right. left. reflexivity.
  - discriminate.
  - split; [apply Ha | apply Hr].
Defined.

(** X21 on the test data: a manager who was never approved adds an
    account, which is approved. *)
Lemma admin_added_account_approved_witness :
  Models.can_approve_users TestData.unapproved = false
  /\ User.is_approved (snd MoreData.admin_added) = true
  /\ User.approved_by (snd MoreData.admin_added) = Some 9
  /\ User.approved_at (snd MoreData.admin_added) = Some 300.
Proof.
  split; [reflexivity|].
  destruct (admin_added_account_approved TestData.seeded
              (fst MoreData.admin_added)
              (Admin.Request TestData.unapproved false) MoreData.new_account
              (snd MoreData.admin_added) false 300)
    as [H _].
  - vm_compute. reflexivity.
  - apply H. split; reflexivity.
Defined.

(** X22 on the test data: the second company is added with its code left
    empty. *)
Lemma company_added_under_free_code_witness :
  exists code db',
    Admin.company_save_model TestData.fresh MoreData.sushi_bar false = Ok db'
    /\ Admin.code_exists TestData.fresh code = false
    /\ companies_consistent db'.
Proof.
  destruct (company_added_under_free_code TestData.fresh MoreData.sushi_bar)
    as [H _].
  - exact fresh_companies_consistent.
  - intros x [<-|[]]. discriminate.
  - destruct (H eq_refl) as (code & db' & Hs & _ & Hfree & _ & _ & _ & Hc).
    exists code, db'. split; [exact Hs | split; [exact Hfree | exact Hc]].
Defined.

(** X23 on the test data: the code of a second company of the same
    name. *)
Lemma issued_code_width_witness :
  String.length "SUSH01" <= 6.
Proof.
  apply (issued_code_width MoreData.two_companies "Sushi Bar" "SUSH01").
  - simpl. lia.
  - vm_compute. reflexivity.
Defined.

(** X24 on the test data: the command on an empty database, and again. *)
Lemma seeding_is_idempotent_witness :
  Command.handle TestData.seeded 7 = Ok TestData.seeded.
Proof.
  apply (seeding_is_idempotent TestData.empty TestData.seeded 1 7).
  vm_compute. reflexivity.
Defined.
